(** * Huddle Up: the messaging server, embedded and checked against its specification

    The development follows the server sources: the Sequelize models
    (models/*.js), the REST controllers (messageController, teamController,
    channelController) and the Socket.IO handlers of the server entry point.

    Storage is a record of tables, each table a list of rows in insertion
    order.  A model call ([Message.create], [ChannelMember.findOne], ...) is a
    computation in the [Promise] monad below: it reads and writes the tables
    and either resolves with a value or rejects with an error, keeping the
    writes made so far (the controllers open no transaction).  A controller is
    the [try]/[catch] around such a computation, returning an HTTP response.
    The database is the PostgreSQL of the deployment files.  Of what it does
    on its own account the embedding has the keys and unique constraints of
    the tables and the foreign keys that point at a message, which decide
    what a delete of a message does; the callers are authenticated users and
    every insert refers to rows just read, so the other foreign keys are not
    at stake.  The [updatedAt] column is left out.

    Values the server draws from its environment are arguments of the
    operation that draws them: the UUID a [create] assigns to the new row and
    the clock reading of [new Date()]. *)

From Stdlib Require Import Ascii String List Bool Arith ZArith Lia Sorted.
Import ListNotations.
Open Scope string_scope.
Open Scope list_scope.

(** ** Rows of the models *)

Definition UUID := string.
Definition Date := nat.

(** [DataTypes.ENUM('admin', 'member')] of TeamMember.role. *)
Inductive Role := admin | member.

Definition Role_eqb (a b : Role) : bool :=
  match a, b with
  | admin, admin | member, member => true
  | _, _ => false
  end.

(** [DataTypes.ENUM('text', 'file', 'image', 'system')] of Message.messageType. *)
Inductive MessageType := text | file | image | system.

Module User.
Record t := mk {
  id : UUID;
  email : string;
  username : string;
  firstName : string;
  lastName : string;
  isOnline : bool;
  lastSeen : option Date
}.
End User.

Module Team.
Record t := mk {
  id : UUID;
  name : string;
  description : option string;
  ownerId : UUID;
  inviteCode : option string
}.
End Team.

Module TeamMember.
Record t := mk {
  userId : UUID;
  teamId : UUID;
  role : Role
}.
End TeamMember.

Module Channel.
Record t := mk {
  id : UUID;
  name : string;
  description : option string;
  teamId : UUID;
  createdById : UUID;
  isPrivate : bool;
  lastMessageId : option UUID
}.
End Channel.

Module ChannelMember.
Record t := mk {
  userId : UUID;
  channelId : UUID
}.
End ChannelMember.

Module Message.
Record t := mk {
  id : UUID;
  content : string;
  senderId : UUID;
  channelId : UUID;
  teamId : UUID;
  messageType : MessageType;
  editedAt : option Date;
  parentMessageId : option UUID;
  createdAt : Date
}.
End Message.

Module MessageReaction.
Record t := mk {
  userId : UUID;
  messageId : UUID;
  emoji : string
}.
End MessageReaction.

(** ** The database *)

Record DB := mkDB {
  users : list User.t;
  teams : list Team.t;
  team_members : list TeamMember.t;
  channels : list Channel.t;
  channel_members : list ChannelMember.t;
  messages : list Message.t;
  message_reactions : list MessageReaction.t
}.

Definition set_users (f : list User.t -> list User.t) (db : DB) : DB :=
  mkDB (f (users db)) (teams db) (team_members db) (channels db)
       (channel_members db) (messages db) (message_reactions db).

Definition set_teams (f : list Team.t -> list Team.t) (db : DB) : DB :=
  mkDB (users db) (f (teams db)) (team_members db) (channels db)
       (channel_members db) (messages db) (message_reactions db).

Definition set_team_members (f : list TeamMember.t -> list TeamMember.t) (db : DB) : DB :=
  mkDB (users db) (teams db) (f (team_members db)) (channels db)
       (channel_members db) (messages db) (message_reactions db).

Definition set_channels (f : list Channel.t -> list Channel.t) (db : DB) : DB :=
  mkDB (users db) (teams db) (team_members db) (f (channels db))
       (channel_members db) (messages db) (message_reactions db).

Definition set_channel_members (f : list ChannelMember.t -> list ChannelMember.t) (db : DB) : DB :=
  mkDB (users db) (teams db) (team_members db) (channels db)
       (f (channel_members db)) (messages db) (message_reactions db).

Definition set_messages (f : list Message.t -> list Message.t) (db : DB) : DB :=
  mkDB (users db) (teams db) (team_members db) (channels db)
       (channel_members db) (f (messages db)) (message_reactions db).

Definition set_message_reactions (f : list MessageReaction.t -> list MessageReaction.t) (db : DB) : DB :=
  mkDB (users db) (teams db) (team_members db) (channels db)
       (channel_members db) (messages db) (f (message_reactions db)).

(** ** Promises over the database *)

(** What a rejected model call carries.  [ValidationError] is the failed
    [validate] rules of the columns, each a rule and its column, in the order
    of the columns; [UniqueConstraintError] a violated primary key or unique
    constraint; [ForeignKeyConstraintError] a delete from [table] that the
    foreign key [constraint] of the table [referencing] forbids;
    [DatabaseError] another refusal of a query, with the message of the
    database; [TypeError] the dereference of [null]. *)
Inductive Error :=
| ValidationError (failed : list (string * string))
| UniqueConstraintError (table : string)
| ForeignKeyConstraintError (table constraint referencing : string)
| DatabaseError (message : string)
| TypeError (property : string).

(** A name between double quotes, as the database writes it. *)
Definition quoted (name : string) : string :=
  String "034"%char name ++ String "034"%char "".

(** The message of one failed rule. *)
Definition ValidationErrorItem (failure : string * string) : string :=
  "Validation error: Validation " ++ fst failure ++ " on " ++ snd failure ++ " failed".

(** [error.message], as the controllers put it in their 500 bodies; the
    messages of several failed rules are joined by a comma and a line
    feed. *)
Definition Error_message (e : Error) : string :=
  match e with
  | ValidationError failed =>
      String.concat (String "," (String "010"%char "")) (map ValidationErrorItem failed)
  | UniqueConstraintError _ => "Validation error"
  | ForeignKeyConstraintError table constraint referencing =>
      "update or delete on table " ++ quoted table
      ++ " violates foreign key constraint " ++ quoted constraint
      ++ " on table " ++ quoted referencing
  | DatabaseError message => message
  | TypeError property =>
      "Cannot read properties of null (reading '" ++ property ++ "')"
  end.

Inductive Outcome (A : Type) :=
| Resolved (a : A)
| Rejected (e : Error).
Arguments Resolved {A} a.
Arguments Rejected {A} e.

(** An asynchronous computation over a state [St]; a [Promise] is one over
    the database. *)
Definition Async (St A : Type) := St -> St * Outcome A.
Definition Promise (A : Type) := Async DB A.

Definition resolve {St A} (a : A) : Async St A := fun st => (st, Resolved a).
Definition reject {St A} (e : Error) : Async St A := fun st => (st, Rejected e).

(** [const x = await p; k x]: a rejection skips the continuation and keeps the
    state as [p] left it. *)
Definition await {St A B} (p : Async St A) (k : A -> Async St B) : Async St B :=
  fun st =>
    match p st with
    | (st', Resolved a) => k a st'
    | (st', Rejected e) => (st', Rejected e)
    end.

Definition query {A} (f : DB -> A) : Promise A := fun db => (db, Resolved (f db)).
Definition exec (f : DB -> DB) : Promise unit := fun db => (f db, Resolved tt).

Declare Scope promise_scope.
Delimit Scope promise_scope with promise.
Notation "x <- p ;; k" := (await p (fun x => k))
  (at level 61, p at next level, right associativity) : promise_scope.
Notation "p ;; k" := (await p (fun _ => k))
  (at level 61, right associativity) : promise_scope.
Open Scope promise_scope.

(** [for (const x of xs) { await body x }] *)
Fixpoint for_of {St A} (xs : list A) (body : A -> Async St unit) : Async St unit :=
  match xs with
  | [] => resolve tt
  | x :: rest => body x ;; for_of rest body
  end.

(** ** Model calls

    One definition per call shape the server uses.  The arguments of a
    [where] clause are the arguments of the definition. *)

Definition len (lo hi : nat) (s : string) : bool :=
  Nat.leb lo (String.length s) && Nat.leb (String.length s) hi.

(** The [validate] rules of a model, each with its column and whether the
    value given passes it: the rules that fail, in the order of the columns.
    A rule is not run on a column that is not given. *)
Definition validate (rules : list (string * string * bool)) : list (string * string) :=
  map fst (filter (fun rule => negb (snd rule)) rules).

(** *** User *)

Definition User_findByPk (id : UUID) : Promise (option User.t) :=
  query (fun db => find (fun u => User.id u =? id) (users db)).

(** [User.update({ isOnline: true }, { where: { id } })] *)
Definition User_update_online (id : UUID) : Promise unit :=
  exec (set_users (map (fun u =>
    if User.id u =? id
    then User.mk (User.id u) (User.email u) (User.username u) (User.firstName u)
                 (User.lastName u) true (User.lastSeen u)
    else u))).

(** [User.update({ isOnline: false, lastSeen: new Date() }, { where: { id } })] *)
Definition User_update_offline (id : UUID) (now : Date) : Promise unit :=
  exec (set_users (map (fun u =>
    if User.id u =? id
    then User.mk (User.id u) (User.email u) (User.username u) (User.firstName u)
                 (User.lastName u) false (Some now)
    else u))).

(** *** Team and TeamMember *)

Definition Team_findByPk (id : UUID) : Promise (option Team.t) :=
  query (fun db => find (fun t => Team.id t =? id) (teams db)).

(** [Team.findOne({ where: { inviteCode } })] *)
Definition Team_findOne (inviteCode : string) : Promise (option Team.t) :=
  query (fun db =>
    find (fun t => match Team.inviteCode t with
                   | Some c => c =? inviteCode
                   | None => false
                   end) (teams db)).

(** [Team.create({ name, description, ownerId })]: [len: [1, 50]] on the
    name and [len: [0, 200]] on a given description, all failures reported
    together, then the insert under the key. *)
Definition Team_create (id : UUID) (name : string) (description : option string)
    (ownerId : UUID) : Promise Team.t :=
  fun db =>
    match validate [("len", "name", len 1 50 name);
                    ("len", "description",
                     match description with Some d => len 0 200 d | None => true end)] with
    | failure :: more => (db, Rejected (ValidationError (failure :: more)))
    | [] =>
        if existsb (fun t => Team.id t =? id) (teams db)
        then (db, Rejected (UniqueConstraintError "teams"))
        else
          let row := Team.mk id name description ownerId None in
          (set_teams (fun rows => rows ++ [row]) db, Resolved row)
    end.

(** [team.generateInviteCode(); await team.save()]: the invite code column
    is [unique]. *)
Definition Team_save_inviteCode (team : Team.t) (code : string) : Promise unit :=
  fun db =>
    if existsb (fun t => negb (Team.id t =? Team.id team)
                         && match Team.inviteCode t with
                            | Some c => c =? code
                            | None => false
                            end) (teams db)
    then (db, Rejected (UniqueConstraintError "teams"))
    else
      (set_teams (map (fun t =>
         if Team.id t =? Team.id team
         then Team.mk (Team.id t) (Team.name t) (Team.description t) (Team.ownerId t)
                      (Some code)
         else t)) db, Resolved tt).

Definition TeamMember_matches (userId teamId : UUID) (r : TeamMember.t) : bool :=
  (TeamMember.userId r =? userId) && (TeamMember.teamId r =? teamId).

(** [TeamMember.findOne({ where: { userId, teamId } })] *)
Definition TeamMember_findOne (userId teamId : UUID) : Promise (option TeamMember.t) :=
  query (fun db => find (TeamMember_matches userId teamId) (team_members db)).

(** [TeamMember.findOne({ where: { userId, teamId, role } })] *)
Definition TeamMember_findOne_role (userId teamId : UUID) (role : Role)
  : Promise (option TeamMember.t) :=
  query (fun db =>
    find (fun r => TeamMember_matches userId teamId r && Role_eqb (TeamMember.role r) role)
         (team_members db)).

(** [TeamMember.findAll({ where: { teamId } })] *)
Definition TeamMember_findAll (teamId : UUID) : Promise (list TeamMember.t) :=
  query (fun db => filter (fun r => TeamMember.teamId r =? teamId) (team_members db)).

(** [TeamMember.create]; the table has a unique index on (user, team). *)
Definition TeamMember_create (userId teamId : UUID) (role : Role) : Promise unit :=
  fun db =>
    if existsb (TeamMember_matches userId teamId) (team_members db)
    then (db, Rejected (UniqueConstraintError "team_members"))
    else (set_team_members (fun rows => rows ++ [TeamMember.mk userId teamId role]) db,
          Resolved tt).

(** [TeamMember.destroy({ where: { userId, teamId } })] *)
Definition TeamMember_destroy (userId teamId : UUID) : Promise unit :=
  exec (set_team_members (filter (fun r => negb (TeamMember_matches userId teamId r)))).

(** *** Channel and ChannelMember *)

Definition Channel_findByPk (id : UUID) : Promise (option Channel.t) :=
  query (fun db => find (fun c => Channel.id c =? id) (channels db)).

(** [Channel.findAll({ where: { teamId } })] *)
Definition Channel_findAll (teamId : UUID) : Promise (list Channel.t) :=
  query (fun db => filter (fun c => Channel.teamId c =? teamId) (channels db)).

(** [Channel.findAll({ where: { teamId, isPrivate: false } })] *)
Definition Channel_findAll_public (teamId : UUID) : Promise (list Channel.t) :=
  query (fun db =>
    filter (fun c => (Channel.teamId c =? teamId) && negb (Channel.isPrivate c))
           (channels db)).

(** The [beforeSave] hook of the model: the stored name starts with [#]. *)
Definition beforeSave (name : string) : string :=
  if String.prefix "#" name then name else "#" ++ name.

(** [Channel.create]: the column rules ([len: [1, 50]] on the name,
    [len: [0, 200]] on a given description) are checked on the values as
    passed and their failures reported together, then the hook runs, then
    the row is inserted under its primary key [id]. *)
Definition Channel_create (id : UUID) (name : string) (description : option string)
    (teamId createdById : UUID) (isPrivate : bool) : Promise Channel.t :=
  fun db =>
    match validate [("len", "name", len 1 50 name);
                    ("len", "description",
                     match description with Some d => len 0 200 d | None => true end)] with
    | failure :: more => (db, Rejected (ValidationError (failure :: more)))
    | [] =>
        if existsb (fun c => Channel.id c =? id) (channels db)
        then (db, Rejected (UniqueConstraintError "channels"))
        else
          let row := Channel.mk id (beforeSave name) description teamId createdById
                                isPrivate None in
          (set_channels (fun rows => rows ++ [row]) db, Resolved row)
    end.

(** [Channel.update({ lastMessageId }, { where: { id } })] *)
Definition Channel_update_lastMessageId (id lastMessageId : UUID) : Promise unit :=
  exec (set_channels (map (fun c =>
    if Channel.id c =? id
    then Channel.mk (Channel.id c) (Channel.name c) (Channel.description c)
                    (Channel.teamId c) (Channel.createdById c) (Channel.isPrivate c)
                    (Some lastMessageId)
    else c))).

Definition ChannelMember_matches (userId channelId : UUID) (r : ChannelMember.t) : bool :=
  (ChannelMember.userId r =? userId) && (ChannelMember.channelId r =? channelId).

(** [ChannelMember.findOne({ where: { userId, channelId } })] *)
Definition ChannelMember_findOne (userId channelId : UUID) : Promise (option ChannelMember.t) :=
  query (fun db => find (ChannelMember_matches userId channelId) (channel_members db)).

(** [ChannelMember.create]; the table has a unique index on (user, channel). *)
Definition ChannelMember_create (userId channelId : UUID) : Promise unit :=
  fun db =>
    if existsb (ChannelMember_matches userId channelId) (channel_members db)
    then (db, Rejected (UniqueConstraintError "channel_members"))
    else (set_channel_members (fun rows => rows ++ [ChannelMember.mk userId channelId]) db,
          Resolved tt).

(** Whether the rows violate the unique index among themselves or against
    [existing]. *)
Fixpoint ChannelMember_conflict (existing rows : list ChannelMember.t) : bool :=
  match rows with
  | [] => false
  | r :: rest =>
      existsb (ChannelMember_matches (ChannelMember.userId r) (ChannelMember.channelId r)) existing
      || ChannelMember_conflict (existing ++ [r]) rest
  end.

(** [ChannelMember.bulkCreate(rows)]: one multi-row insert, all or nothing. *)
Definition ChannelMember_bulkCreate (rows : list ChannelMember.t) : Promise unit :=
  fun db =>
    if ChannelMember_conflict (channel_members db) rows
    then (db, Rejected (UniqueConstraintError "channel_members"))
    else (set_channel_members (fun old => old ++ rows) db, Resolved tt).

(** [ChannelMember.destroy({ where: { userId, channelId } })] *)
Definition ChannelMember_destroy (userId channelId : UUID) : Promise unit :=
  exec (set_channel_members (filter (fun r => negb (ChannelMember_matches userId channelId r)))).

(** *** Message and MessageReaction *)

Definition Message_findByPk (id : UUID) : Promise (option Message.t) :=
  query (fun db => find (fun m => Message.id m =? id) (messages db)).

(** [Message.findOne({ where: { id, senderId } })] *)
Definition Message_findOne (id senderId : UUID) : Promise (option Message.t) :=
  query (fun db =>
    find (fun m => (Message.id m =? id) && (Message.senderId m =? senderId)) (messages db)).

(** [Message.create({ content, senderId, channelId, teamId })]: the rule
    [len: [1, 4000]] on the content, then the insert under the primary key.
    The other columns take their defaults. *)
Definition Message_create (id : UUID) (now : Date) (content : string)
    (senderId channelId teamId : UUID) : Promise Message.t :=
  fun db =>
    if negb (len 1 4000 content)
    then (db, Rejected (ValidationError [("len", "content")]))
    else if existsb (fun m => Message.id m =? id) (messages db)
    then (db, Rejected (UniqueConstraintError "messages"))
    else
      let row := Message.mk id content senderId channelId teamId text None None now in
      (set_messages (fun rows => rows ++ [row]) db, Resolved row).

(** [message.update({ content, editedAt: new Date() })] on a fetched row:
    the content rule again, then the update of the row with that key. *)
Definition Message_update (message : Message.t) (content : string) (now : Date)
  : Promise unit :=
  fun db =>
    if negb (len 1 4000 content)
    then (db, Rejected (ValidationError [("len", "content")]))
    else
      (set_messages (map (fun m =>
         if Message.id m =? Message.id message
         then Message.mk (Message.id m) content (Message.senderId m) (Message.channelId m)
                         (Message.teamId m) (Message.messageType m) (Some now)
                         (Message.parentMessageId m) (Message.createdAt m)
         else m)) db, Resolved tt).

(** Whether a row that stays when the message [id] goes points at it: a
    channel by [lastMessageId], another message by [parentMessageId].  Both
    foreign keys are declared without a delete rule, on a column that is not
    declared nullable, and [belongsTo] gives such a key [NO ACTION]. *)
Definition last_message_of_a_channel (id : UUID) (db : DB) : bool :=
  existsb (fun c => match Channel.lastMessageId c with
                    | Some last => last =? id
                    | None => false
                    end) (channels db).

Definition parent_of_a_message (id : UUID) (db : DB) : bool :=
  existsb (fun m => negb (Message.id m =? id)
                    && match Message.parentMessageId m with
                       | Some parent => parent =? id
                       | None => false
                       end) (messages db).

(** [Message.destroy({ where: { id } })]: the delete of a stored message is
    refused while a channel or another message points at it, and nothing is
    deleted; otherwise the row goes, and with it its reaction rows, whose
    foreign key [belongsToMany] gives [ON DELETE CASCADE]. *)
Definition Message_destroy (id : UUID) : Promise unit :=
  fun db =>
    if existsb (fun m => Message.id m =? id) (messages db)
       && last_message_of_a_channel id db
    then (db, Rejected (ForeignKeyConstraintError
                          "messages" "channels_last_message_id_fkey" "channels"))
    else if existsb (fun m => Message.id m =? id) (messages db)
            && parent_of_a_message id db
    then (db, Rejected (ForeignKeyConstraintError
                          "messages" "messages_parent_message_id_fkey" "messages"))
    else
      (set_message_reactions (filter (fun r => negb (MessageReaction.messageId r =? id)))
         (set_messages (filter (fun m => negb (Message.id m =? id))) db),
       Resolved tt).

Definition MessageReaction_matches (userId messageId : UUID) (emoji : string)
    (r : MessageReaction.t) : bool :=
  (MessageReaction.userId r =? userId) && (MessageReaction.messageId r =? messageId)
  && (MessageReaction.emoji r =? emoji).

(** [MessageReaction.findOne({ where: { userId, messageId, emoji } })] *)
Definition MessageReaction_findOne (userId messageId : UUID) (emoji : string)
  : Promise (option MessageReaction.t) :=
  query (fun db => find (MessageReaction_matches userId messageId emoji) (message_reactions db)).

(** The rows of a user on a message, whatever the emoji. *)
Definition MessageReaction_of (userId messageId : UUID) (r : MessageReaction.t) : bool :=
  (MessageReaction.userId r =? userId) && (MessageReaction.messageId r =? messageId).

(** [MessageReaction.create].  The model declares a unique index on (user,
    message, emoji); the two [belongsToMany] associations that go through
    the model (models/index.js) add a unique constraint on their pair of
    keys, (user, message), as the through model has a primary key of its
    own. *)
Definition MessageReaction_create (userId messageId : UUID) (emoji : string) : Promise unit :=
  fun db =>
    if existsb (MessageReaction_matches userId messageId emoji) (message_reactions db)
       || existsb (MessageReaction_of userId messageId) (message_reactions db)
    then (db, Rejected (UniqueConstraintError "message_reactions"))
    else (set_message_reactions
            (fun rows => rows ++ [MessageReaction.mk userId messageId emoji]) db,
          Resolved tt).

(** [MessageReaction.destroy({ where: { userId, messageId, emoji } })] *)
Definition MessageReaction_destroy (userId messageId : UUID) (emoji : string) : Promise unit :=
  exec (set_message_reactions
          (filter (fun r => negb (MessageReaction_matches userId messageId emoji r)))).

(** *** Eager loading ([include]) *)

(** The [attributes] the controllers select of a sender or member. *)
Record UserInfo := {
  info_id : UUID;
  info_firstName : string;
  info_lastName : string;
  info_username : string;
  info_email : string
}.

Definition UserInfo_of (u : User.t) : UserInfo :=
  {| info_id := User.id u; info_firstName := User.firstName u;
     info_lastName := User.lastName u; info_username := User.username u;
     info_email := User.email u |}.

Record PopulatedMessage := {
  row : Message.t;
  sender : option UserInfo;
  reactedUsers : list (UserInfo * string)
}.

Definition sender_of (db : DB) (m : Message.t) : option UserInfo :=
  option_map UserInfo_of (find (fun u => User.id u =? Message.senderId m) (users db)).

(** [Message.findByPk(id, { include: [sender] })] *)
Definition Message_findByPk_sender (id : UUID) : Promise (option PopulatedMessage) :=
  query (fun db =>
    option_map (fun m => {| row := m; sender := sender_of db m; reactedUsers := [] |})
               (find (fun m => Message.id m =? id) (messages db))).

(** The users joined to a message through its reaction rows, each with the
    emoji of the row. *)
Definition reactedUsers_of (db : DB) (messageId : UUID) : list (UserInfo * string) :=
  flat_map (fun r =>
      if MessageReaction.messageId r =? messageId
      then match find (fun u => User.id u =? MessageReaction.userId r) (users db) with
           | Some u => [(UserInfo_of u, MessageReaction.emoji r)]
           | None => []
           end
      else [])
    (message_reactions db).

(** [Message.findByPk(id, { include: [sender, reactedUsers] })] *)
Definition Message_findByPk_reactions (id : UUID) : Promise (option PopulatedMessage) :=
  query (fun db =>
    option_map (fun m => {| row := m; sender := sender_of db m;
                            reactedUsers := reactedUsers_of db id |})
               (find (fun m => Message.id m =? id) (messages db))).

Record PopulatedChannel := {
  channel_row : Channel.t;
  channel_users : list UserInfo
}.

(** [Channel.findByPk(id, { include: [members, createdBy] })] *)
Definition Channel_findByPk_members (id : UUID) : Promise (option PopulatedChannel) :=
  query (fun db =>
    option_map (fun c =>
        {| channel_row := c;
           channel_users :=
             map UserInfo_of
                 (filter (fun u => existsb (ChannelMember_matches (User.id u) id)
                                           (channel_members db))
                         (users db)) |})
      (find (fun c => Channel.id c =? id) (channels db))).

Record PopulatedTeam := {
  team_row : Team.t;
  team_users : list UserInfo;
  team_channels : list Channel.t
}.

(** [Team.findByPk(id, { include: [members, channels] })] *)
Definition Team_findByPk_members (id : UUID) : Promise (option PopulatedTeam) :=
  query (fun db =>
    option_map (fun t =>
        {| team_row := t;
           team_users :=
             map UserInfo_of
                 (filter (fun u => existsb (TeamMember_matches (User.id u) id)
                                           (team_members db))
                         (users db));
           team_channels := filter (fun c => Channel.teamId c =? id) (channels db) |})
      (find (fun t => Team.id t =? id) (teams db))).

(** ** HTTP responses *)

Inductive Json :=
| json_error (error : string)
| json_message (message : string)
| json_data (message : string) (data : option PopulatedMessage)
| json_channel (message : string) (channel : option PopulatedChannel)
| json_team (message : string) (team : option PopulatedTeam)
| json_inviteCode (inviteCode : string).

Record Response := res { status : nat; json : Json }.

(** The body of every controller is [try { ... } catch (error)
    { res.status(500).json({ error: error.message }) }]. *)
Definition controller (body : Promise Response) (db : DB) : DB * Response :=
  match body db with
  | (db', Resolved r) => (db', r)
  | (db', Rejected e) => (db', res 500 (json_error (Error_message e)))
  end.

(** ** controllers/messageController.js *)

Module messageController.

Definition sendMessage (userId : UUID) (content : string) (channelId : UUID)
    (id : UUID) (now : Date) : DB -> DB * Response :=
  controller (
    channelMember <- ChannelMember_findOne userId channelId ;;
    match channelMember with
    | None => resolve (res 403 (json_error "Access denied"))
    | Some _ =>
        channel <- Channel_findByPk channelId ;;
        match channel with
        | None => reject (TypeError "teamId")
        | Some channel =>
            message <- Message_create id now content userId channelId
                                      (Channel.teamId channel) ;;
            Channel_update_lastMessageId channelId (Message.id message) ;;
            populatedMessage <- Message_findByPk_sender (Message.id message) ;;
            resolve (res 201 (json_data "Message sent successfully" populatedMessage))
        end
    end).

Definition editMessage (userId messageId : UUID) (content : string) (now : Date)
  : DB -> DB * Response :=
  controller (
    message <- Message_findOne messageId userId ;;
    match message with
    | None => resolve (res 404 (json_error "Message not found"))
    | Some message =>
        Message_update message content now ;;
        populatedMessage <- Message_findByPk_sender (Message.id message) ;;
        resolve (res 200 (json_data "Message updated successfully" populatedMessage))
    end).

Definition deleteMessage (userId messageId : UUID) : DB -> DB * Response :=
  controller (
    message <- Message_findOne messageId userId ;;
    match message with
    | None => resolve (res 404 (json_error "Message not found"))
    | Some _ =>
        Message_destroy messageId ;;
        resolve (res 200 (json_message "Message deleted successfully"))
    end).

Definition addReaction (userId messageId : UUID) (emoji : string)
  : DB -> DB * Response :=
  controller (
    message <- Message_findByPk messageId ;;
    match message with
    | None => resolve (res 404 (json_error "Message not found"))
    | Some message =>
        channelMember <- ChannelMember_findOne userId (Message.channelId message) ;;
        match channelMember with
        | None => resolve (res 403 (json_error "Access denied"))
        | Some _ =>
            existingReaction <- MessageReaction_findOne userId messageId emoji ;;
            match existingReaction with
            | Some _ => MessageReaction_destroy userId messageId emoji
            | None => MessageReaction_create userId messageId emoji
            end ;;
            populatedMessage <- Message_findByPk_reactions messageId ;;
            resolve (res 200 (json_data "Reaction updated successfully" populatedMessage))
        end
    end).

End messageController.

(** ** controllers/teamController.js *)

Module teamController.

Definition createTeam (userId : UUID) (name : string) (description : option string)
    (id inviteCode generalId randomId : UUID) : DB -> DB * Response :=
  controller (
    team <- Team_create id name description userId ;;
    Team_save_inviteCode team inviteCode ;;
    TeamMember_create userId (Team.id team) admin ;;
    generalChannel <- Channel_create generalId "general" (Some "General discussion")
                                     (Team.id team) userId false ;;
    randomChannel <- Channel_create randomId "random" (Some "Random conversations")
                                    (Team.id team) userId false ;;
    ChannelMember_bulkCreate
      [ChannelMember.mk userId (Channel.id generalChannel);
       ChannelMember.mk userId (Channel.id randomChannel)] ;;
    populatedTeam <- Team_findByPk_members (Team.id team) ;;
    resolve (res 201 (json_team "Team created successfully" populatedTeam))).

Definition joinTeam (userId : UUID) (inviteCode : string) : DB -> DB * Response :=
  controller (
    team <- Team_findOne inviteCode ;;
    match team with
    | None => resolve (res 404 (json_error "Invalid invite code"))
    | Some team =>
        existingMember <- TeamMember_findOne userId (Team.id team) ;;
        match existingMember with
        | Some _ => resolve (res 400 (json_error "Already a member of this team"))
        | None =>
            TeamMember_create userId (Team.id team) member ;;
            publicChannels <- Channel_findAll_public (Team.id team) ;;
            for_of publicChannels (fun channel =>
              ChannelMember_create userId (Channel.id channel)) ;;
            populatedTeam <- Team_findByPk_members (Team.id team) ;;
            resolve (res 200 (json_team "Joined team successfully" populatedTeam))
        end
    end).

Definition generateInviteCode (userId teamId : UUID) (code : string)
  : DB -> DB * Response :=
  controller (
    team <- Team_findByPk teamId ;;
    match team with
    | None => resolve (res 404 (json_error "Team not found"))
    | Some team =>
        allowed <- (if negb (Team.ownerId team =? userId)
                    then teamMember <- TeamMember_findOne_role userId teamId admin ;;
                         resolve (match teamMember with Some _ => true | None => false end)
                    else resolve true) ;;
        if negb allowed then resolve (res 403 (json_error "Permission denied"))
        else
          Team_save_inviteCode team code ;;
          resolve (res 200 (json_inviteCode code))
    end).

Definition leaveTeam (userId teamId : UUID) : DB -> DB * Response :=
  controller (
    team <- Team_findByPk teamId ;;
    match team with
    | None => resolve (res 404 (json_error "Team not found"))
    | Some team =>
        if Team.ownerId team =? userId
        then resolve (res 400 (json_error "Owner cannot leave team"))
        else
          TeamMember_destroy userId teamId ;;
          teamChannels <- Channel_findAll teamId ;;
          for_of teamChannels (fun channel =>
            ChannelMember_destroy userId (Channel.id channel)) ;;
          resolve (res 200 (json_message "Left team successfully"))
    end).

End teamController.

(** ** controllers/channelController.js *)

Module channelController.

(** [isPrivate] is the field of the request body, absent ([None]) or a
    boolean: [isPrivate || false] is stored, [!isPrivate] decides the bulk
    insert. *)
Definition createChannel (userId : UUID) (name : string) (description : option string)
    (teamId : UUID) (isPrivate : option bool) (id : UUID) : DB -> DB * Response :=
  controller (
    team <- Team_findByPk teamId ;;
    match team with
    | None => resolve (res 404 (json_error "Team not found"))
    | Some team =>
        allowed <- (if negb (Team.ownerId team =? userId)
                    then teamMember <- TeamMember_findOne_role userId teamId admin ;;
                         resolve (match teamMember with Some _ => true | None => false end)
                    else resolve true) ;;
        if negb allowed then resolve (res 403 (json_error "Permission denied"))
        else
          channel <- Channel_create id name description teamId userId
                                    (match isPrivate with Some b => b | None => false end) ;;
          ChannelMember_create userId (Channel.id channel) ;;
          (if negb (match isPrivate with Some b => b | None => false end)
           then
             teamMembers <- TeamMember_findAll teamId ;;
             let channelMembers :=
               map (fun member => ChannelMember.mk (TeamMember.userId member)
                                                   (Channel.id channel)) teamMembers in
             let filteredMembers :=
               filter (fun member => negb (ChannelMember.userId member =? userId))
                      channelMembers in
             ChannelMember_bulkCreate filteredMembers
           else resolve tt) ;;
          populatedChannel <- Channel_findByPk_members (Channel.id channel) ;;
          resolve (res 201 (json_channel "Channel created successfully" populatedChannel))
    end).

Definition joinChannel (userId channelId : UUID) : DB -> DB * Response :=
  controller (
    channel <- Channel_findByPk channelId ;;
    match channel with
    | None => resolve (res 404 (json_error "Channel not found"))
    | Some channel =>
        teamMember <- TeamMember_findOne userId (Channel.teamId channel) ;;
        match teamMember with
        | None => resolve (res 403 (json_error "Access denied"))
        | Some _ =>
            existingMember <- ChannelMember_findOne userId channelId ;;
            match existingMember with
            | Some _ => resolve (res 400 (json_error "Already a member of this channel"))
            | None =>
                ChannelMember_create userId channelId ;;
                resolve (res 200 (json_message "Joined channel successfully"))
            end
        end
    end).

Definition leaveChannel (userId channelId : UUID) : DB -> DB * Response :=
  controller (
    channel <- Channel_findByPk channelId ;;
    match channel with
    | None => resolve (res 404 (json_error "Channel not found"))
    | Some _ =>
        ChannelMember_destroy userId channelId ;;
        resolve (res 200 (json_message "Left channel successfully"))
    end).

End channelController.

(** ** The Socket.IO server (server entry point)

    A socket carries the user the handshake middleware attached to it.  The
    server state is the database, the registry of connected sockets, the
    room subscriptions of [socket.join], and the emissions made so far, in
    the order they were made, each with the sockets it was delivered to. *)

Record Socket := {
  socket_id : string;
  user : User.t
}.

Inductive Event :=
| error (message : string)
| new_message (populatedMessage : option PopulatedMessage)
| message_edited (populatedMessage : option PopulatedMessage)
| message_deleted (messageId : UUID)
| user_typing (userId : UUID) (username : string) (isTyping : bool).

Inductive Target :=
| to_socket (id : string)
| to_room (room : string).

Record Emission := {
  target : Target;
  recipients : list string;
  event : Event
}.

Record Server := mkServer {
  db : DB;
  sockets : list Socket;
  rooms : list (string * string);
  emitted : list Emission
}.

Definition channel_room (channelId : UUID) : string := "channel-" ++ channelId.
Definition team_room (teamId : UUID) : string := "team-" ++ teamId.

Definition in_room (room : string) (sid : string) (s : Server) : bool :=
  existsb (fun sr => (fst sr =? sid) && (snd sr =? room)) (rooms s).

(** The sockets subscribed to a room, in subscription order. *)
Definition room_sockets (room : string) (s : Server) : list string :=
  map fst (filter (fun sr => snd sr =? room) (rooms s)).

Definition Handler (A : Type) := Async Server A.

(** A model call made from a handler. *)
Definition sequelize {A} (p : Promise A) : Handler A :=
  fun s =>
    match p (db s) with
    | (db', o) => (mkServer db' (sockets s) (rooms s) (emitted s), o)
    end.

Definition emit (t : Target) (to : list string) (ev : Event) : Handler unit :=
  fun s =>
    (mkServer (db s) (sockets s) (rooms s)
              (emitted s ++ [{| target := t; recipients := to; event := ev |}]),
     Resolved tt).

(** [socket.emit(ev)] *)
Definition socket_emit (socket : Socket) (ev : Event) : Handler unit :=
  emit (to_socket (socket_id socket)) [socket_id socket] ev.

(** [io.to(room).emit(ev)] *)
Definition io_to_emit (room : string) (ev : Event) : Handler unit :=
  fun s => emit (to_room room) (room_sockets room s) ev s.

(** [socket.to(room).emit(ev)]: the room without the sender. *)
Definition socket_to_emit (socket : Socket) (room : string) (ev : Event) : Handler unit :=
  fun s =>
    emit (to_room room)
         (filter (fun sid => negb (sid =? socket_id socket)) (room_sockets room s)) ev s.

(** [socket.join(room)]; joining twice subscribes once. *)
Definition socket_join (socket : Socket) (room : string) : Handler unit :=
  fun s =>
    if in_room room (socket_id socket) s then (s, Resolved tt)
    else (mkServer (db s) (sockets s) (rooms s ++ [(socket_id socket, room)]) (emitted s),
          Resolved tt).

(** [socket.leave(room)] *)
Definition socket_leave (socket : Socket) (room : string) : Handler unit :=
  fun s =>
    (mkServer (db s) (sockets s)
              (filter (fun sr => negb ((fst sr =? socket_id socket) && (snd sr =? room)))
                      (rooms s))
              (emitted s),
     Resolved tt).

(** [try { body } catch (error) { console.error(...); onError }] as a state
    transformer: the handlers return nothing. *)
Definition handler (body : Handler unit) (onError : Handler unit) (s : Server) : Server :=
  match body s with
  | (s', Resolved _) => s'
  | (s', Rejected _) => fst (onError s')
  end.

Module Socket_IO.

(** [io.on('connection', ...)]: the socket is registered and the user row
    marked online. *)
Definition on_connection (socket : Socket) (s : Server) : Server :=
  let s1 := mkServer (db s) (sockets s ++ [socket]) (rooms s) (emitted s) in
  fst (sequelize (User_update_online (User.id (user socket))) s1).

Definition on_join_teams (socket : Socket) (teamIds : list UUID) : Server -> Server :=
  handler (for_of teamIds (fun teamId => socket_join socket (team_room teamId)))
          (resolve tt).

Definition on_join_channel (socket : Socket) (channelId : UUID) : Server -> Server :=
  handler (
    channelMember <- sequelize (ChannelMember_findOne (User.id (user socket)) channelId) ;;
    match channelMember with
    | Some _ => socket_join socket (channel_room channelId)
    | None => resolve tt
    end)
    (resolve tt).

Definition on_leave_channel (socket : Socket) (channelId : UUID) (s : Server) : Server :=
  fst (socket_leave socket (channel_room channelId) s).

Definition on_send_message (socket : Socket) (content : string) (channelId : UUID)
    (id : UUID) (now : Date) : Server -> Server :=
  handler (
    channelMember <- sequelize (ChannelMember_findOne (User.id (user socket)) channelId) ;;
    match channelMember with
    | None => socket_emit socket (error "Access denied")
    | Some _ =>
        channel <- sequelize (Channel_findByPk channelId) ;;
        match channel with
        | None => reject (TypeError "teamId")
        | Some channel =>
            message <- sequelize (Message_create id now content (User.id (user socket))
                                                 channelId (Channel.teamId channel)) ;;
            sequelize (Channel_update_lastMessageId channelId (Message.id message)) ;;
            populatedMessage <- sequelize (Message_findByPk_sender (Message.id message)) ;;
            io_to_emit (channel_room channelId) (new_message populatedMessage)
        end
    end)
    (socket_emit socket (error "Failed to send message")).

Definition on_edit_message (socket : Socket) (messageId : UUID) (content : string)
    (now : Date) : Server -> Server :=
  handler (
    message <- sequelize (Message_findOne messageId (User.id (user socket))) ;;
    match message with
    | None => socket_emit socket (error "Message not found")
    | Some message =>
        sequelize (Message_update message content now) ;;
        populatedMessage <- sequelize (Message_findByPk_sender (Message.id message)) ;;
        io_to_emit (channel_room (Message.channelId message))
                   (message_edited populatedMessage)
    end)
    (socket_emit socket (error "Failed to edit message")).

Definition on_delete_message (socket : Socket) (messageId : UUID) : Server -> Server :=
  handler (
    message <- sequelize (Message_findOne messageId (User.id (user socket))) ;;
    match message with
    | None => socket_emit socket (error "Message not found")
    | Some message =>
        let channelId := Message.channelId message in
        sequelize (Message_destroy messageId) ;;
        io_to_emit (channel_room channelId) (message_deleted messageId)
    end)
    (socket_emit socket (error "Failed to delete message")).

Definition on_typing (socket : Socket) (channelId : UUID) (isTyping : bool)
    (s : Server) : Server :=
  fst (socket_to_emit socket (channel_room channelId)
         (user_typing (User.id (user socket)) (User.username (user socket)) isTyping) s).

(** [socket.on('disconnect', ...)]: by the time the event fires the socket
    has left the registry and its rooms; the handler marks the user row
    offline and stamps [lastSeen]. *)
Definition on_disconnect (socket : Socket) (now : Date) (s : Server) : Server :=
  let s1 := mkServer (db s)
              (filter (fun k => negb (socket_id k =? socket_id socket)) (sockets s))
              (filter (fun sr => negb (fst sr =? socket_id socket)) (rooms s))
              (emitted s) in
  fst (sequelize (User_update_offline (User.id (user socket)) now) s1).

End Socket_IO.

(** ** Interleaved [send-message] calls

    The handler is an [async] function: it runs until its next [await],
    where it is suspended on a model call and other handlers may run; when
    the call settles the handler resumes up to the following [await].  A
    call in flight is the arguments it was started with and the [await] it is
    suspended at; one step settles that model call and runs the handler on to
    its next suspension.  The server takes no lock around a handler, so any
    interleaving of the steps of the calls in flight is a run of the server. *)

Inductive Awaiting :=
| awaiting_findOne
| awaiting_findByPk
| awaiting_create (teamId : UUID)
| awaiting_update (message : Message.t)
| awaiting_populated (message : Message.t)
| returned.

Record Call := {
  call_socket : Socket;
  call_content : string;
  call_channelId : UUID;
  call_id : UUID;
  call_now : Date;
  call_at : Awaiting
}.

Definition send_message (socket : Socket) (content : string) (channelId id : UUID)
    (now : Date) : Call :=
  {| call_socket := socket; call_content := content; call_channelId := channelId;
     call_id := id; call_now := now; call_at := awaiting_findOne |}.

Definition suspend (c : Call) (at_ : Awaiting) : Call :=
  {| call_socket := call_socket c; call_content := call_content c;
     call_channelId := call_channelId c; call_id := call_id c; call_now := call_now c;
     call_at := at_ |}.

(** Settle the awaited call [p]; a rejection lands in the [catch] block. *)
Definition settle {A} (c : Call) (p : Promise A) (k : A -> Server -> Server * Awaiting)
    (s : Server) : Server * Awaiting :=
  match sequelize p s with
  | (s', Resolved a) => k a s'
  | (s', Rejected _) =>
      (fst (socket_emit (call_socket c) (error "Failed to send message") s'), returned)
  end.

Definition resume (c : Call) (s : Server) : Server * Call :=
  let socket := call_socket c in
  let channelId := call_channelId c in
  let (s', at_) :=
    match call_at c with
    | awaiting_findOne =>
        settle c (ChannelMember_findOne (User.id (user socket)) channelId)
          (fun channelMember s' =>
             match channelMember with
             | None => (fst (socket_emit socket (error "Access denied") s'), returned)
             | Some _ => (s', awaiting_findByPk)
             end) s
    | awaiting_findByPk =>
        settle c (Channel_findByPk channelId)
          (fun channel s' =>
             match channel with
             | None =>
                 (fst (socket_emit socket (error "Failed to send message") s'), returned)
             | Some channel => (s', awaiting_create (Channel.teamId channel))
             end) s
    | awaiting_create teamId =>
        settle c (Message_create (call_id c) (call_now c) (call_content c)
                                 (User.id (user socket)) channelId teamId)
          (fun message s' => (s', awaiting_update message)) s
    | awaiting_update message =>
        settle c (Channel_update_lastMessageId channelId (Message.id message))
          (fun _ s' => (s', awaiting_populated message)) s
    | awaiting_populated message =>
        settle c (Message_findByPk_sender (Message.id message))
          (fun populatedMessage s' =>
             (fst (io_to_emit (channel_room channelId) (new_message populatedMessage) s'),
              returned)) s
    | returned => (s, returned)
    end in
  (s', suspend c at_).

(** The calls in flight, and a schedule: at each step, the position of the
    call that resumes. *)
Fixpoint resume_nth (n : nat) (calls : list Call) (s : Server) : Server * list Call :=
  match calls, n with
  | [], _ => (s, [])
  | c :: rest, 0 => let (s', c') := resume c s in (s', c' :: rest)
  | c :: rest, S n' => let (s', rest') := resume_nth n' rest s in (s', c :: rest')
  end.

Fixpoint run (schedule : list nat) (calls : list Call) (s : Server) : Server * list Call :=
  match schedule with
  | [] => (s, calls)
  | n :: later => let (s', calls') := resume_nth n calls s in run later calls' s'
  end.

(** A call run from start to return with nothing in between. *)
Definition to_completion (c : Call) (s : Server) : Server :=
  let (s1, c1) := resume c s in
  let (s2, c2) := resume c1 s1 in
  let (s3, c3) := resume c2 s2 in
  let (s4, c4) := resume c3 s3 in
  fst (resume c4 s4).

(** ** What subscribers see, and what was committed *)

Definition message_id_of (ev : Event) : list UUID :=
  match ev with
  | new_message (Some populatedMessage) => [Message.id (row populatedMessage)]
  | _ => []
  end.

(** The [new-message] broadcasts to a channel room among some emissions,
    oldest first. *)
Definition broadcasts (channelId : UUID) (es : list Emission) : list UUID :=
  flat_map (fun e =>
      match target e with
      | to_room room => if room =? channel_room channelId then message_id_of (event e) else []
      | to_socket _ => []
      end)
    es.

(** Those of them that reached a given socket. *)
Definition deliveries (channelId : UUID) (sid : string) (es : list Emission) : list UUID :=
  flat_map (fun e =>
      match target e with
      | to_room room =>
          if (room =? channel_room channelId) && existsb (String.eqb sid) (recipients e)
          then message_id_of (event e) else []
      | to_socket _ => []
      end)
    es.

Definition broadcast_order (channelId : UUID) (s : Server) : list UUID :=
  broadcasts channelId (emitted s).

Definition observed (channelId : UUID) (sid : string) (s : Server) : list UUID :=
  deliveries channelId sid (emitted s).

(** Emissions whose room broadcasts went to all sockets then in the room. *)
Definition to_whole_room (s : Server) (e : Emission) : Prop :=
  match target e with
  | to_room room => recipients e = room_sockets room s
  | to_socket _ => True
  end.

(** What one step of a call may do to the rooms and the emissions: the
    rooms stay, and what is emitted goes to the caller or to a whole room. *)
Definition emits_only (s s' : Server) : Prop :=
  rooms s' = rooms s
  /\ exists es, emitted s' = emitted s ++ es /\ Forall (to_whole_room s) es.

(** The messages of a channel in the order they were inserted. *)
Definition commit_order (channelId : UUID) (s : Server) : list UUID :=
  map Message.id (filter (fun m => Message.channelId m =? channelId) (messages (db s))).

(** An HTTP request served by the same process: the controller runs on the
    server's database; sockets, rooms and emissions are not touched. *)
Definition http (request : DB -> DB * Response) (s : Server) : Server :=
  mkServer (fst (request (db s))) (sockets s) (rooms s) (emitted s).

(** ** Observations on a state *)

Definition is_team_member (userId teamId : UUID) (db : DB) : bool :=
  existsb (TeamMember_matches userId teamId) (team_members db).

Definition is_channel_member (userId channelId : UUID) (db : DB) : bool :=
  existsb (ChannelMember_matches userId channelId) (channel_members db).

(** The reaction rows of one (user, message, emoji) triple. *)
Definition reactions_of (userId messageId : UUID) (emoji : string) (db : DB)
  : list MessageReaction.t :=
  filter (MessageReaction_matches userId messageId emoji) (message_reactions db).

(** The open connections of an identity. *)
Definition connections (userId : UUID) (s : Server) : list Socket :=
  filter (fun k => User.id (user k) =? userId) (sockets s).

(** The presence columns of a user row: online flag and last-seen stamp. *)
Definition presence (userId : UUID) (db : DB) : option (bool * option Date) :=
  option_map (fun u => (User.isOnline u, User.lastSeen u))
             (find (fun u => User.id u =? userId) (users db)).

(** [react] applied [n] times in a row by the same user to the same message
    with the same emoji. *)
Definition addReaction_times (n : nat) (userId messageId : UUID) (emoji : string)
    (db : DB) : DB :=
  Nat.iter n (fun d => fst (messageController.addReaction userId messageId emoji d)) db.

(** Posts handled one after the other, each to its return. *)
Definition post_all (calls : list Call) (s : Server) : Server :=
  fold_left (fun s c => to_completion c s) calls s.

(** ** A small workspace, used by the examples

    Team [t1] is owned by alice, with bob and carol as members; [#general]
    ([c1]) is public and holds the three of them, [#secret] ([c2]) is private
    and holds alice alone.  dave has an account and no membership. *)

Module Fixture.

Definition account (name : string) : User.t :=
  User.mk name (name ++ "@example.com") name name "Doe" false None.

Definition alice := account "alice".
Definition bob := account "bob".
Definition carol := account "carol".
Definition dave := account "dave".

Definition db0 : DB :=
  {| users := [alice; bob; carol; dave];
     teams := [Team.mk "t1" "Crew" None "alice" (Some "invite-1")];
     team_members := [TeamMember.mk "alice" "t1" admin;
                      TeamMember.mk "bob" "t1" member;
                      TeamMember.mk "carol" "t1" member];
     channels := [Channel.mk "c1" "#general" None "t1" "alice" false None;
                  Channel.mk "c2" "#secret" None "t1" "alice" true None];
     channel_members := [ChannelMember.mk "alice" "c1";
                         ChannelMember.mk "bob" "c1";
                         ChannelMember.mk "carol" "c1";
                         ChannelMember.mk "alice" "c2"];
     messages := [];
     message_reactions := [] |}.

Definition server0 : Server :=
  {| db := db0; sockets := []; rooms := []; emitted := [] |}.

Definition alice_phone : Socket := {| socket_id := "s1"; user := alice |}.
Definition alice_laptop : Socket := {| socket_id := "s2"; user := alice |}.
Definition bob_phone : Socket := {| socket_id := "s3"; user := bob |}.
Definition dave_phone : Socket := {| socket_id := "s4"; user := dave |}.

(** alice and bob connected, both subscribed to the room of [c1]. *)
Definition server1 : Server :=
  Socket_IO.on_join_channel bob_phone "c1"
    (Socket_IO.on_join_channel alice_phone "c1"
       (Socket_IO.on_connection bob_phone
          (Socket_IO.on_connection alice_phone server0))).

(** alice has posted "hi" in [c1]. *)
Definition db1 : DB :=
  fst (messageController.sendMessage "alice" "hi" "c1" "m1" 10 db0).

(** bob has posted "mine" in [c1] over his socket and then left the
    channel over HTTP; his socket is still subscribed to the room. *)
Definition server2 : Server :=
  http (channelController.leaveChannel "bob" "c1")
       (Socket_IO.on_send_message bob_phone "mine" "c1" "m1" 10 server1).

(** bob has posted "mine" and alice "hers" in [c1] over their sockets, and
    bob has then left the channel over HTTP; his socket is still subscribed
    to the room. *)
Definition server3 : Server :=
  http (channelController.leaveChannel "bob" "c1")
       (Socket_IO.on_send_message alice_phone "hers" "c1" "m2" 20
          (Socket_IO.on_send_message bob_phone "mine" "c1" "m1" 10 server1)).

(** Two posts to [c1] in flight at once, and a schedule on which alice's
    call commits its message and is then overtaken by the whole of bob's. *)
Definition first_call : Call := send_message alice_phone "first" "c1" "mA" 1.
Definition second_call : Call := send_message bob_phone "second" "c1" "mB" 2.
Definition overtaking : list nat := [0; 0; 0; 1; 1; 1; 1; 1; 0; 0].

End Fixture.

(** ** Read-only controllers

    What a read controller sends is [res.json(body)] under status 200, or
    an error body under another status. *)

Inductive Answer (A : Type) :=
| sent (body : A)
| failed (status : nat) (error : string).
Arguments sent {A} body.
Arguments failed {A} status error.

(** [try { ... } catch (error) { res.status(500).json({ error: error.message }) }] *)
Definition reader {A} (body : Promise (Answer A)) (d : DB) : DB * Answer A :=
  match body d with
  | (d', Resolved a) => (d', a)
  | (d', Rejected e) => (d', failed 500 (Error_message e))
  end.

(** A member as [getChannel] selects it: the five display attributes and
    [isOnline]. *)
Record MemberInfo := {
  member_info : UserInfo;
  member_isOnline : bool
}.

Record ChannelView := {
  view_row : Channel.t;
  view_members : list MemberInfo
}.

(** [Channel.findByPk(id, { include: [members with isOnline, createdBy] })] *)
Definition Channel_findByPk_presence (id : UUID) : Promise (option ChannelView) :=
  query (fun d =>
    option_map (fun c =>
        {| view_row := c;
           view_members :=
             map (fun u => {| member_info := UserInfo_of u; member_isOnline := User.isOnline u |})
                 (filter (fun u => existsb (ChannelMember_matches (User.id u) id)
                                           (channel_members d))
                         (users d)) |})
      (find (fun c => Channel.id c =? id) (channels d))).

(** [order: [['createdAt', 'DESC']]]: insertion of a row into rows already
    in that order. *)
Fixpoint insert_newest_first (m : Message.t) (rows : list Message.t) : list Message.t :=
  match rows with
  | [] => [m]
  | r :: rest =>
      if Nat.ltb (Message.createdAt r) (Message.createdAt m)
      then m :: r :: rest
      else r :: insert_newest_first m rest
  end.

Definition newest_first (rows : list Message.t) : list Message.t :=
  fold_right insert_newest_first [] rows.

(** The integers a [bigint] of the database holds. *)
Definition bigint (z : Z) : bool :=
  ((- 2 ^ 63 <=? z) && (z <? 2 ^ 63))%Z.

(** [Message.findAll({ where: { channelId }, include: [sender],
    order: [['createdAt', 'DESC']], limit, offset })]: the limit and the
    offset are written into the query as they are.  The database refuses a
    number that is no [bigint] when it plans the query, and a negative offset
    or limit, in this order, when it runs it. *)
Definition Message_findAll_page (channelId : UUID) (limit offset : Z)
  : Promise (list PopulatedMessage) :=
  fun d =>
    if negb (bigint limit && bigint offset)
    then (d, Rejected (DatabaseError "bigint out of range"))
    else if (offset <? 0)%Z
    then (d, Rejected (DatabaseError "OFFSET must not be negative"))
    else if (limit <? 0)%Z
    then (d, Rejected (DatabaseError "LIMIT must not be negative"))
    else
      (d, Resolved
            (map (fun m => {| row := m; sender := sender_of d m; reactedUsers := [] |})
                 (firstn (Z.to_nat limit)
                    (skipn (Z.to_nat offset)
                       (newest_first (filter (fun m => Message.channelId m =? channelId)
                                             (messages d))))))).

(** [TeamMember.findAll({ where: { userId }, attributes: ['teamId'] })] *)
Definition TeamMember_findAll_teams (userId : UUID) : Promise (list UUID) :=
  query (fun d =>
    map TeamMember.teamId (filter (fun r => TeamMember.userId r =? userId) (team_members d))).

Definition populate_team (d : DB) (t : Team.t) : PopulatedTeam :=
  {| team_row := t;
     team_users :=
       map UserInfo_of
           (filter (fun u => existsb (TeamMember_matches (User.id u) (Team.id t))
                                     (team_members d))
                   (users d));
     team_channels := filter (fun c => Channel.teamId c =? Team.id t) (channels d) |}.

(** [Team.findAll({ where: { id: { [Op.in]: teamIds } }, include: [members, channels] })] *)
Definition Team_findAll_in (teamIds : list UUID) : Promise (list PopulatedTeam) :=
  query (fun d =>
    map (populate_team d)
        (filter (fun t => existsb (fun id => Team.id t =? id) teamIds) (teams d))).

(** The integers that the numbers of JavaScript hold exactly, and on which
    their arithmetic is that of the integers as long as the result is one of
    them ([Number.isSafeInteger]). *)
Definition safe_integer (z : Z) : bool :=
  (Z.abs z <? 2 ^ 53)%Z.

Module channelController_reads.

(** [req.params.channelId] and the user of the request. *)
Definition getChannel (userId channelId : UUID) : DB -> DB * Answer (option ChannelView) :=
  reader (
    channelMember <- ChannelMember_findOne userId channelId ;;
    match channelMember with
    | None => resolve (failed 404 "Channel not found")
    | Some _ =>
        channel <- Channel_findByPk_presence channelId ;;
        resolve (sent channel)
    end).

(** [page] and [limit] are the integers [parseInt] makes of the query
    parameters (1 and 50 when the parameter is absent).  The offset is
    computed in the numbers of JavaScript: it is the product below when
    [page], [limit] and the product are safe integers, which the statements
    about this controller assume. *)
Definition getChannelMessages (userId channelId : UUID) (page limit : Z)
  : DB -> DB * Answer (list PopulatedMessage) :=
  reader (
    channelMember <- ChannelMember_findOne userId channelId ;;
    match channelMember with
    | None => resolve (failed 403 "Access denied")
    | Some _ =>
        messages <- Message_findAll_page channelId limit ((page - 1) * limit)%Z ;;
        resolve (sent (rev messages))
    end).

End channelController_reads.

Module teamController_reads.

Definition getTeams (userId : UUID) : DB -> DB * Answer (list PopulatedTeam) :=
  reader (
    teamIds <- TeamMember_findAll_teams userId ;;
    teams <- Team_findAll_in teamIds ;;
    resolve (sent teams)).

End teamController_reads.

(** ** controllers/authController.js: logout *)

Module authController.

(** [User.update({ isOnline: false, lastSeen: new Date() }, { where: { id } })] *)
Definition logout (userId : UUID) (now : Date) : DB -> DB * Response :=
  controller (
    User_update_offline userId now ;;
    resolve (res 200 (json_message "Logout successful"))).

End authController.

(** The ids of the messages a history answer carries, in the order sent. *)
Definition sent_ids (a : Answer (list PopulatedMessage)) : list UUID :=
  match a with
  | sent body => map (fun p => Message.id (row p)) body
  | failed _ _ => []
  end.

(** A message row after [message.update({ content, editedAt })]. *)
Definition edited (m : Message.t) (content : string) (now : Date) : Message.t :=
  Message.mk (Message.id m) content (Message.senderId m) (Message.channelId m)
             (Message.teamId m) (Message.messageType m) (Some now)
             (Message.parentMessageId m) (Message.createdAt m).

Module History.

(** alice, bob and alice again have posted in [c1], at times 10, 20 and 30. *)
Definition db3 : DB :=
  fst (messageController.sendMessage "alice" "three" "c1" "m3" 30
         (fst (messageController.sendMessage "bob" "two" "c1" "m2" 20
                 (fst (messageController.sendMessage "alice" "one" "c1" "m1" 10
                         Fixture.db0))))).

End History.

(** The team rows a team list answer carries. *)
Definition sent_teams (a : Answer (list PopulatedTeam)) : list Team.t :=
  match a with
  | sent body => map team_row body
  | failed _ _ => []
  end.

(** ** Consistency of the membership tables

    Team and channel rows have distinct keys; the owner of a team holds a
    membership row of it; every channel membership row is of an existing
    channel and of a user who holds a membership row of the channel's
    team. *)

Record consistent (d : DB) : Prop := {
  distinct_team_ids : NoDup (map Team.id (teams d));
  distinct_channel_ids : NoDup (map Channel.id (channels d));
  owner_in_team :
    forall t, In t (teams d) -> is_team_member (Team.ownerId t) (Team.id t) d = true;
  row_has_channel :
    forall r, In r (channel_members d) ->
              existsb (fun c => Channel.id c =? ChannelMember.channelId r) (channels d) = true;
  row_in_team :
    forall r c, In r (channel_members d) -> In c (channels d) ->
                Channel.id c = ChannelMember.channelId r ->
                is_team_member (ChannelMember.userId r) (Channel.teamId c) d = true
}.

(** ** The routes that write (routes/teams.js, channels.js, messages.js)

    A request is the route with the parameters and body fields its
    controller reads, and the values the server draws while serving it; the
    [auth] middleware has put the caller's id in [req.user.id]. *)

Inductive Request :=
| POST_teams (name : string) (description : option string)
             (id inviteCode generalId randomId : UUID)
| POST_teams_join (inviteCode : string)
| POST_teams_invite (teamId : UUID) (code : string)
| DELETE_teams_leave (teamId : UUID)
| POST_channels (name : string) (description : option string) (teamId : UUID)
                (isPrivate : option bool) (id : UUID)
| POST_channels_join (channelId : UUID)
| DELETE_channels_leave (channelId : UUID)
| POST_messages (content : string) (channelId id : UUID) (now : Date)
| PUT_messages (messageId : UUID) (content : string) (now : Date)
| DELETE_messages (messageId : UUID)
| POST_messages_reaction (messageId : UUID) (emoji : string).

Definition serve (userId : UUID) (request : Request) : DB -> DB * Response :=
  match request with
  | POST_teams name description id inviteCode generalId randomId =>
      teamController.createTeam userId name description id inviteCode generalId randomId
  | POST_teams_join inviteCode => teamController.joinTeam userId inviteCode
  | POST_teams_invite teamId code => teamController.generateInviteCode userId teamId code
  | DELETE_teams_leave teamId => teamController.leaveTeam userId teamId
  | POST_channels name description teamId isPrivate id =>
      channelController.createChannel userId name description teamId isPrivate id
  | POST_channels_join channelId => channelController.joinChannel userId channelId
  | DELETE_channels_leave channelId => channelController.leaveChannel userId channelId
  | POST_messages content channelId id now =>
      messageController.sendMessage userId content channelId id now
  | PUT_messages messageId content now =>
      messageController.editMessage userId messageId content now
  | DELETE_messages messageId => messageController.deleteMessage userId messageId
  | POST_messages_reaction messageId emoji =>
      messageController.addReaction userId messageId emoji
  end.

(** Requests served one after the other, each by its caller. *)
Fixpoint serve_all (requests : list (UUID * Request)) (d : DB) : DB :=
  match requests with
  | [] => d
  | (userId, request) :: later => serve_all later (fst (serve userId request d))
  end.

(** The invite code a [createTeam] draws is carried by no team yet. *)
Definition draws_fresh_code (request : Request) (d : DB) : bool :=
  match request with
  | POST_teams _ _ _ inviteCode _ _ =>
      negb (existsb (fun t => match Team.inviteCode t with
                              | Some c => c =? inviteCode
                              | None => false
                              end) (teams d))
  | _ => true
  end.

Fixpoint draw_fresh_codes (requests : list (UUID * Request)) (d : DB) : bool :=
  match requests with
  | [] => true
  | (userId, request) :: later =>
      draws_fresh_code request d
      && draw_fresh_codes later (fst (serve userId request d))
  end.

Module Tour.

Definition empty : DB :=
  {| users := []; teams := []; team_members := []; channels := [];
     channel_members := []; messages := []; message_reactions := [] |}.

(** alice founds a team, bob joins it and posts, alice opens a private
    channel, bob tries to join it and then leaves the team. *)
Definition requests : list (UUID * Request) :=
  [("alice", POST_teams "Crew" None "t1" "invite-1" "c1" "c2");
   ("bob", POST_teams_join "invite-1");
   ("bob", POST_messages "hello" "c1" "m1" 10);
   ("alice", POST_channels "plans" None "t1" (Some true) "c3");
   ("bob", POST_channels_join "c3");
   ("bob", DELETE_teams_leave "t1")].

End Tour.

(** * Properties *)

(** ** Lists of rows *)

Lemma find_existsb {A} (p : A -> bool) (l : list A) :
  existsb p l = match find p l with Some _ => true | None => false end.
Proof.
  induction l as [|x l IH]; simpl; [reflexivity|].
  destruct (p x); simpl; auto.
Qed.

Lemma find_None_existsb {A} (p : A -> bool) (l : list A) :
  existsb p l = false -> find p l = None.
Proof.
  rewrite find_existsb. destruct (find p l); congruence.
Qed.

Lemma find_Some_existsb {A} (p : A -> bool) (l : list A) :
  existsb p l = true -> exists x, find p l = Some x.
Proof.
  rewrite find_existsb. destruct (find p l) as [x|]; [eauto | discriminate].
Qed.

Lemma find_app_fresh {A} (p : A -> bool) (l : list A) (x : A) :
  existsb p l = false -> find p (l ++ [x]) = if p x then Some x else None.
Proof.
  induction l as [|y l IH]; simpl; [reflexivity|].
  destruct (p y); simpl; [discriminate | exact IH].
Qed.

Lemma filter_all {A} (p : A -> bool) (l : list A) :
  existsb (fun x => negb (p x)) l = false -> filter p l = l.
Proof.
  induction l as [|x l IH]; simpl; [reflexivity|].
  destruct (p x); simpl; [intros H; f_equal; auto | discriminate].
Qed.

Lemma existsb_filter_out {A} (p : A -> bool) (l : list A) :
  existsb p (filter (fun x => negb (p x)) l) = false.
Proof.
  induction l as [|x l IH]; simpl; [reflexivity|].
  destruct (p x) eqn:Hp; simpl; [exact IH | rewrite Hp; exact IH].
Qed.

Lemma existsb_filter {A} (p q : A -> bool) (l : list A) :
  existsb p (filter q l) = existsb (fun x => q x && p x) l.
Proof.
  induction l as [|x l IH]; simpl; [reflexivity|].
  destruct (q x); simpl; rewrite IH; reflexivity.
Qed.

Lemma filter_out_fresh {A} (p : A -> bool) (l : list A) (x : A) :
  existsb p l = false -> p x = true -> filter (fun y => negb (p y)) (l ++ [x]) = l.
Proof.
  intros Hl Hx. rewrite filter_app. simpl. rewrite Hx. simpl. rewrite app_nil_r.
  apply filter_all. rewrite <- Hl. clear. induction l as [|y l IH]; simpl; [reflexivity|].
  rewrite negb_involutive, IH. reflexivity.
Qed.

Lemma existsb_false_forall_inv {A} (p : A -> bool) (l : list A) :
  existsb p l = false -> forall x, In x l -> p x = false.
Proof.
  intros H x Hx. destruct (p x) eqn:E; [|reflexivity].
  rewrite <- H. symmetry. apply existsb_exists. eauto.
Qed.

Lemma filter_none {A} (p : A -> bool) (l : list A) :
  (forall x, In x l -> p x = false) -> filter p l = [].
Proof.
  induction l as [|x l IH]; simpl; intros H; [reflexivity|].
  rewrite (H x) by auto. apply IH. intros y Hy. apply H. auto.
Qed.

Lemma existsb_ext_in {A} (p q : A -> bool) (l : list A) :
  (forall x, In x l -> p x = q x) -> existsb p l = existsb q l.
Proof.
  induction l as [|x l IH]; simpl; intros H; [reflexivity|].
  rewrite (H x) by auto. f_equal. apply IH. intros y Hy. apply H. auto.
Qed.

Lemma filter_filter_keep {A} (p q : A -> bool) (l : list A) :
  (forall x, p x = true -> q x = false) ->
  filter p (filter (fun x => negb (q x)) l) = filter p l.
Proof.
  intros H. induction l as [|x l IH]; simpl; [reflexivity|].
  destruct (p x) eqn:Hp.
  - rewrite (H x Hp). simpl. rewrite Hp, IH. reflexivity.
  - destruct (q x); simpl; rewrite ?Hp; exact IH.
Qed.

(** An awaited promise that resolves hands its value and its state on. *)
Lemma await_resolved {St A B} {p : Async St A} (k : A -> Async St B)
    {st st' : St} {a : A} :
  p st = (st', Resolved a) -> await p k st = k a st'.
Proof. unfold await. intros ->. reflexivity. Qed.

Lemma Server_eta (s : Server) :
  mkServer (db s) (sockets s) (rooms s) (emitted s) = s.
Proof. destruct s; reflexivity. Qed.

Lemma DB_eta (d : DB) :
  mkDB (users d) (teams d) (team_members d) (channels d) (channel_members d)
       (messages d) (message_reactions d) = d.
Proof. destruct d; reflexivity. Qed.

(** Unfolding of the monad, for proofs that run a controller or handler. *)
Ltac run_async :=
  unfold controller, handler, sequelize, await, resolve, reject, query, exec,
         socket_emit, io_to_emit, emit; simpl.

(** ** Joining a channel room (C9) *)

(** C9, as the server does it: on [join-channel] the persisted membership of
    the socket's user is looked up first; a member's socket is subscribed to
    the channel room, and for a non-member the whole server state is left as
    it was: no subscription, and nothing emitted to the socket. *)
Theorem join_channel_membership_gate (s : Server) (socket : Socket) (channelId : UUID) :
  Socket_IO.on_join_channel socket channelId s =
    if is_channel_member (User.id (user socket)) channelId (db s)
    then fst (socket_join socket (channel_room channelId) s)
    else s.
Proof.
  unfold Socket_IO.on_join_channel, is_channel_member, ChannelMember_findOne.
  run_async. rewrite find_existsb.
  destruct (find _ (channel_members (db s))); rewrite Server_eta.
  - destruct (socket_join socket (channel_room channelId) s) as [s' [[]|e]]; reflexivity.
  - reflexivity.
Qed.

(** C9, as stated, fails: dave is no member of [c1], his [join-channel] is
    turned down, and no event at all reaches his socket. *)
Lemma join_channel_denied_silently :
  is_channel_member "dave" "c1" (db Fixture.server1) = false /\
  rooms (Socket_IO.on_join_channel Fixture.dave_phone "c1" Fixture.server1)
    = rooms Fixture.server1 /\
  emitted (Socket_IO.on_join_channel Fixture.dave_phone "c1" Fixture.server1) = [].
Proof. vm_compute. repeat split. Qed.

(** ** Joining a channel over HTTP (C10) *)

(** C10: a member of the channel's team who is not yet in the channel joins
    it, whatever the channel's [isPrivate] flag: the request succeeds and
    adds exactly the one membership row. *)
Theorem joinChannel_needs_team_membership_only
    (d : DB) (userId channelId : UUID) (channel : Channel.t) :
  find (fun c => Channel.id c =? channelId) (channels d) = Some channel ->
  is_team_member userId (Channel.teamId channel) d = true ->
  is_channel_member userId channelId d = false ->
  channelController.joinChannel userId channelId d =
    (set_channel_members (fun rows => rows ++ [ChannelMember.mk userId channelId]) d,
     res 200 (json_message "Joined channel successfully"))
  /\ is_channel_member userId channelId
       (fst (channelController.joinChannel userId channelId d)) = true.
Proof.
  intros Hch Htm Hcm.
  assert (E : channelController.joinChannel userId channelId d =
    (set_channel_members (fun rows => rows ++ [ChannelMember.mk userId channelId]) d,
     res 200 (json_message "Joined channel successfully"))).
  { unfold channelController.joinChannel, Channel_findByPk, TeamMember_findOne,
           ChannelMember_findOne, ChannelMember_create.
    run_async. rewrite Hch.
    unfold is_team_member in Htm. destruct (find_Some_existsb _ _ Htm) as [tm ->].
    unfold is_channel_member in Hcm. rewrite (find_None_existsb _ _ Hcm), Hcm.
    reflexivity. }
  split; [exact E|].
  rewrite E. unfold is_channel_member. simpl.
  rewrite existsb_app. simpl. unfold ChannelMember_matches at 2. simpl.
  rewrite !String.eqb_refl. apply orb_true_r.
Qed.

(** carol, a team member outside the private channel [c2], joins it. *)
Lemma joinChannel_private_witness :
  Channel.isPrivate (Channel.mk "c2" "#secret" None "t1" "alice" true None) = true /\
  is_channel_member "carol" "c2"
    (fst (channelController.joinChannel "carol" "c2" Fixture.db0)) = true.
Proof.
  split; [reflexivity|].
  apply (joinChannel_needs_team_membership_only Fixture.db0 "carol" "c2"
           (Channel.mk "c2" "#secret" None "t1" "alice" true None));
    reflexivity.
Defined.

(** ** Presence (C1) *)

Lemma find_update_found {A} (p : A -> bool) (f : A -> A) (l : list A) :
  (forall x, p (f x) = p x) ->
  find p (map (fun x => if p x then f x else x) l) = option_map f (find p l).
Proof.
  intros Hp. induction l as [|x l IH]; simpl; [reflexivity|].
  destruct (p x) eqn:Hx.
  - rewrite Hp, Hx. reflexivity.
  - rewrite Hx. exact IH.
Qed.

(** C1, as the server does it: every [disconnect] marks the socket's user
    offline and stamps last-seen with the time of the disconnect, whatever
    connections of that user remain open, and every [connection] marks the
    user online; no count of connections per user is kept. *)
Theorem disconnect_marks_offline (s : Server) (socket : Socket) (now : Date) :
  presence (User.id (user socket)) (db (Socket_IO.on_disconnect socket now s))
    = option_map (fun _ => (false, Some now)) (presence (User.id (user socket)) (db s))
  /\ connections (User.id (user socket)) (Socket_IO.on_disconnect socket now s)
    = filter (fun k => negb (socket_id k =? socket_id socket))
             (connections (User.id (user socket)) s)
  /\ presence (User.id (user socket)) (db (Socket_IO.on_connection socket s))
    = option_map (fun p => (true, snd p)) (presence (User.id (user socket)) (db s)).
Proof.
  unfold presence, connections, Socket_IO.on_disconnect, Socket_IO.on_connection,
         User_update_offline, User_update_online.
  run_async. repeat split.
  - rewrite (find_update_found (fun u => User.id u =? User.id (user socket))
               (fun u => User.mk (User.id u) (User.email u) (User.username u)
                                 (User.firstName u) (User.lastName u) false (Some now)))
      by reflexivity.
    destruct (find _ (users (db s))); reflexivity.
  - induction (sockets s) as [|k l IH]; simpl; [reflexivity|].
    destruct (socket_id k =? socket_id socket) eqn:E1,
             (User.id (user k) =? User.id (user socket)) eqn:E2;
      simpl; rewrite ?E1, ?E2; simpl; rewrite ?IH; reflexivity.
  - rewrite (find_update_found (fun u => User.id u =? User.id (user socket))
               (fun u => User.mk (User.id u) (User.email u) (User.username u)
                                 (User.firstName u) (User.lastName u) true (User.lastSeen u)))
      by reflexivity.
    destruct (find _ (users (db s))); reflexivity.
Qed.

(** C1, as stated, fails: alice is connected from her phone and her laptop;
    the phone disconnects at time 99, the laptop stays connected, and her
    row reads offline. *)
Lemma disconnect_of_one_of_two_connections :
  let s := Socket_IO.on_connection Fixture.alice_laptop
             (Socket_IO.on_connection Fixture.alice_phone Fixture.server0) in
  let s' := Socket_IO.on_disconnect Fixture.alice_phone 99 s in
  map socket_id (connections "alice" s) = ["s1"; "s2"] /\
  presence "alice" (db s) = Some (true, None) /\
  map socket_id (connections "alice" s') = ["s2"] /\
  presence "alice" (db s') = Some (false, Some 99).
Proof. vm_compute. repeat split. Qed.

(** ** Editing and deleting another user's message (C4) *)

Lemma NoDup_map_injective {A B} (f : A -> B) (l : list A) (x y : A) :
  NoDup (map f l) -> In x l -> In y l -> f x = f y -> x = y.
Proof.
  induction l as [|z l IH]; simpl; [contradiction|].
  intros Hnd Hx Hy Hf. inversion Hnd as [|? ? Hnotin Hnd']; subst.
  destruct Hx as [->|Hx], Hy as [->|Hy]; auto.
  - exfalso. apply Hnotin. rewrite Hf. apply in_map. exact Hy.
  - exfalso. apply Hnotin. rewrite <- Hf. apply in_map. exact Hx.
Qed.

Lemma existsb_false_forall {A} (p : A -> bool) (l : list A) :
  (forall x, In x l -> p x = false) -> existsb p l = false.
Proof.
  induction l as [|x l IH]; simpl; intros H; [reflexivity|].
  rewrite (H x) by auto. simpl. apply IH. intros y Hy. apply H. auto.
Qed.

(** The lookup [{ id, senderId }] finds nothing when the message with that
    key belongs to someone else. *)
Lemma Message_findOne_other_sender (d : DB) (m : Message.t) (userId : UUID) :
  In m (messages d) ->
  NoDup (map Message.id (messages d)) ->
  userId <> Message.senderId m ->
  find (fun x => (Message.id x =? Message.id m) && (Message.senderId x =? userId))
       (messages d) = None.
Proof.
  intros Hin Hnd Hneq. apply find_None_existsb, existsb_false_forall.
  intros x Hx. destruct (Message.id x =? Message.id m) eqn:Eid; simpl; [|reflexivity].
  apply String.eqb_eq in Eid.
  rewrite (NoDup_map_injective Message.id (messages d) x m Hnd Hx Hin Eid).
  apply String.eqb_neq. congruence.
Qed.

Lemma Message_findOne_absent (d : DB) (messageId userId : UUID) :
  existsb (fun x => Message.id x =? messageId) (messages d) = false ->
  find (fun x => (Message.id x =? messageId) && (Message.senderId x =? userId))
       (messages d) = None.
Proof.
  intros Habs. apply find_None_existsb.
  induction (messages d) as [|x l IH]; simpl in *; [reflexivity|].
  apply orb_false_elim in Habs as [-> Hl]. simpl. auto.
Qed.

(** C4: when user B edits or deletes a message written by another user,
    the HTTP controllers answer 404 "Message not found" and the socket
    handlers emit that error to B's socket alone; the database, and with it
    the message, is exactly as before, and the answer is the one given for
    a message id that does not exist. *)
Theorem edit_delete_of_foreign_message_not_found
    (s : Server) (m : Message.t) (socket : Socket) (absent : UUID)
    (content : string) (now : Date) :
  let userB := User.id (user socket) in
  let not_found := res 404 (json_error "Message not found") in
  In m (messages (db s)) ->
  NoDup (map Message.id (messages (db s))) ->
  userB <> Message.senderId m ->
  existsb (fun x => Message.id x =? absent) (messages (db s)) = false ->
  (messageController.editMessage userB (Message.id m) content now (db s) = (db s, not_found)
   /\ messageController.deleteMessage userB (Message.id m) (db s) = (db s, not_found)
   /\ Socket_IO.on_edit_message socket (Message.id m) content now s
      = fst (socket_emit socket (error "Message not found") s)
   /\ Socket_IO.on_delete_message socket (Message.id m) s
      = fst (socket_emit socket (error "Message not found") s))
  /\ (messageController.editMessage userB absent content now (db s) = (db s, not_found)
      /\ messageController.deleteMessage userB absent (db s) = (db s, not_found)
      /\ Socket_IO.on_edit_message socket absent content now s
         = fst (socket_emit socket (error "Message not found") s)
      /\ Socket_IO.on_delete_message socket absent s
         = fst (socket_emit socket (error "Message not found") s)).
Proof.
  intros userB not_found Hin Hnd Hneq Habs.
  pose proof (Message_findOne_other_sender (db s) m userB Hin Hnd Hneq) as Hother.
  pose proof (Message_findOne_absent (db s) absent userB Habs) as Hnone.
  unfold messageController.editMessage, messageController.deleteMessage,
         Socket_IO.on_edit_message, Socket_IO.on_delete_message, Message_findOne.
  run_async. fold userB. rewrite Hother, Hnone. simpl.
  repeat split.
Qed.

(** bob tries alice's message [m1], and an id that names no message. *)
Lemma edit_delete_of_foreign_message_witness :
  messageController.editMessage "bob" "m1" "changed" 20 Fixture.db1
    = (Fixture.db1, res 404 (json_error "Message not found"))
  /\ messageController.editMessage "bob" "m9" "changed" 20 Fixture.db1
    = (Fixture.db1, res 404 (json_error "Message not found")).
Proof.
  pose (s := mkServer Fixture.db1 [] [] []).
  assert (Hin : In (Message.mk "m1" "hi" "alice" "c1" "t1" text None None 10)
                   (messages (db s))) by (left; reflexivity).
  assert (Hnd : NoDup (map Message.id (messages (db s))))
    by (repeat constructor; simpl; tauto).
  assert (Hneq : User.id (user Fixture.bob_phone) <> "alice") by discriminate.
  pose proof (edit_delete_of_foreign_message_not_found s _ Fixture.bob_phone "m9"
                "changed" 20 Hin Hnd Hneq eq_refl) as [[H1 _] [H2 _]].
  split; [exact H1 | exact H2].
Defined.

(** ** Leaving a team (C6) *)

(** The loop of [leaveTeam] over the team's channels: it always resolves,
    touches the membership table only, and keeps exactly the rows that are
    not a membership of the user in one of the channels. *)
Lemma for_of_ChannelMember_destroy (userId : UUID) (cs : list Channel.t) (d : DB) :
  exists rows,
    for_of cs (fun channel => ChannelMember_destroy userId (Channel.id channel)) d
    = (set_channel_members (fun _ => rows) d, Resolved tt)
    /\ forall r, In r rows <->
         In r (channel_members d)
         /\ existsb (fun c => ChannelMember_matches userId (Channel.id c) r) cs = false.
Proof.
  revert d. induction cs as [|c cs IH]; intros d; simpl.
  - exists (channel_members d). split.
    + unfold resolve, set_channel_members. rewrite DB_eta. reflexivity.
    + intros r. tauto.
  - unfold await, ChannelMember_destroy at 1, exec.
    destruct (IH (set_channel_members
                    (filter (fun r => negb (ChannelMember_matches userId (Channel.id c) r))) d))
      as [rows [E Hrows]].
    exists rows. split.
    + rewrite E. reflexivity.
    + intros r. rewrite Hrows. simpl. rewrite filter_In, negb_true_iff, orb_false_iff. tauto.
Qed.

(** C6: the owner's [leaveTeam] is answered 400 "Owner cannot leave team"
    and changes nothing, whatever rows the membership table holds; anyone
    else's succeeds, removes their membership row of the team and their
    membership of every channel of the team, and leaves the other rows of
    both tables in place. *)
Theorem leaveTeam_owner_cannot_leave (d : DB) (userId teamId : UUID) (team : Team.t) :
  find (fun t => Team.id t =? teamId) (teams d) = Some team ->
  (Team.ownerId team = userId ->
   teamController.leaveTeam userId teamId d
   = (d, res 400 (json_error "Owner cannot leave team")))
  /\ (Team.ownerId team <> userId ->
      let d' := fst (teamController.leaveTeam userId teamId d) in
      snd (teamController.leaveTeam userId teamId d)
        = res 200 (json_message "Left team successfully")
      /\ is_team_member userId teamId d' = false
      /\ (forall c, In c (channels d') -> Channel.teamId c = teamId ->
                    is_channel_member userId (Channel.id c) d' = false)
      /\ team_members d'
         = filter (fun r => negb (TeamMember_matches userId teamId r)) (team_members d)
      /\ (forall r, In r (channel_members d') <->
            In r (channel_members d)
            /\ existsb (fun c => (Channel.teamId c =? teamId)
                                 && ChannelMember_matches userId (Channel.id c) r)
                       (channels d) = false)
      /\ channels d' = channels d /\ teams d' = teams d).
Proof.
  intros Hteam. unfold teamController.leaveTeam, Team_findByPk, TeamMember_destroy,
                       Channel_findAll.
  split; intros Howner.
  - run_async. rewrite Hteam. apply String.eqb_eq in Howner. rewrite Howner. reflexivity.
  - apply String.eqb_neq in Howner. run_async. rewrite Hteam, Howner.
    set (d1 := set_team_members _ d).
    set (cs := filter (fun c => Channel.teamId c =? teamId) (channels d)).
    destruct (for_of_ChannelMember_destroy userId cs d1) as [rows [E Hrows]].
    rewrite E. simpl.
    assert (Hcs : forall r,
              existsb (fun c => ChannelMember_matches userId (Channel.id c) r) cs
              = existsb (fun c => (Channel.teamId c =? teamId)
                                  && ChannelMember_matches userId (Channel.id c) r)
                        (channels d)).
    { intros r. unfold cs. apply existsb_filter. }
    split; [reflexivity|]. split; [|split; [|split; [reflexivity|split; [|split; reflexivity]]]].
    + unfold is_team_member. simpl. apply existsb_filter_out.
    + intros c Hc Hteamc. unfold is_channel_member. simpl.
      apply existsb_false_forall. intros r Hr.
      apply Hrows in Hr as [_ Hr]. rewrite Hcs in Hr.
      destruct (ChannelMember_matches userId (Channel.id c) r) eqn:Em; [|reflexivity].
      rewrite <- Hr. symmetry. apply existsb_exists. exists c. split; [exact Hc|].
      rewrite Em. apply String.eqb_eq in Hteamc. rewrite Hteamc. reflexivity.
    + intros r. simpl. rewrite Hrows, Hcs. reflexivity.
Qed.

(** alice owns [t1] and is refused; bob leaves and is out of [c1]. *)
Lemma leaveTeam_witness :
  teamController.leaveTeam "alice" "t1" Fixture.db0
    = (Fixture.db0, res 400 (json_error "Owner cannot leave team"))
  /\ is_team_member "bob" "t1" (fst (teamController.leaveTeam "bob" "t1" Fixture.db0)) = false
  /\ is_channel_member "bob" "c1" (fst (teamController.leaveTeam "bob" "t1" Fixture.db0)) = false.
Proof.
  pose (t := Team.mk "t1" "Crew" None "alice" (Some "invite-1")).
  split.
  - apply (proj1 (leaveTeam_owner_cannot_leave Fixture.db0 "alice" "t1" t eq_refl)).
    reflexivity.
  - assert (Hbob : Team.ownerId t <> "bob") by discriminate.
    destruct (proj2 (leaveTeam_owner_cannot_leave Fixture.db0 "bob" "t1" t eq_refl) Hbob)
      as [_ [Htm [Hcm _]]].
    split; [exact Htm|].
    apply (Hcm (Channel.mk "c1" "#general" None "t1" "alice" false None));
      [left; reflexivity | reflexivity].
Defined.

(** ** Reactions toggle (C5) *)

Lemma filter_nil_existsb {A} (p : A -> bool) (l : list A) :
  filter p l = [] -> existsb p l = false.
Proof.
  induction l as [|x l IH]; simpl; [reflexivity|].
  destruct (p x); [discriminate | exact IH].
Qed.



Section Toggle.

Variables (d : DB) (userId messageId : UUID) (emoji : string) (message : Message.t).

Hypothesis message_exists :
  find (fun m => Message.id m =? messageId) (messages d) = Some message.
Hypothesis channel_member :
  is_channel_member userId (Message.channelId message) d = true.
Hypothesis no_reaction :
  existsb (MessageReaction_of userId messageId) (message_reactions d) = false.





End Toggle.

(** A reaction with a second emoji: the user holds a row on the message, none
    of it with this emoji.  The lookup finds nothing, the insert is refused
    by the constraint on (user, message), and the request is answered 500
    with nothing stored. *)
Lemma addReaction_second_emoji (d : DB) (userId messageId : UUID) (emoji : string)
    (message : Message.t) :
  find (fun m => Message.id m =? messageId) (messages d) = Some message ->
  is_channel_member userId (Message.channelId message) d = true ->
  existsb (MessageReaction_of userId messageId) (message_reactions d) = true ->
  reactions_of userId messageId emoji d = [] ->
  messageController.addReaction userId messageId emoji d
  = (d, res 500 (json_error "Validation error")).
Proof.
  intros Hm Hc Hrow Hnone.
  unfold messageController.addReaction, Message_findByPk, ChannelMember_findOne,
         MessageReaction_findOne, MessageReaction_create.
  run_async. rewrite Hm. simpl.
  unfold is_channel_member in Hc. destruct (find_Some_existsb _ _ Hc) as [cm ->].
  apply filter_nil_existsb in Hnone.
  rewrite (find_None_existsb _ _ Hnone), Hnone, Hrow. reflexivity.
Qed.

(** C5, at the failing input: bob, a member of [c1], has reacted to
    alice's message [m1] with a thumbs-up and now reacts to it with a heart,
    a reaction he does not hold.  The request is answered 500 "Validation
    error" and stores nothing, so after one application, and after any
    number of them, no (bob, [m1], heart) reaction is present, where the
    claim has exactly one after an odd number. *)
Theorem addReaction_second_emoji_refused :
  let d := fst (messageController.addReaction "bob" "m1" "+1" Fixture.db1) in
  is_channel_member "bob" "c1" d = true
  /\ message_reactions d = [MessageReaction.mk "bob" "m1" "+1"]
  /\ messageController.addReaction "bob" "m1" "heart" d
     = (d, res 500 (json_error "Validation error"))
  /\ forall n, reactions_of "bob" "m1" "heart" (addReaction_times n "bob" "m1" "heart" d) = [].
Proof.
  intros d.
  assert (Hrefused : messageController.addReaction "bob" "m1" "heart" d
                     = (d, res 500 (json_error "Validation error"))).
  { apply (addReaction_second_emoji d "bob" "m1" "heart"
             (Message.mk "m1" "hi" "alice" "c1" "t1" text None None 10));
      reflexivity. }
  split; [reflexivity|]. split; [reflexivity|]. split; [exact Hrefused|].
  intros n.
  assert (Hsame : addReaction_times n "bob" "m1" "heart" d = d).
  { induction n as [|n IH]; [reflexivity|].
    unfold addReaction_times in *. rewrite Nat.iter_succ, IH, Hrefused. reflexivity. }
  rewrite Hsame. reflexivity.
Qed.



(** ** Posting a message (C8) *)

Lemma len_spec (lo hi : nat) (s : string) :
  len lo hi s = true <-> lo <= String.length s <= hi.
Proof.
  unfold len. rewrite andb_true_iff, !Nat.leb_le. tauto.
Qed.

(** C8, as the server does it: the only rule on the content is its length.
    A post by a channel member with empty content or content longer than
    4000 is answered 500 with the validator's message and leaves the
    database, so the message table and the channel's last-message pointer,
    as it was.  A post with content of length 1 to 4000, whitespace-only
    content included, is answered 201: one row with the assigned id and
    timestamp is appended to the messages and the channel's pointer is set
    to that id. *)
Theorem sendMessage_checks_length_only
    (d : DB) (userId : UUID) (content : string) (channelId id : UUID) (now : Date)
    (channel : Channel.t) :
  is_channel_member userId channelId d = true ->
  find (fun c => Channel.id c =? channelId) (channels d) = Some channel ->
  existsb (fun m => Message.id m =? id) (messages d) = false ->
  (String.length content = 0 \/ 4000 < String.length content ->
   messageController.sendMessage userId content channelId id now d
   = (d, res 500 (json_error "Validation error: Validation len on content failed")))
  /\ (1 <= String.length content <= 4000 ->
      let d' := fst (messageController.sendMessage userId content channelId id now d) in
      status (snd (messageController.sendMessage userId content channelId id now d)) = 201
      /\ messages d'
         = messages d ++ [Message.mk id content userId channelId (Channel.teamId channel)
                                     text None None now]
      /\ option_map Channel.lastMessageId
           (find (fun c => Channel.id c =? channelId) (channels d')) = Some (Some id)).
Proof.
  intros Hmember Hchannel Hfresh.
  unfold messageController.sendMessage, ChannelMember_findOne, Channel_findByPk,
         Message_create, Channel_update_lastMessageId, Message_findByPk_sender.
  unfold is_channel_member in Hmember.
  destruct (find_Some_existsb _ _ Hmember) as [cm Hcm].
  split; intros Hlen.
  - assert (E : len 1 4000 content = false).
    { destruct (len 1 4000 content) eqn:E; [|reflexivity].
      apply len_spec in E. lia. }
    run_async. rewrite Hcm, Hchannel, E. reflexivity.
  - apply len_spec in Hlen. run_async. rewrite Hcm, Hchannel, Hlen, Hfresh. simpl.
    split; [reflexivity|]. split; [reflexivity|].
    rewrite (find_update_found (fun c => Channel.id c =? channelId)
               (fun c => Channel.mk (Channel.id c) (Channel.name c) (Channel.description c)
                                    (Channel.teamId c) (Channel.createdById c)
                                    (Channel.isPrivate c) (Some id)))
      by reflexivity.
    rewrite Hchannel. reflexivity.
Qed.

(** alice posts the empty string, then "hi", in [c1]. *)
Lemma sendMessage_length_witness :
  messageController.sendMessage "alice" "" "c1" "m1" 10 Fixture.db0
    = (Fixture.db0, res 500 (json_error "Validation error: Validation len on content failed"))
  /\ status (snd (messageController.sendMessage "alice" "hi" "c1" "m1" 10 Fixture.db0)) = 201.
Proof.
  pose (c := Channel.mk "c1" "#general" None "t1" "alice" false None).
  split.
  - apply (proj1 (sendMessage_checks_length_only Fixture.db0 "alice" "" "c1" "m1" 10 c
                    eq_refl eq_refl eq_refl)).
    left. reflexivity.
  - apply (proj2 (sendMessage_checks_length_only Fixture.db0 "alice" "hi" "c1" "m1" 10 c
                    eq_refl eq_refl eq_refl)).
    simpl. lia.
Defined.

(** C8, as stated, fails: three spaces are blank content, and alice's post of
    them is answered 201, stored, and made the last message of [c1]. *)
Lemma sendMessage_accepts_blank_content :
  let result := messageController.sendMessage "alice" "   " "c1" "m1" 10 Fixture.db0 in
  status (snd result) = 201
  /\ map Message.content (messages (fst result)) = ["   "]
  /\ map Channel.lastMessageId (channels (fst result)) = [Some "m1"; None].
Proof. vm_compute. repeat split. Qed.

(** ** Mutations after removal from a channel (C3) *)

(** The sender's lookup, by id and sender, of a message that the lookup by
    id finds. *)
Lemma Message_findOne_sender (d : DB) (messageId userId : UUID) (m : Message.t) :
  find (fun x => Message.id x =? messageId) (messages d) = Some m ->
  Message.senderId m = userId ->
  find (fun x => (Message.id x =? messageId) && (Message.senderId x =? userId))
       (messages d) = Some m.
Proof.
  intros Hfind Hsender. induction (messages d) as [|x l IH]; [discriminate|].
  simpl in *. destruct (Message.id x =? messageId); simpl.
  - inversion Hfind; subst. rewrite String.eqb_refl. reflexivity.
  - apply IH. exact Hfind.
Qed.

(** C3, as the server does it: [send-message] and the reaction request read
    the persisted membership on every call, whatever rooms the socket is
    subscribed to, and turn a non-member down with "Access denied" and no
    change to the database.  [edit-message] and [delete-message] read no
    membership: they look the message up by id and sender.  The sender's
    edit with valid content rewrites the row, sets its [editedAt] and is
    broadcast to the channel room; the sender's delete of a message that no
    channel holds as its last message and no message as its parent removes
    the row, its reactions with it, and is broadcast to the channel room. *)
Theorem membership_checked_on_post_and_react
    (s : Server) (socket : Socket) (channelId : UUID) :
  let userId := User.id (user socket) in
  is_channel_member userId channelId (db s) = false ->
  (forall content id now,
     Socket_IO.on_send_message socket content channelId id now s
     = fst (socket_emit socket (error "Access denied") s))
  /\ (forall content id now,
        messageController.sendMessage userId content channelId id now (db s)
        = (db s, res 403 (json_error "Access denied")))
  /\ (forall messageId emoji message,
        find (fun m => Message.id m =? messageId) (messages (db s)) = Some message ->
        Message.channelId message = channelId ->
        messageController.addReaction userId messageId emoji (db s)
        = (db s, res 403 (json_error "Access denied")))
  /\ (forall messageId content now message,
        find (fun m => Message.id m =? messageId) (messages (db s)) = Some message ->
        Message.senderId message = userId ->
        len 1 4000 content = true ->
        let s' := Socket_IO.on_edit_message socket messageId content now s in
        find (fun m => Message.id m =? messageId) (messages (db s'))
        = Some (edited message content now)
        /\ messages (db s')
           = map (fun m => if Message.id m =? messageId then edited m content now else m)
                 (messages (db s))
        /\ emitted s'
           = emitted s
             ++ [{| target := to_room (channel_room (Message.channelId message));
                    recipients := room_sockets (channel_room (Message.channelId message)) s;
                    event := message_edited
                               (Some {| row := edited message content now;
                                        sender := sender_of (db s) message;
                                        reactedUsers := [] |}) |}])
  /\ (forall messageId message,
        find (fun m => Message.id m =? messageId) (messages (db s)) = Some message ->
        Message.senderId message = userId ->
        last_message_of_a_channel messageId (db s) = false ->
        parent_of_a_message messageId (db s) = false ->
        let s' := Socket_IO.on_delete_message socket messageId s in
        messages (db s')
        = filter (fun m => negb (Message.id m =? messageId)) (messages (db s))
        /\ message_reactions (db s')
           = filter (fun r => negb (MessageReaction.messageId r =? messageId))
                    (message_reactions (db s))
        /\ emitted s'
           = emitted s
             ++ [{| target := to_room (channel_room (Message.channelId message));
                    recipients := room_sockets (channel_room (Message.channelId message)) s;
                    event := message_deleted messageId |}]).
Proof.
  intros userId Hnot. unfold is_channel_member in Hnot.
  pose proof (find_None_existsb _ _ Hnot) as Hfind.
  split; [|split; [|split; [|split]]].
  - intros content id now. unfold Socket_IO.on_send_message, ChannelMember_findOne.
    run_async. fold userId. rewrite Hfind. reflexivity.
  - intros content id now. unfold messageController.sendMessage, ChannelMember_findOne.
    run_async. rewrite Hfind. reflexivity.
  - intros messageId emoji message Hm Hc.
    unfold messageController.addReaction, Message_findByPk, ChannelMember_findOne.
    run_async. rewrite Hm. simpl. rewrite Hc, Hfind. reflexivity.
  - intros messageId content now message Hm Hsender Hlen.
    pose proof (Message_findOne_sender _ _ _ _ Hm Hsender) as Hone.
    assert (Hid : Message.id message = messageId).
    { apply find_some in Hm as [_ E]. apply String.eqb_eq. exact E. }
    assert (Hnew : find (fun m => Message.id m =? messageId)
                     (map (fun m => if Message.id m =? messageId
                                    then edited m content now else m) (messages (db s)))
                   = Some (edited message content now)).
    { rewrite (find_update_found (fun x => Message.id x =? messageId)
                 (fun x => edited x content now)) by reflexivity.
      rewrite Hm. reflexivity. }
    unfold Socket_IO.on_edit_message, Message_findOne, Message_update,
           Message_findByPk_sender.
    run_async. fold userId. rewrite Hone. simpl. rewrite Hlen. simpl.
    rewrite Hid. unfold edited in *. rewrite Hnew. repeat split.
  - intros messageId message Hm Hsender Hlast Hparent.
    pose proof (Message_findOne_sender _ _ _ _ Hm Hsender) as Hone.
    unfold Socket_IO.on_delete_message, Message_findOne, Message_destroy.
    run_async. fold userId. rewrite Hone. simpl. rewrite Hlast, Hparent, !andb_false_r.
    simpl. repeat split.
Qed.

(** dave, no member of [c1], posts there; bob, who left [c1], deletes the
    message he wrote there before alice wrote hers. *)
Lemma membership_checked_witness :
  Socket_IO.on_send_message Fixture.dave_phone "hello" "c1" "m2" 20 Fixture.server1
    = fst (socket_emit Fixture.dave_phone (error "Access denied") Fixture.server1)
  /\ map Message.id
       (messages (db (Socket_IO.on_delete_message Fixture.bob_phone "m1" Fixture.server3)))
     = ["m2"].
Proof.
  split.
  - apply (proj1 (membership_checked_on_post_and_react Fixture.server1 Fixture.dave_phone
                    "c1" eq_refl)).
  - destruct (membership_checked_on_post_and_react Fixture.server3 Fixture.bob_phone
                "c1" eq_refl) as [_ [_ [_ [_ Hdelete]]]].
    destruct (Hdelete "m1" (Message.mk "m1" "mine" "bob" "c1" "t1" text None None 10)
                eq_refl eq_refl eq_refl eq_refl) as [Hrows _].
    rewrite Hrows. reflexivity.
Defined.

(** C3, as stated, fails: bob's socket joined the room of [c1] and he
    posted [m1]; he then left the channel.  His post is now refused, but his
    [edit-message] rewrites [m1] and is broadcast to the room, with no error
    sent to him. *)
Lemma edit_after_removal_goes_through :
  let s := Fixture.server2 in
  let edited := Socket_IO.on_edit_message Fixture.bob_phone "m1" "edited" 30 s in
  is_channel_member "bob" "c1" (db s) = false
  /\ in_room (channel_room "c1") "s3" s = true
  /\ map Message.content (messages (db s)) = ["mine"]
  /\ map (fun m => (Message.content m, Message.editedAt m)) (messages (db edited))
     = [("edited", Some 30)]
  /\ map (fun e => (target e, recipients e, event e))
         (skipn (length (emitted s)) (emitted edited))
     = [(to_room "channel-c1", ["s1"; "s3"],
         message_edited
           (Some {| row := Message.mk "m1" "edited" "bob" "c1" "t1" text (Some 30) None 10;
                    sender := Some (UserInfo_of Fixture.bob);
                    reactedUsers := [] |}))].
Proof. vm_compute. repeat split. Qed.

(** ** Channel membership follows team membership (C7) *)

(** The bulk insert goes through when its rows are for one channel, for
    distinct users, and none of them is in the table yet. *)
Lemma ChannelMember_no_conflict (channelId : UUID) (rows existing : list ChannelMember.t) :
  (forall r, In r rows -> ChannelMember.channelId r = channelId) ->
  NoDup (map ChannelMember.userId rows) ->
  (forall r, In r rows ->
     existsb (ChannelMember_matches (ChannelMember.userId r) channelId) existing = false) ->
  ChannelMember_conflict existing rows = false.
Proof.
  revert existing. induction rows as [|r rows IH]; intros existing Hch Hnd Hex; simpl;
    [reflexivity|].
  inversion Hnd as [|? ? Hnotin Hnd']; subst.
  rewrite (Hch r) by (left; reflexivity).
  rewrite (Hex r) by (left; reflexivity). simpl.
  apply IH; auto.
  - intros r' Hr'. apply Hch. right. exact Hr'.
  - intros r' Hr'. rewrite existsb_app, (Hex r') by (right; exact Hr'). simpl.
    rewrite orb_false_r. unfold ChannelMember_matches.
    destruct (String.eqb_spec (ChannelMember.userId r) (ChannelMember.userId r')) as [E|E];
      [|reflexivity].
    exfalso. apply Hnotin. rewrite E. apply in_map. exact Hr'.
Qed.

(** The rows [createChannel] builds for its bulk insert, from the rows
    [TeamMember.findAll] returned. *)
Lemma bulk_rows_NoDup (userId id : UUID) (l : list TeamMember.t) :
  NoDup (map TeamMember.userId l) ->
  NoDup (map ChannelMember.userId
           (filter (fun m => negb (ChannelMember.userId m =? userId))
                   (map (fun m => ChannelMember.mk (TeamMember.userId m) id) l))).
Proof.
  induction l as [|m l IH]; simpl; intros Hnd; [constructor|].
  inversion Hnd as [|? ? Hnotin Hnd']; subst.
  destruct (negb (TeamMember.userId m =? userId)); simpl; [|auto].
  constructor; [|auto].
  intros Hin. apply Hnotin. apply in_map_iff in Hin as [r [Er Hr]].
  apply filter_In in Hr as [Hr _]. apply in_map_iff in Hr as [m' [Em' Hm']].
  subst r. simpl in Er. rewrite <- Er. apply in_map. exact Hm'.
Qed.

Lemma bulk_rows_member (u userId teamId id : UUID) (l : list TeamMember.t) :
  existsb (ChannelMember_matches u id)
    (filter (fun m => negb (ChannelMember.userId m =? userId))
            (map (fun m => ChannelMember.mk (TeamMember.userId m) id)
                 (filter (fun r => TeamMember.teamId r =? teamId) l)))
  = negb (u =? userId) && existsb (TeamMember_matches u teamId) l.
Proof.
  induction l as [|m l IH]; simpl; [symmetry; apply andb_false_r|].
  unfold TeamMember_matches at 1.
  destruct (String.eqb_spec (TeamMember.teamId m) teamId) as [Et|Et]; simpl.
  - destruct (String.eqb_spec (TeamMember.userId m) userId) as [Eu|Eu]; simpl.
    + rewrite IH. destruct (String.eqb_spec (TeamMember.userId m) u) as [E|E]; simpl.
      * assert (Huu : (u =? userId) = true) by (apply String.eqb_eq; congruence).
        rewrite Huu. reflexivity.
      * reflexivity.
    + rewrite IH. unfold ChannelMember_matches at 1. simpl. rewrite String.eqb_refl.
      destruct (String.eqb_spec (TeamMember.userId m) u) as [E|E]; simpl.
      * assert (Huu : (u =? userId) = false) by (apply String.eqb_neq; congruence).
        rewrite Huu. reflexivity.
      * reflexivity.
  - rewrite IH, andb_false_r. reflexivity.
Qed.

Section CreateChannel.

Variables (d : DB) (userId : UUID) (name : string) (description : option string)
          (teamId id : UUID) (isPrivate : option bool) (team : Team.t).

Hypothesis team_exists : find (fun t => Team.id t =? teamId) (teams d) = Some team.
Hypothesis owner_or_admin :
  Team.ownerId team = userId
  \/ existsb (fun r => TeamMember_matches userId teamId r && Role_eqb (TeamMember.role r) admin)
             (team_members d) = true.
Hypothesis name_ok : len 1 50 name = true.
Hypothesis description_ok :
  match description with Some s => len 0 200 s | None => true end = true.
Hypothesis not_private : isPrivate <> Some true.
Hypothesis fresh_id : existsb (fun c => Channel.id c =? id) (channels d) = false.
Hypothesis no_rows_yet :
  existsb (fun r => ChannelMember.channelId r =? id) (channel_members d) = false.
Hypothesis one_row_per_member :
  NoDup (map TeamMember.userId
             (filter (fun r => TeamMember.teamId r =? teamId) (team_members d))).

(** The rows of the bulk insert: the team's members except the creator. *)
Let others : list ChannelMember.t :=
  filter (fun m => negb (ChannelMember.userId m =? userId))
         (map (fun m => ChannelMember.mk (TeamMember.userId m) id)
              (filter (fun r => TeamMember.teamId r =? teamId) (team_members d))).

Lemma others_channel (r : ChannelMember.t) :
  In r others -> ChannelMember.channelId r = id /\ ChannelMember.userId r <> userId.
Proof.
  unfold others. rewrite filter_In, in_map_iff, negb_true_iff, String.eqb_neq.
  intros [[m [<- _]] Hneq]. split; [reflexivity | exact Hneq].
Qed.

Lemma others_NoDup : NoDup (map ChannelMember.userId others).
Proof. apply bulk_rows_NoDup. exact one_row_per_member. Qed.

Lemma others_member (u : UUID) :
  existsb (ChannelMember_matches u id) others
  = negb (u =? userId) && is_team_member u teamId d.
Proof. apply bulk_rows_member. Qed.

(** The database after the request. *)
Let created : DB :=
  set_channel_members (fun rows => (rows ++ [ChannelMember.mk userId id]) ++ others)
    (set_channels (fun rows => rows ++ [Channel.mk id (beforeSave name) description
                                                   teamId userId false None]) d).

Lemma createChannel_public :
  exists body,
    channelController.createChannel userId name description teamId isPrivate id d
    = (created, res 201 body).
Proof.
  eexists.
  assert (Hflag : match isPrivate with Some b => b | None => false end = false).
  { destruct isPrivate as [[|]|]; congruence. }
  assert (Hallowed :
    (if negb (Team.ownerId team =? userId)
     then await (TeamMember_findOne_role userId teamId admin)
            (fun teamMember =>
               resolve (match teamMember with Some _ => true | None => false end))
     else resolve true) d = (d, Resolved true)).
  { destruct (String.eqb_spec (Team.ownerId team) userId) as [E|E]; simpl; [reflexivity|].
    destruct owner_or_admin as [Ho|Ha]; [contradiction|].
    unfold TeamMember_findOne_role. run_async.
    destruct (find_Some_existsb _ _ Ha) as [tm ->]. reflexivity. }
  assert (Hconflict :
    ChannelMember_conflict (channel_members d ++ [ChannelMember.mk userId id]) others
    = false).
  { apply (ChannelMember_no_conflict id).
    - intros r Hr. apply (others_channel r Hr).
    - apply others_NoDup.
    - intros r Hr. destruct (others_channel r Hr) as [_ Hneq].
      rewrite existsb_app. simpl. rewrite orb_false_r.
      apply orb_false_intro.
      + apply existsb_false_forall. intros x Hx. unfold ChannelMember_matches.
        rewrite (existsb_false_forall_inv _ _ no_rows_yet x Hx). apply andb_false_r.
      + unfold ChannelMember_matches. simpl.
        apply andb_false_intro1. apply String.eqb_neq. congruence. }
  unfold channelController.createChannel, Team_findByPk.
  unfold controller, await at 1, query. rewrite team_exists.
  unfold await at 1. rewrite Hallowed. simpl negb. cbv iota.
  unfold Channel_create, ChannelMember_create, TeamMember_findAll,
         ChannelMember_bulkCreate, Channel_findByPk_members.
  rewrite Hflag. run_async. rewrite name_ok, description_ok, fresh_id. simpl.
  unfold is_channel_member.
  assert (Hnone : existsb (ChannelMember_matches userId id) (channel_members d) = false).
  { apply existsb_false_forall. intros x Hx. unfold ChannelMember_matches.
    rewrite (existsb_false_forall_inv _ _ no_rows_yet x Hx). apply andb_false_r. }
  rewrite Hnone. simpl. fold others. rewrite Hconflict. simpl.
  reflexivity.
Qed.

Lemma created_members (u : UUID) :
  is_channel_member u id created = (u =? userId) || is_team_member u teamId d.
Proof.
  unfold is_channel_member, created. simpl.
  rewrite !existsb_app, others_member. simpl.
  assert (Hold : existsb (ChannelMember_matches u id) (channel_members d) = false).
  { apply existsb_false_forall. intros x Hx. unfold ChannelMember_matches.
    rewrite (existsb_false_forall_inv _ _ no_rows_yet x Hx). apply andb_false_r. }
  rewrite Hold. unfold ChannelMember_matches. simpl. rewrite String.eqb_refl.
  rewrite (String.eqb_sym userId u).
  destruct (u =? userId), (is_team_member u teamId d); reflexivity.
Qed.

Lemma created_creator_once :
  filter (ChannelMember_matches userId id) (channel_members created)
  = [ChannelMember.mk userId id].
Proof.
  unfold created. simpl. rewrite !filter_app. simpl.
  unfold ChannelMember_matches at 2. simpl. rewrite !String.eqb_refl. simpl.
  assert (Hold : filter (ChannelMember_matches userId id) (channel_members d) = []).
  { apply filter_none. intros x Hx. unfold ChannelMember_matches.
    rewrite (existsb_false_forall_inv _ _ no_rows_yet x Hx). apply andb_false_r. }
  assert (Hothers : filter (ChannelMember_matches userId id) others = []).
  { apply filter_none. intros x Hx. destruct (others_channel x Hx) as [_ Hneq].
    unfold ChannelMember_matches. apply andb_false_intro1. apply String.eqb_neq. exact Hneq. }
  rewrite Hold, Hothers. reflexivity.
Qed.

End CreateChannel.

(** Selecting channels keeps their keys distinct. *)
Lemma selected_channel_keys (select : Channel.t -> bool) (cs : list Channel.t) :
  NoDup (map Channel.id cs) -> NoDup (map Channel.id (filter select cs)).
Proof.
  induction cs as [|c cs IH]; simpl; [trivial|].
  rewrite NoDup_cons_iff. intros [Hc Hcs].
  destruct (select c); simpl; [|exact (IH Hcs)].
  apply NoDup_cons; [|exact (IH Hcs)].
  contradict Hc. apply in_map_iff in Hc as [c' [E Hin]].
  apply filter_In in Hin. rewrite <- E. apply in_map, Hin.
Qed.

(** The loop of [joinTeam] over the public channels: with distinct channels
    and no row of the user in any of them, every insert goes through and the
    rows are appended in the order of the channels. *)
Lemma for_of_ChannelMember_create (userId : UUID) (cs : list Channel.t) (d : DB) :
  NoDup (map Channel.id cs) ->
  (forall c, In c cs -> is_channel_member userId (Channel.id c) d = false) ->
  for_of cs (fun channel => ChannelMember_create userId (Channel.id channel)) d
  = (set_channel_members
       (fun rows => rows ++ map (fun c => ChannelMember.mk userId (Channel.id c)) cs) d,
     Resolved tt).
Proof.
  revert d. induction cs as [|c cs IH]; intros d Hnd Hfree; simpl.
  - unfold resolve, set_channel_members. rewrite app_nil_r, DB_eta. reflexivity.
  - inversion Hnd as [|? ? Hnotin Hnd']; subst.
    unfold await, ChannelMember_create at 1.
    pose proof (Hfree c (or_introl eq_refl)) as Hc. unfold is_channel_member in Hc.
    rewrite Hc. rewrite IH; auto.
    + unfold set_channel_members. simpl. rewrite <- app_assoc. reflexivity.
    + intros c' Hc'. pose proof (Hfree c' (or_intror Hc')) as Hc'free.
      unfold is_channel_member in *. simpl. rewrite existsb_app, Hc'free. simpl.
      rewrite orb_false_r.
      unfold ChannelMember_matches. simpl. rewrite String.eqb_refl. simpl.
      apply String.eqb_neq. intros E. apply Hnotin. rewrite E. apply in_map. exact Hc'.
Qed.

Section JoinTeam.

Variables (d : DB) (userId : UUID) (inviteCode : string) (team : Team.t).

Hypothesis invite_resolves :
  find (fun t => match Team.inviteCode t with
                 | Some c => c =? inviteCode
                 | None => false
                 end) (teams d) = Some team.
Hypothesis not_yet_member : is_team_member userId (Team.id team) d = false.
Hypothesis channel_keys : NoDup (map Channel.id (channels d)).
Hypothesis in_no_public_channel :
  forall c, In c (channels d) -> Channel.teamId c = Team.id team ->
            Channel.isPrivate c = false ->
            is_channel_member userId (Channel.id c) d = false.

(** The public channels of the team. *)
Let publicChannels : list Channel.t :=
  filter (fun c => (Channel.teamId c =? Team.id team) && negb (Channel.isPrivate c))
         (channels d).

(** The database after the request. *)
Let joined : DB :=
  set_channel_members
    (fun rows => rows ++ map (fun c => ChannelMember.mk userId (Channel.id c)) publicChannels)
    (set_team_members (fun rows => rows ++ [TeamMember.mk userId (Team.id team) member]) d).

Lemma joinTeam_cascades :
  exists body, teamController.joinTeam userId inviteCode d = (joined, res 200 body).
Proof.
  eexists.
  unfold teamController.joinTeam, Team_findOne, TeamMember_findOne, TeamMember_create,
         Channel_findAll_public, Team_findByPk_members.
  unfold controller, await at 1, query. rewrite invite_resolves.
  unfold await at 1. unfold is_team_member in not_yet_member.
  rewrite (find_None_existsb _ _ not_yet_member).
  unfold await at 1. rewrite not_yet_member.
  unfold await at 1. cbn [channels set_team_members].
  unfold await at 1. fold publicChannels.
  rewrite for_of_ChannelMember_create.
  - reflexivity.
  - apply selected_channel_keys, channel_keys.
  - intros c Hc. apply filter_In in Hc as [Hc Hp].
    apply andb_true_iff in Hp as [Ht Hp].
    apply String.eqb_eq in Ht. apply negb_true_iff in Hp.
    apply (in_no_public_channel c Hc Ht Hp).
Qed.

Lemma joined_team : is_team_member userId (Team.id team) joined = true.
Proof.
  unfold is_team_member, joined. simpl. rewrite existsb_app. simpl.
  unfold TeamMember_matches at 2. simpl. rewrite !String.eqb_refl. apply orb_true_r.
Qed.

Lemma joined_public_channels (c : Channel.t) :
  In c (channels joined) -> Channel.teamId c = Team.id team ->
  Channel.isPrivate c = false ->
  is_channel_member userId (Channel.id c) joined = true.
Proof.
  intros Hc Ht Hp. unfold is_channel_member, joined. simpl. rewrite existsb_app.
  apply orb_true_intro. right. apply existsb_exists.
  exists (ChannelMember.mk userId (Channel.id c)). split.
  - apply in_map_iff. exists c. split; [reflexivity|].
    unfold publicChannels. apply filter_In. split; [exact Hc|].
    rewrite Ht, Hp, String.eqb_refl. reflexivity.
  - unfold ChannelMember_matches. simpl. rewrite !String.eqb_refl. reflexivity.
Qed.

End JoinTeam.

Lemma leaveChannel_keeps_team (userId channelId : UUID) (d : DB) :
  team_members (fst (channelController.leaveChannel userId channelId d)) = team_members d.
Proof.
  unfold channelController.leaveChannel, Channel_findByPk, ChannelMember_destroy.
  run_async. destruct (find _ (channels d)); reflexivity.
Qed.

(** C7: a non-private channel created by the team's owner or an admin gets
    as members exactly the team's current members and the creator, with one
    row for the creator; a user who joins the team by its invite code
    becomes a member of every non-private channel of the team; and leaving
    a channel leaves the team membership table as it was. *)
Theorem channel_membership_cascade
    (d : DB) (creator : UUID) (name : string) (description : option string)
    (teamId id : UUID) (isPrivate : option bool) (team : Team.t)
    (joiner : UUID) (inviteCode : string) (invited : Team.t) :
  find (fun t => Team.id t =? teamId) (teams d) = Some team ->
  (Team.ownerId team = creator
   \/ existsb (fun r => TeamMember_matches creator teamId r
                        && Role_eqb (TeamMember.role r) admin) (team_members d) = true) ->
  len 1 50 name = true ->
  match description with Some s => len 0 200 s | None => true end = true ->
  isPrivate <> Some true ->
  existsb (fun c => Channel.id c =? id) (channels d) = false ->
  existsb (fun r => ChannelMember.channelId r =? id) (channel_members d) = false ->
  NoDup (map TeamMember.userId
             (filter (fun r => TeamMember.teamId r =? teamId) (team_members d))) ->
  find (fun t => match Team.inviteCode t with
                 | Some c => c =? inviteCode
                 | None => false
                 end) (teams d) = Some invited ->
  is_team_member joiner (Team.id invited) d = false ->
  NoDup (map Channel.id (channels d)) ->
  (forall c, In c (channels d) -> Channel.teamId c = Team.id invited ->
             Channel.isPrivate c = false ->
             is_channel_member joiner (Channel.id c) d = false) ->
  (let result := channelController.createChannel creator name description teamId
                   isPrivate id d in
   status (snd result) = 201
   /\ (forall u, is_channel_member u id (fst result)
                 = (u =? creator) || is_team_member u teamId d)
   /\ filter (ChannelMember_matches creator id) (channel_members (fst result))
      = [ChannelMember.mk creator id])
  /\ (let result := teamController.joinTeam joiner inviteCode d in
      status (snd result) = 200
      /\ is_team_member joiner (Team.id invited) (fst result) = true
      /\ forall c, In c (channels (fst result)) -> Channel.teamId c = Team.id invited ->
                   Channel.isPrivate c = false ->
                   is_channel_member joiner (Channel.id c) (fst result) = true)
  /\ (forall userId channelId,
        team_members (fst (channelController.leaveChannel userId channelId d))
        = team_members d).
Proof.
  intros Hteam Hallowed Hname Hdesc Hpub Hfresh Hrows Huniq Hcode Hnot Hkeys Hfree.
  split; [|split].
  - destruct (createChannel_public d creator name description teamId id isPrivate team
                Hteam Hallowed Hname Hdesc Hpub Hfresh Hrows Huniq) as [body E].
    cbv zeta. rewrite E. cbn [fst snd status]. split; [reflexivity|]. split.
    + intros u. apply created_members. exact Hrows.
    + apply created_creator_once. exact Hrows.
  - destruct (joinTeam_cascades d joiner inviteCode invited Hcode Hnot Hkeys Hfree)
      as [body E].
    cbv zeta. rewrite E. cbn [fst snd status]. split; [reflexivity|]. split.
    + apply joined_team.
    + apply joined_public_channels.
  - intros userId channelId. apply leaveChannel_keeps_team.
Qed.

(** In the workspace, alice creates the public channel [c3] and dave joins
    the team with its invite code. *)
Lemma channel_membership_cascade_witness :
  (forall u, is_channel_member u "c3"
               (fst (channelController.createChannel "alice" "design" None "t1" None "c3"
                       Fixture.db0))
             = (u =? "alice") || is_team_member u "t1" Fixture.db0)
  /\ is_channel_member "dave" "c1" (fst (teamController.joinTeam "dave" "invite-1" Fixture.db0))
     = true.
Proof.
  pose (t := Team.mk "t1" "Crew" None "alice" (Some "invite-1")).
  assert (Huniq : NoDup (map TeamMember.userId
                           (filter (fun r => TeamMember.teamId r =? "t1")
                                   (team_members Fixture.db0)))).
  { simpl. repeat constructor; simpl; intuition discriminate. }
  assert (Hkeys : NoDup (map Channel.id (channels Fixture.db0))).
  { simpl. repeat constructor; simpl; intuition discriminate. }
  assert (Hfree : forall c, In c (channels Fixture.db0) -> Channel.teamId c = Team.id t ->
                    Channel.isPrivate c = false ->
                    is_channel_member "dave" (Channel.id c) Fixture.db0 = false).
  { intros c [<-|[<-|[]]] _ _; reflexivity. }
  assert (Hpub : @None bool <> Some true) by discriminate.
  destruct (channel_membership_cascade Fixture.db0 "alice" "design" None "t1" "c3" None t
              "dave" "invite-1" t eq_refl (or_introl eq_refl) eq_refl eq_refl Hpub
              eq_refl eq_refl Huniq eq_refl eq_refl Hkeys Hfree)
    as [[_ [Hcreate _]] [[_ [_ Hjoin]] _]].
  split; [exact Hcreate|].
  apply (Hjoin (Channel.mk "c1" "#general" None "t1" "alice" false None)).
  - left. vm_compute. reflexivity.
  - reflexivity.
  - reflexivity.
Defined.

(** ** Order of [new-message] broadcasts (C2) *)

(** Running a call's five steps back to back is the handler. *)
Lemma to_completion_on_send_message
    (socket : Socket) (content : string) (channelId id : UUID) (now : Date) (s : Server) :
  to_completion (send_message socket content channelId id now) s
  = Socket_IO.on_send_message socket content channelId id now s.
Proof.
  unfold to_completion, Socket_IO.on_send_message, resume, settle, send_message, suspend,
         ChannelMember_findOne, Channel_findByPk, Message_create,
         Channel_update_lastMessageId, Message_findByPk_sender.
  run_async.
  destruct (find _ (channel_members (db s))); simpl; [|reflexivity].
  destruct (find _ (channels (db s))); simpl; [|reflexivity].
  destruct (negb (len 1 4000 content)); simpl; [reflexivity|].
  destruct (existsb _ (messages (db s))); simpl; reflexivity.
Qed.

Lemma to_completion_run (c : Call) (s : Server) :
  to_completion c s = fst (run [0; 0; 0; 0; 0] [c] s).
Proof.
  unfold to_completion. simpl.
  destruct (resume c s) as [s1 c1]. destruct (resume c1 s1) as [s2 c2].
  destruct (resume c2 s2) as [s3 c3]. destruct (resume c3 s3) as [s4 c4].
  destruct (resume c4 s4) as [s5 c5]. reflexivity.
Qed.

(** Two channel rooms are the same room exactly when the channels are. *)
Lemma channel_room_eqb (a b : UUID) : (channel_room a =? channel_room b) = (a =? b).
Proof. reflexivity. Qed.

Lemma room_sockets_in_room (room sid : string) (s : Server) :
  existsb (String.eqb sid) (room_sockets room s) = in_room room sid s.
Proof.
  unfold room_sockets, in_room. induction (rooms s) as [|[k r] l IH]; simpl; [reflexivity|].
  destruct (r =? room); simpl.
  - rewrite IH, (String.eqb_sym sid k), andb_true_r. reflexivity.
  - rewrite IH, andb_false_r. reflexivity.
Qed.

Lemma deliveries_to_subscriber (channelId : UUID) (sid : string) (s : Server)
    (es : list Emission) :
  in_room (channel_room channelId) sid s = true ->
  Forall (to_whole_room s) es ->
  deliveries channelId sid es = broadcasts channelId es.
Proof.
  intros Hsub Hes. induction Hes as [|e es He Hes IH]; simpl; [reflexivity|].
  rewrite IH. f_equal. unfold to_whole_room in He.
  destruct (target e) as [k|room]; [reflexivity|].
  destruct (String.eqb_spec room (channel_room channelId)) as [->|]; [|reflexivity].
  rewrite He, room_sockets_in_room, Hsub. reflexivity.
Qed.

Lemma emits_only_refl (s : Server) : emits_only s s.
Proof.
  split; [reflexivity|]. exists []. split; [symmetry; apply app_nil_r | constructor].
Qed.

Lemma emits_only_trans (s1 s2 s3 : Server) :
  emits_only s1 s2 -> emits_only s2 s3 -> emits_only s1 s3.
Proof.
  intros [Hr1 [es1 [E1 F1]]] [Hr2 [es2 [E2 F2]]]. split; [congruence|].
  exists (es1 ++ es2). split.
  - rewrite E2, E1, app_assoc. reflexivity.
  - apply Forall_app. split; [exact F1|].
    eapply Forall_impl; [|exact F2]. intros e. unfold to_whole_room, room_sockets.
    rewrite Hr1. auto.
Qed.

Lemma resume_emits_only (c : Call) (s : Server) : emits_only s (fst (resume c s)).
Proof.
  assert (Hone : forall d t to ev,
            to_whole_room s {| target := t; recipients := to; event := ev |} ->
            emits_only s (mkServer d (sockets s) (rooms s)
                            (emitted s ++ [{| target := t; recipients := to; event := ev |}]))).
  { intros d t to ev H. split; [reflexivity|]. eexists. split; [reflexivity|].
    constructor; [exact H | constructor]. }
  assert (Hnone : forall d, emits_only s (mkServer d (sockets s) (rooms s) (emitted s))).
  { intros d. split; [reflexivity|]. exists []. split; [symmetry; apply app_nil_r | constructor]. }
  unfold resume, settle, suspend, ChannelMember_findOne, Channel_findByPk, Message_create,
         Channel_update_lastMessageId, Message_findByPk_sender.
  destruct (call_at c); run_async.
  - destruct (find _ (channel_members (db s))); simpl; [apply Hnone | apply Hone; exact I].
  - destruct (find _ (channels (db s))); simpl; [apply Hnone | apply Hone; exact I].
  - destruct (negb (len 1 4000 (call_content c))); simpl; [apply Hone; exact I|].
    destruct (existsb _ (messages (db s))); simpl; [apply Hone; exact I | apply Hnone].
  - apply Hnone.
  - apply Hone. reflexivity.
  - apply emits_only_refl.
Qed.

Lemma resume_nth_emits_only (n : nat) (calls : list Call) (s : Server) :
  emits_only s (fst (resume_nth n calls s)).
Proof.
  revert n. induction calls as [|c calls IH]; intros n;
    [destruct n; apply emits_only_refl|].
  destruct n as [|n]; simpl.
  - pose proof (resume_emits_only c s) as H. destruct (resume c s). exact H.
  - pose proof (IH n) as H. destruct (resume_nth n calls s). exact H.
Qed.

Lemma run_emits_only (schedule : list nat) (calls : list Call) (s : Server) :
  emits_only s (fst (run schedule calls s)).
Proof.
  revert calls s. induction schedule as [|n later IH]; intros calls s; simpl;
    [apply emits_only_refl|].
  pose proof (resume_nth_emits_only n calls s) as H.
  destruct (resume_nth n calls s) as [s' calls']. simpl in H.
  eapply emits_only_trans; [exact H | apply IH].
Qed.

(** Under any interleaving, the sockets subscribed to the channel room see
    the same sequence of new broadcasts. *)
Lemma run_same_order (channelId : UUID) (schedule : list nat) (calls : list Call)
    (s : Server) :
  exists ids,
    broadcast_order channelId (fst (run schedule calls s))
    = broadcast_order channelId s ++ ids
    /\ forall sid, in_room (channel_room channelId) sid s = true ->
                   observed channelId sid (fst (run schedule calls s))
                   = observed channelId sid s ++ ids.
Proof.
  destruct (run_emits_only schedule calls s) as [_ [es [E F]]].
  exists (broadcasts channelId es). unfold broadcast_order, observed. rewrite E. split.
  - unfold broadcasts. apply flat_map_app.
  - intros sid Hsub. rewrite <- (deliveries_to_subscriber channelId sid s es Hsub F).
    unfold deliveries. apply flat_map_app.
Qed.

(** One [send-message] handled from start to return: what it commits to a
    channel is what it broadcasts to the channel's room. *)
Lemma on_send_message_commit
    (channelId : UUID) (socket : Socket) (content : string) (target_channel id : UUID)
    (now : Date) (s : Server) :
  exists ids,
    commit_order channelId
      (Socket_IO.on_send_message socket content target_channel id now s)
    = commit_order channelId s ++ ids
    /\ broadcast_order channelId
         (Socket_IO.on_send_message socket content target_channel id now s)
       = broadcast_order channelId s ++ ids.
Proof.
  assert (Hquiet : forall k ev,
            broadcasts channelId
              (emitted s ++ [{| target := to_socket k; recipients := [k]; event := ev |}])
            = broadcasts channelId (emitted s) ++ []).
  { intros k ev. unfold broadcasts. rewrite flat_map_app. reflexivity. }
  unfold Socket_IO.on_send_message, ChannelMember_findOne, Channel_findByPk, Message_create,
         Channel_update_lastMessageId, Message_findByPk_sender, commit_order, broadcast_order.
  run_async.
  destruct (find _ (channel_members (db s))); simpl;
    [|exists []; rewrite app_nil_r; split; [reflexivity | apply Hquiet]].
  destruct (find _ (channels (db s))) as [channel|]; simpl;
    [|exists []; rewrite app_nil_r; split; [reflexivity | apply Hquiet]].
  destruct (negb (len 1 4000 content)); simpl;
    [exists []; rewrite app_nil_r; split; [reflexivity | apply Hquiet]|].
  destruct (existsb _ (messages (db s))) eqn:Hfresh; simpl;
    [exists []; rewrite app_nil_r; split; [reflexivity | apply Hquiet]|].
  rewrite (find_app_fresh _ _ _ Hfresh). simpl. rewrite String.eqb_refl. simpl.
  exists (if target_channel =? channelId then [id] else []). split.
  - rewrite filter_app, map_app. simpl. destruct (target_channel =? channelId); reflexivity.
  - unfold broadcasts. rewrite flat_map_app. simpl.
    destruct (target_channel =? channelId); reflexivity.
Qed.

Lemma post_all_emits_only (calls : list Call) (s : Server) :
  emits_only s (post_all calls s).
Proof.
  unfold post_all. revert s. induction calls as [|c calls IH]; intros s; simpl;
    [apply emits_only_refl|].
  eapply emits_only_trans; [|apply IH].
  rewrite to_completion_run. apply run_emits_only.
Qed.

Lemma post_all_commit (channelId : UUID) (calls : list Call) (s : Server) :
  Forall (fun c => call_at c = awaiting_findOne) calls ->
  exists ids,
    commit_order channelId (post_all calls s) = commit_order channelId s ++ ids
    /\ broadcast_order channelId (post_all calls s) = broadcast_order channelId s ++ ids.
Proof.
  unfold post_all. intros Hfresh. revert s.
  induction Hfresh as [|c calls Hc Hcalls IH]; intros s; simpl.
  - exists []. rewrite !app_nil_r. split; reflexivity.
  - assert (Ec : c = send_message (call_socket c) (call_content c) (call_channelId c)
                       (call_id c) (call_now c)).
    { destruct c. simpl in Hc. subst. reflexivity. }
    rewrite Ec, to_completion_on_send_message.
    destruct (on_send_message_commit channelId (call_socket c) (call_content c)
                (call_channelId c) (call_id c) (call_now c) s) as [ids1 [C1 B1]].
    destruct (IH (Socket_IO.on_send_message (call_socket c) (call_content c)
                    (call_channelId c) (call_id c) (call_now c) s)) as [ids2 [C2 B2]].
    exists (ids1 ++ ids2). rewrite C2, B2, C1, B1, !app_assoc. split; reflexivity.
Qed.

(** C2, as the server does it: whatever the interleaving of the [send-message]
    calls in flight, all sockets subscribed to the channel room observe one
    and the same sequence of [new-message] broadcasts, which is the order of
    broadcast; nothing serializes the calls, and that order is the commit
    order when the calls are handled one at a time, each to its return before
    the next starts. *)
Theorem new_message_order (channelId : UUID) (calls : list Call) (s : Server) :
  Forall (fun c => call_at c = awaiting_findOne) calls ->
  (forall schedule, exists ids,
     broadcast_order channelId (fst (run schedule calls s))
     = broadcast_order channelId s ++ ids
     /\ forall sid, in_room (channel_room channelId) sid s = true ->
                    observed channelId sid (fst (run schedule calls s))
                    = observed channelId sid s ++ ids)
  /\ (exists ids,
        commit_order channelId (post_all calls s) = commit_order channelId s ++ ids
        /\ broadcast_order channelId (post_all calls s) = broadcast_order channelId s ++ ids
        /\ forall sid, in_room (channel_room channelId) sid s = true ->
                       observed channelId sid (post_all calls s)
                       = observed channelId sid s ++ ids).
Proof.
  intros Hfresh. split.
  - intros schedule. apply run_same_order.
  - destruct (post_all_commit channelId calls s Hfresh) as [ids [C B]].
    exists ids. split; [exact C|]. split; [exact B|].
    intros sid Hsub. destruct (post_all_emits_only calls s) as [_ [es [E F]]].
    unfold observed, broadcast_order in *. rewrite E in *.
    unfold deliveries. rewrite flat_map_app. fold (deliveries channelId sid (emitted s)).
    fold (deliveries channelId sid es).
    rewrite (deliveries_to_subscriber channelId sid s es Hsub F). f_equal.
    unfold broadcasts in B at 1. rewrite flat_map_app in B.
    apply app_inv_head in B. exact B.
Qed.

(** The two posts of the workspace, handled one after the other. *)
Lemma new_message_order_witness :
  exists ids,
    commit_order "c1" (post_all [Fixture.first_call; Fixture.second_call] Fixture.server1)
    = commit_order "c1" Fixture.server1 ++ ids
    /\ observed "c1" "s3" (post_all [Fixture.first_call; Fixture.second_call] Fixture.server1)
       = observed "c1" "s3" Fixture.server1 ++ ids.
Proof.
  assert (Hfresh : Forall (fun c => call_at c = awaiting_findOne)
                     [Fixture.first_call; Fixture.second_call])
    by (repeat constructor).
  destruct (new_message_order "c1" [Fixture.first_call; Fixture.second_call]
              Fixture.server1 Hfresh) as [_ [ids [Hcommit [_ Hobserved]]]].
  exists ids. split; [exact Hcommit|].
  apply Hobserved. reflexivity.
Defined.

(** C2, as stated, fails: alice's and bob's sockets are in the room of [c1]
    for the whole run.  alice's post is committed first ([mA]), bob's second
    ([mB]); bob's call reaches its broadcast while alice's is still awaiting
    the update of the channel row, so both sockets receive [mB] before [mA],
    and the channel's last-message pointer ends on [mA]. *)
Lemma broadcast_order_differs_from_commit_order :
  let s := fst (run Fixture.overtaking [Fixture.first_call; Fixture.second_call]
                    Fixture.server1) in
  in_room (channel_room "c1") "s1" s = true
  /\ in_room (channel_room "c1") "s3" s = true
  /\ commit_order "c1" s = ["mA"; "mB"]
  /\ observed "c1" "s1" s = ["mB"; "mA"]
  /\ observed "c1" "s3" s = ["mB"; "mA"]
  /\ map Channel.lastMessageId (channels (db s)) = [Some "mA"; None].
Proof. vm_compute. repeat split. Qed.

(** * Further properties of the handlers and controllers *)

(** ** Room subscriptions *)

Lemma in_room_app (room sid : string) (d : DB) (ks : list Socket)
    (rs extra : list (string * string)) (es : list Emission) :
  in_room room sid (mkServer d ks (rs ++ extra) es)
  = in_room room sid (mkServer d ks rs es)
    || existsb (fun sr => (fst sr =? sid) && (snd sr =? room)) extra.
Proof. unfold in_room. simpl. apply existsb_app. Qed.

(** [socket.join] resolves, touches the rooms alone, and adds at most the
    one subscription. *)
Lemma socket_join_spec (socket : Socket) (room : string) (s : Server) :
  exists s',
    socket_join socket room s = (s', Resolved tt)
    /\ db s' = db s /\ sockets s' = sockets s /\ emitted s' = emitted s
    /\ forall r k, in_room r k s'
                   = in_room r k s || ((socket_id socket =? k) && (room =? r)).
Proof.
  unfold socket_join. destruct (in_room room (socket_id socket) s) eqn:Hin.
  - exists s. repeat split; try reflexivity. intros r k.
    destruct (String.eqb_spec (socket_id socket) k) as [<-|]; simpl;
      [|rewrite orb_false_r; reflexivity].
    destruct (String.eqb_spec room r) as [<-|]; [|rewrite orb_false_r; reflexivity].
    rewrite Hin. reflexivity.
  - eexists. split; [reflexivity|]. repeat split; try reflexivity. intros r k.
    rewrite in_room_app. simpl. rewrite orb_false_r, Server_eta. reflexivity.
Qed.

(** X1: [join-teams] subscribes the socket to the room of every listed team
    without reading any membership: whatever the user's teams, the socket
    ends up in each listed room, nobody else's subscriptions change, and
    neither the database nor the emissions are touched. *)
Theorem join_teams_subscribes_unchecked (socket : Socket) (teamIds : list UUID) (s : Server) :
  let s' := Socket_IO.on_join_teams socket teamIds s in
  db s' = db s /\ emitted s' = emitted s /\ sockets s' = sockets s
  /\ forall room sid,
       in_room room sid s'
       = in_room room sid s
         || ((socket_id socket =? sid)
             && existsb (fun teamId => team_room teamId =? room) teamIds).
Proof.
  unfold Socket_IO.on_join_teams, handler.
  assert (H : exists s',
             for_of teamIds (fun teamId => socket_join socket (team_room teamId)) s
             = (s', Resolved tt)
             /\ db s' = db s /\ emitted s' = emitted s /\ sockets s' = sockets s
             /\ forall room sid,
                  in_room room sid s'
                  = in_room room sid s
                    || ((socket_id socket =? sid)
                        && existsb (fun teamId => team_room teamId =? room) teamIds)).
  { revert s. induction teamIds as [|t ts IH]; intros s; cbn [for_of existsb].
    - exists s. repeat split; try reflexivity. intros room sid.
      rewrite andb_false_r, orb_false_r. reflexivity.
    - destruct (socket_join_spec socket (team_room t) s) as [s1 [E [Hd [Hk [He Hr]]]]].
      destruct (IH s1) as [s2 [E2 [Hd2 [He2 [Hk2 Hr2]]]]].
      exists s2. unfold await. rewrite E, E2. repeat split; try congruence.
      intros room sid. rewrite Hr2, Hr.
      destruct (socket_id socket =? sid), (team_room t =? room),
               (in_room room sid s),
               (existsb (fun teamId => team_room teamId =? room) ts); reflexivity. }
  destruct H as [s' [E H]]. rewrite E. exact H.
Qed.

(** X2: a [typing] notice goes to the sockets of the channel room other than
    the sender's, never to the sender; it reads no membership and changes
    neither the database nor any subscription. *)
Theorem typing_reaches_the_others (socket : Socket) (channelId : UUID) (isTyping : bool)
    (s : Server) :
  let s' := Socket_IO.on_typing socket channelId isTyping s in
  db s' = db s /\ rooms s' = rooms s /\ sockets s' = sockets s
  /\ exists to,
       emitted s'
       = emitted s ++ [{| target := to_room (channel_room channelId);
                          recipients := to;
                          event := user_typing (User.id (user socket))
                                     (User.username (user socket)) isTyping |}]
       /\ ~ In (socket_id socket) to
       /\ forall sid, sid <> socket_id socket ->
                      (In sid to <-> in_room (channel_room channelId) sid s = true).
Proof.
  unfold Socket_IO.on_typing, socket_to_emit, emit. simpl.
  repeat split; try reflexivity. eexists. split; [reflexivity|]. split.
  - rewrite filter_In, negb_true_iff, String.eqb_refl. intros [_ H]. discriminate.
  - intros sid Hsid. rewrite filter_In, negb_true_iff, String.eqb_neq.
    rewrite <- room_sockets_in_room, existsb_exists. split.
    + intros [Hin _]. exists sid. split; [exact Hin | apply String.eqb_refl].
    + intros [k [Hk E]]. apply String.eqb_eq in E. subst k. auto.
Qed.

(** X3: after [disconnect] the socket is in no room and in the registry no
    more, so no later broadcast reaches it; the subscriptions of the other
    sockets, the persisted team and channel memberships and the emissions
    are as before. *)
Theorem disconnect_leaves_every_room (socket : Socket) (now : Date) (s : Server) :
  let s' := Socket_IO.on_disconnect socket now s in
  (forall room, in_room room (socket_id socket) s' = false)
  /\ (forall room, ~ In (socket_id socket) (room_sockets room s'))
  /\ (forall room sid, sid <> socket_id socket -> in_room room sid s' = in_room room sid s)
  /\ (forall k, In k (sockets s') -> socket_id k <> socket_id socket)
  /\ channel_members (db s') = channel_members (db s)
  /\ team_members (db s') = team_members (db s)
  /\ emitted s' = emitted s.
Proof.
  unfold Socket_IO.on_disconnect, User_update_offline. run_async.
  assert (Hout : forall room,
            existsb (fun sr => (fst sr =? socket_id socket) && (snd sr =? room))
                    (filter (fun sr => negb (fst sr =? socket_id socket)) (rooms s)) = false).
  { intros room. apply existsb_false_forall. intros sr Hsr.
    apply filter_In in Hsr as [_ Hsr]. apply negb_true_iff in Hsr. rewrite Hsr. reflexivity. }
  split; [exact Hout|]. split; [|split; [|split; [|repeat split]]].
  - intros room Hin. pose proof (room_sockets_in_room room (socket_id socket)
      (mkServer (db s) (sockets s)
                (filter (fun sr => negb (fst sr =? socket_id socket)) (rooms s)) (emitted s)))
      as E.
    unfold in_room in E. simpl in E. rewrite Hout in E.
    assert (Ht : existsb (String.eqb (socket_id socket))
                   (room_sockets room
                      (mkServer (db s) (sockets s)
                         (filter (fun sr => negb (fst sr =? socket_id socket)) (rooms s))
                         (emitted s))) = true).
    { apply existsb_exists. exists (socket_id socket). split; [|apply String.eqb_refl].
      exact Hin. }
    congruence.
  - intros room sid Hsid. unfold in_room. simpl. rewrite existsb_filter.
    apply existsb_ext_in. intros sr _.
    destruct (String.eqb_spec (fst sr) (socket_id socket)) as [E|E]; simpl; [|reflexivity].
    destruct (String.eqb_spec (fst sr) sid) as [E'|E']; [congruence | reflexivity].
  - intros k Hk. apply filter_In in Hk as [_ Hk]. apply negb_true_iff in Hk.
    apply String.eqb_neq. exact Hk.
Qed.

(** X4: for a channel member whose socket is not yet in the channel room,
    [join-channel] followed by [leave-channel] gives back the server state
    as it was; [leave-channel] reads no membership, and for a socket that is
    not in the room it changes nothing. *)
Theorem join_then_leave_channel_room (socket : Socket) (channelId : UUID) (s : Server) :
  in_room (channel_room channelId) (socket_id socket) s = false ->
  Socket_IO.on_leave_channel socket channelId s = s
  /\ (is_channel_member (User.id (user socket)) channelId (db s) = true ->
      in_room (channel_room channelId) (socket_id socket)
        (Socket_IO.on_join_channel socket channelId s) = true
      /\ Socket_IO.on_leave_channel socket channelId
           (Socket_IO.on_join_channel socket channelId s) = s).
Proof.
  intros Hout. unfold in_room in Hout.
  assert (Hleave : Socket_IO.on_leave_channel socket channelId s = s).
  { unfold Socket_IO.on_leave_channel, socket_leave. simpl.
    rewrite filter_all; [apply Server_eta|].
    rewrite <- Hout. apply existsb_ext_in. intros sr _. apply negb_involutive. }
  split; [exact Hleave|]. intros Hmember.
  unfold Socket_IO.on_join_channel, ChannelMember_findOne, is_channel_member in *.
  run_async. destruct (find_Some_existsb _ _ Hmember) as [cm ->].
  unfold socket_join, in_room. simpl. rewrite Hout. simpl. split.
  - unfold in_room. simpl. rewrite existsb_app. simpl.
    rewrite !String.eqb_refl. apply orb_true_r.
  - unfold Socket_IO.on_leave_channel, socket_leave. simpl.
    rewrite (filter_out_fresh
               (fun sr => (fst sr =? socket_id socket) && (snd sr =? channel_room channelId))
               (rooms s) (socket_id socket, channel_room channelId) Hout).
    + apply Server_eta.
    + simpl. rewrite !String.eqb_refl. reflexivity.
Qed.

(** bob's socket, connected and in no room, joins and leaves the room of [c1]. *)
Lemma join_then_leave_channel_room_witness :
  let s := Socket_IO.on_connection Fixture.bob_phone Fixture.server0 in
  Socket_IO.on_leave_channel Fixture.bob_phone "c1"
    (Socket_IO.on_join_channel Fixture.bob_phone "c1" s) = s.
Proof.
  intros s.
  apply (proj2 (join_then_leave_channel_room Fixture.bob_phone "c1" s eq_refl)).
  reflexivity.
Defined.

(** ** The socket handlers and the REST controllers *)

(** X5: a post, an edit and a delete leave the same database whether they
    arrive on a socket or over HTTP; the HTTP request emits nothing, so a
    message posted, edited or deleted over HTTP is not broadcast to the
    channel room. *)
Theorem socket_and_http_write_alike
    (socket : Socket) (content : string) (channelId id messageId : UUID) (now : Date)
    (s : Server) :
  let userId := User.id (user socket) in
  db (Socket_IO.on_send_message socket content channelId id now s)
    = db (http (messageController.sendMessage userId content channelId id now) s)
  /\ db (Socket_IO.on_edit_message socket messageId content now s)
     = db (http (messageController.editMessage userId messageId content now) s)
  /\ db (Socket_IO.on_delete_message socket messageId s)
     = db (http (messageController.deleteMessage userId messageId) s)
  /\ emitted (http (messageController.sendMessage userId content channelId id now) s)
     = emitted s
  /\ emitted (http (messageController.editMessage userId messageId content now) s)
     = emitted s
  /\ emitted (http (messageController.deleteMessage userId messageId) s) = emitted s.
Proof.
  unfold http. simpl. repeat split.
  - unfold Socket_IO.on_send_message, messageController.sendMessage, ChannelMember_findOne,
           Channel_findByPk, Message_create, Channel_update_lastMessageId,
           Message_findByPk_sender.
    run_async.
    destruct (find _ (channel_members (db s))); simpl; [|reflexivity].
    destruct (find _ (channels (db s))); simpl; [|reflexivity].
    destruct (negb (len 1 4000 content)); simpl; [reflexivity|].
    destruct (existsb _ (messages (db s))); reflexivity.
  - unfold Socket_IO.on_edit_message, messageController.editMessage, Message_findOne,
           Message_update, Message_findByPk_sender.
    run_async.
    destruct (find _ (messages (db s))); simpl; [|reflexivity].
    destruct (negb (len 1 4000 content)); reflexivity.
  - unfold Socket_IO.on_delete_message, messageController.deleteMessage, Message_findOne,
           Message_destroy.
    run_async.
    destruct (find _ (messages (db s))); simpl; [|reflexivity].
    destruct (existsb _ (messages (db s)) && last_message_of_a_channel messageId (db s));
      simpl; [reflexivity|].
    destruct (existsb _ (messages (db s)) && parent_of_a_message messageId (db s));
      reflexivity.
Qed.

(** ** Editing and deleting one's own message *)

Lemma find_refine {A} (p q : A -> bool) (l : list A) (x : A) :
  find p l = Some x -> q x = true -> find (fun y => p y && q y) l = Some x.
Proof.
  induction l as [|y l IH]; simpl; [discriminate|].
  destruct (p y) eqn:Hp; simpl.
  - intros E Hq. inversion E; subst. rewrite Hq. reflexivity.
  - auto.
Qed.

(** X6: the sender's edit with content of length 1 to 4000 is answered 200;
    the row keeps its id, sender, channel and creation time, takes the new
    content and has [editedAt] set to the time of the edit; the order and the
    ids of the stored messages, every other row and the channels (so the
    last-message pointers) are unchanged.  With empty or over-long content
    the edit is answered 500 and nothing changes. *)
Theorem editMessage_by_sender
    (d : DB) (userId messageId : UUID) (content : string) (now : Date) (m : Message.t) :
  find (fun x => Message.id x =? messageId) (messages d) = Some m ->
  Message.senderId m = userId ->
  (len 1 4000 content = true ->
   let d' := fst (messageController.editMessage userId messageId content now d) in
   status (snd (messageController.editMessage userId messageId content now d)) = 200
   /\ find (fun x => Message.id x =? messageId) (messages d') = Some (edited m content now)
   /\ map Message.id (messages d') = map Message.id (messages d)
   /\ (forall x, In x (messages d) -> Message.id x <> messageId -> In x (messages d'))
   /\ channels d' = channels d)
  /\ (len 1 4000 content = false ->
      messageController.editMessage userId messageId content now d
      = (d, res 500 (json_error "Validation error: Validation len on content failed"))).
Proof.
  intros Hfind Hsender.
  assert (Hone : find (fun x => (Message.id x =? messageId) && (Message.senderId x =? userId))
                      (messages d) = Some m).
  { apply find_refine; [exact Hfind|]. apply String.eqb_eq. exact Hsender. }
  assert (Hid : Message.id m = messageId).
  { apply find_some in Hfind as [_ E]. apply String.eqb_eq. exact E. }
  unfold messageController.editMessage, Message_findOne, Message_update,
         Message_findByPk_sender.
  split; intros Hlen; run_async; rewrite Hone; simpl; rewrite Hlen; simpl;
    [|reflexivity].
  rewrite Hid. split; [reflexivity|]. split; [|split; [|split; [|reflexivity]]].
  - rewrite (find_update_found (fun x => Message.id x =? messageId)
               (fun x => edited x content now)) by reflexivity.
    rewrite Hfind. reflexivity.
  - rewrite map_map. apply map_ext. intros x.
    destruct (Message.id x =? messageId); reflexivity.
  - intros x Hx Hneq. apply in_map_iff. exists x. split; [|exact Hx].
    apply String.eqb_neq in Hneq. rewrite Hneq. reflexivity.
Qed.

(** alice rewrites her message [m1]. *)
Lemma editMessage_by_sender_witness :
  find (fun x => Message.id x =? "m1")
       (messages (fst (messageController.editMessage "alice" "m1" "hi there" 20 Fixture.db1)))
  = Some (Message.mk "m1" "hi there" "alice" "c1" "t1" text (Some 20) None 10).
Proof.
  apply (proj1 (editMessage_by_sender Fixture.db1 "alice" "m1" "hi there" 20
                  (Message.mk "m1" "hi" "alice" "c1" "t1" text None None 10)
                  eq_refl eq_refl)).
  reflexivity.
Defined.

Lemma insert_newest_first_In (m x : Message.t) (rows : list Message.t) :
  In x (insert_newest_first m rows) <-> x = m \/ In x rows.
Proof.
  induction rows as [|r rows IH]; simpl; [intuition|].
  destruct (Nat.ltb (Message.createdAt r) (Message.createdAt m)); simpl;
    [intuition | rewrite IH; intuition].
Qed.

Lemma newest_first_In (x : Message.t) (rows : list Message.t) :
  In x (newest_first rows) <-> In x rows.
Proof.
  unfold newest_first. induction rows as [|r rows IH]; simpl; [tauto|].
  rewrite insert_newest_first_In, IH. intuition.
Qed.

Lemma window_In {A} (x : A) (limit offset : nat) (l : list A) :
  In x (firstn limit (skipn offset l)) -> In x l.
Proof.
  intros H. assert (Hskip : In x (skipn offset l)).
  { rewrite <- (firstn_skipn limit (skipn offset l)). apply in_or_app. left. exact H. }
  rewrite <- (firstn_skipn offset l). apply in_or_app. right. exact Hskip.
Qed.

(** Every message of a history answer is a stored message of the channel. *)
Lemma history_is_stored (userId channelId : UUID) (page limit : Z) (d : DB) (id : UUID) :
  In id (sent_ids (snd (channelController_reads.getChannelMessages
                          userId channelId page limit d))) ->
  exists m, In m (messages d) /\ Message.id m = id /\ Message.channelId m = channelId.
Proof.
  unfold channelController_reads.getChannelMessages, reader, ChannelMember_findOne,
         Message_findAll_page.
  unfold await, resolve, query.
  destruct (find _ (channel_members d)); [|simpl; contradiction].
  destruct (negb (bigint limit && bigint ((page - 1) * limit))); [simpl; contradiction|].
  destruct ((page - 1) * limit <? 0)%Z; [simpl; contradiction|].
  destruct (limit <? 0)%Z; [simpl; contradiction|].
  cbn [snd sent_ids]. rewrite in_map_iff. intros [p [<- Hp]].
  apply in_rev, in_map_iff in Hp as [m [<- Hm]].
  apply window_In, newest_first_In, filter_In in Hm as [Hm Hc].
  exists m. repeat split; [exact Hm | apply String.eqb_eq; exact Hc].
Qed.

(** X7: the sender's delete of a message that no channel holds as its last
    message and no message as its parent is answered 200 and removes the
    message with its reactions: the other rows stay, in their order, and no
    row with that id is left, so a second delete or an edit of it is
    answered 404 "Message not found" and no history page of any channel
    lists it again.  The sender's delete of a message that a channel holds
    as its last message is answered 500 and removes nothing. *)
Theorem deleteMessage_by_sender (d : DB) (userId messageId : UUID) (m : Message.t) :
  find (fun x => Message.id x =? messageId) (messages d) = Some m ->
  Message.senderId m = userId ->
  (last_message_of_a_channel messageId d = false ->
   parent_of_a_message messageId d = false ->
   let d' := fst (messageController.deleteMessage userId messageId d) in
   snd (messageController.deleteMessage userId messageId d)
     = res 200 (json_message "Message deleted successfully")
   /\ messages d' = filter (fun x => negb (Message.id x =? messageId)) (messages d)
   /\ message_reactions d'
      = filter (fun r => negb (MessageReaction.messageId r =? messageId))
               (message_reactions d)
   /\ channels d' = channels d
   /\ messageController.deleteMessage userId messageId d'
      = (d', res 404 (json_error "Message not found"))
   /\ (forall content now,
         messageController.editMessage userId messageId content now d'
         = (d', res 404 (json_error "Message not found")))
   /\ (forall reader_id channelId page limit,
         ~ In messageId
             (sent_ids (snd (channelController_reads.getChannelMessages
                               reader_id channelId page limit d')))))
  /\ (last_message_of_a_channel messageId d = true ->
      fst (messageController.deleteMessage userId messageId d) = d
      /\ status (snd (messageController.deleteMessage userId messageId d)) = 500).
Proof.
  intros Hfind Hsender.
  pose proof (Message_findOne_sender _ _ _ _ Hfind Hsender) as Hone.
  assert (Hstored : existsb (fun x => Message.id x =? messageId) (messages d) = true).
  { rewrite find_existsb, Hfind. reflexivity. }
  split.
  - intros Hlast Hparent.
    remember (set_message_reactions
                (filter (fun r => negb (MessageReaction.messageId r =? messageId)))
                (set_messages (filter (fun x => negb (Message.id x =? messageId))) d))
      as d' eqn:Ed'.
    assert (E : messageController.deleteMessage userId messageId d
                = (d', res 200 (json_message "Message deleted successfully"))).
    { unfold messageController.deleteMessage, Message_findOne, Message_destroy.
      run_async. rewrite Hone. simpl. rewrite Hlast, Hparent, !andb_false_r.
      rewrite Ed'. reflexivity. }
    cbv zeta. rewrite E. cbn [fst snd].
    assert (Hrows : messages d'
                    = filter (fun x => negb (Message.id x =? messageId)) (messages d)).
    { rewrite Ed'. reflexivity. }
    assert (Hgone : existsb (fun x => Message.id x =? messageId) (messages d') = false).
    { rewrite Hrows. apply (existsb_filter_out (fun x => Message.id x =? messageId)). }
    pose proof (Message_findOne_absent d' messageId userId Hgone) as Hnone.
    split; [reflexivity|]. split; [exact Hrows|].
    split; [rewrite Ed'; reflexivity|]. split; [rewrite Ed'; reflexivity|].
    split; [|split].
    + unfold messageController.deleteMessage, Message_findOne. run_async.
      rewrite Hnone. reflexivity.
    + intros content now. unfold messageController.editMessage, Message_findOne. run_async.
      rewrite Hnone. reflexivity.
    + intros reader_id channelId page limit Hin.
      apply history_is_stored in Hin as [x [Hx [Hid _]]].
      apply (existsb_false_forall_inv _ _ Hgone) in Hx.
      apply String.eqb_neq in Hx. contradiction.
  - intros Hlast.
    unfold messageController.deleteMessage, Message_findOne, Message_destroy.
    run_async. rewrite Hone. simpl. rewrite Hstored, Hlast. simpl. split; reflexivity.
Qed.

(** bob deletes his message [m1], which alice's [m2] has followed in [c1];
    alice's delete of [m2], the last message of [c1], is refused. *)
Lemma deleteMessage_by_sender_witness :
  map Message.id (messages (fst (messageController.deleteMessage "bob" "m2" History.db3)))
    = ["m1"; "m3"]
  /\ snd (messageController.deleteMessage "bob" "m2" History.db3)
     = res 200 (json_message "Message deleted successfully")
  /\ fst (messageController.deleteMessage "alice" "m3" History.db3) = History.db3.
Proof.
  destruct (deleteMessage_by_sender History.db3 "bob" "m2"
              (Message.mk "m2" "two" "bob" "c1" "t1" text None None 20) eq_refl eq_refl)
    as [Hdeleted _].
  destruct (Hdeleted eq_refl eq_refl) as [Hres [Hrows _]].
  destruct (deleteMessage_by_sender History.db3 "alice" "m3"
              (Message.mk "m3" "three" "alice" "c1" "t1" text None None 30) eq_refl eq_refl)
    as [_ Hrefused].
  split; [rewrite Hrows; reflexivity|]. split; [exact Hres|].
  apply (proj1 (Hrefused eq_refl)).
Defined.

(** ** Reactions of other triples *)

Lemma MessageReaction_matches_self (userId messageId : UUID) (emoji : string) :
  MessageReaction_matches userId messageId emoji
    (MessageReaction.mk userId messageId emoji) = true.
Proof.
  unfold MessageReaction_matches. simpl. rewrite !String.eqb_refl. reflexivity.
Qed.

Lemma MessageReaction_matches_two
    (u m e u' m' e' : string) (r : MessageReaction.t) :
  (u', m', e') <> (u, m, e) ->
  MessageReaction_matches u' m' e' r = true ->
  MessageReaction_matches u m e r = false.
Proof.
  unfold MessageReaction_matches. intros Hneq H.
  apply andb_true_iff in H as [H He]. apply andb_true_iff in H as [Hu Hm].
  apply String.eqb_eq in Hu, Hm, He.
  destruct (String.eqb_spec (MessageReaction.userId r) u) as [Eu|]; [|reflexivity].
  destruct (String.eqb_spec (MessageReaction.messageId r) m) as [Em|]; [|reflexivity].
  destruct (String.eqb_spec (MessageReaction.emoji r) e) as [Ee|]; [|reflexivity].
  exfalso. apply Hneq. congruence.
Qed.

(** X8: a reaction request changes no reaction but the caller's own with
    that emoji on that message: the rows of every other (user, message,
    emoji) triple are as before whatever the outcome of the request, and so
    are the messages and the memberships; for a message id that names no
    message the request is answered 404 and nothing changes. *)
Theorem addReaction_touches_one_triple
    (d : DB) (userId messageId : UUID) (emoji : string)
    (userId' messageId' : UUID) (emoji' : string) :
  (userId', messageId', emoji') <> (userId, messageId, emoji) ->
  let d' := fst (messageController.addReaction userId messageId emoji d) in
  reactions_of userId' messageId' emoji' d' = reactions_of userId' messageId' emoji' d
  /\ messages d' = messages d
  /\ channel_members d' = channel_members d
  /\ (find (fun m => Message.id m =? messageId) (messages d) = None ->
      messageController.addReaction userId messageId emoji d
      = (d, res 404 (json_error "Message not found"))).
Proof.
  intros Hneq.
  unfold messageController.addReaction, Message_findByPk, ChannelMember_findOne,
         MessageReaction_findOne, MessageReaction_destroy, MessageReaction_create,
         Message_findByPk_reactions, reactions_of.
  run_async.
  destruct (find _ (messages d)) as [message|]; simpl; [|repeat split].
  destruct (find _ (channel_members d)); simpl; [|repeat split; discriminate].
  destruct (find (MessageReaction_matches userId messageId emoji) (message_reactions d))
    eqn:Hex; simpl.
  - repeat split; try discriminate.
    apply filter_filter_keep. intros r Hr.
    rewrite (MessageReaction_matches_two _ _ _ _ _ _ r Hneq Hr). reflexivity.
  - assert (Hnone : existsb (MessageReaction_matches userId messageId emoji)
                      (message_reactions d) = false).
    { rewrite find_existsb, Hex. reflexivity. }
    rewrite Hnone. simpl.
    destruct (existsb (MessageReaction_of userId messageId) (message_reactions d));
      simpl; repeat split; try discriminate.
    rewrite filter_app. simpl.
    destruct (MessageReaction_matches userId' messageId' emoji'
                (MessageReaction.mk userId messageId emoji)) eqn:E'.
    + apply (MessageReaction_matches_two userId messageId emoji) in E'; [|exact Hneq].
      rewrite MessageReaction_matches_self in E'. discriminate.
    + apply app_nil_r.
Qed.

(** carol's heart on [m1] stays while bob toggles his thumbs-up. *)
Lemma addReaction_touches_one_triple_witness :
  let d := fst (messageController.addReaction "carol" "m1" "heart" Fixture.db1) in
  reactions_of "carol" "m1" "heart" (fst (messageController.addReaction "bob" "m1" "+1" d))
  = [MessageReaction.mk "carol" "m1" "heart"].
Proof.
  intros d.
  assert (Hneq : ("carol", "m1", "heart") <> ("bob", "m1", "+1")) by discriminate.
  rewrite (proj1 (addReaction_touches_one_triple d "bob" "m1" "+1" "carol" "m1" "heart" Hneq)).
  reflexivity.
Defined.

(** ** Reading a channel and its history *)

Lemma insert_oldest (m : Message.t) (rows : list Message.t) :
  (forall r, In r rows -> Message.createdAt m < Message.createdAt r) ->
  insert_newest_first m rows = rows ++ [m].
Proof.
  induction rows as [|r rows IH]; simpl; intros H; [reflexivity|].
  assert (Hr : Nat.ltb (Message.createdAt r) (Message.createdAt m) = false).
  { apply Nat.ltb_ge. pose proof (H r (or_introl eq_refl)). lia. }
  rewrite Hr, IH; [reflexivity|]. intros r' Hr'. apply H. right. exact Hr'.
Qed.

(** Rows inserted with increasing timestamps come back, newest first, in the
    reverse of their insertion order. *)
Lemma newest_first_rev (rows : list Message.t) :
  StronglySorted (fun a b => Message.createdAt a < Message.createdAt b) rows ->
  newest_first rows = rev rows.
Proof.
  unfold newest_first. induction 1 as [|m rows Hsorted IH Hm]; simpl; [reflexivity|].
  rewrite IH. apply insert_oldest. intros r Hr. apply in_rev in Hr.
  rewrite Forall_forall in Hm. apply Hm. exact Hr.
Qed.

(** X9: a member's history request with [page >= 1] and [limit >= 0], both
    safe integers with a safe offset [(page - 1) * limit], on a channel whose
    messages were stored with increasing timestamps, is answered with the
    window of [limit] messages that starts [(page - 1) * limit] messages back
    from the newest one, delivered oldest first; page 1 is the [limit] most
    recent messages in the order they were stored.  A non-member is answered
    403 "Access denied".  The database is not changed. *)
Theorem getChannelMessages_page
    (d : DB) (userId channelId : UUID) (page limit : Z) :
  let stored := filter (fun m => Message.channelId m =? channelId) (messages d) in
  let populate := fun m => {| row := m; sender := sender_of d m; reactedUsers := [] |} in
  (is_channel_member userId channelId d = false ->
   channelController_reads.getChannelMessages userId channelId page limit d
   = (d, failed 403 "Access denied"))
  /\ (is_channel_member userId channelId d = true ->
      (1 <= page)%Z -> (0 <= limit)%Z ->
      safe_integer page = true -> safe_integer limit = true ->
      safe_integer ((page - 1) * limit) = true ->
      StronglySorted (fun a b => Message.createdAt a < Message.createdAt b) stored ->
      channelController_reads.getChannelMessages userId channelId page limit d
      = (d, sent (map populate
                      (rev (firstn (Z.to_nat limit)
                              (skipn (Z.to_nat ((page - 1) * limit)) (rev stored))))))
      /\ (page = 1%Z ->
          channelController_reads.getChannelMessages userId channelId page limit d
          = (d, sent (map populate (skipn (length stored - Z.to_nat limit) stored))))).
Proof.
  intros stored populate.
  unfold channelController_reads.getChannelMessages, reader, ChannelMember_findOne,
         Message_findAll_page, is_channel_member.
  unfold await, resolve, query. split.
  - intros Hnot. rewrite (find_None_existsb _ _ Hnot). reflexivity.
  - intros Hmember Hpage Hlimit _ Hsafe_limit Hsafe_offset Hsorted.
    destruct (find_Some_existsb _ _ Hmember) as [cm ->].
    unfold safe_integer in Hsafe_limit, Hsafe_offset.
    apply Z.ltb_lt in Hsafe_limit, Hsafe_offset.
    assert (Hpow : (2 ^ 53 < 2 ^ 63)%Z) by reflexivity.
    assert (Hoffset : (0 <= (page - 1) * limit)%Z) by nia.
    assert (Hbig : bigint limit && bigint ((page - 1) * limit) = true).
    { unfold bigint. rewrite !andb_true_iff, !Z.leb_le, !Z.ltb_lt. lia. }
    assert (Hl : (limit <? 0)%Z = false) by (apply Z.ltb_ge; lia).
    assert (Ho : ((page - 1) * limit <? 0)%Z = false) by (apply Z.ltb_ge; lia).
    rewrite Hbig, Hl, Ho. cbn [negb]. fold stored. rewrite (newest_first_rev stored Hsorted).
    rewrite <- map_rev. fold populate.
    split; [reflexivity|]. intros ->. simpl Z.to_nat. cbn [skipn].
    rewrite firstn_rev, rev_involutive. reflexivity.
Qed.

(** carol reads the two most recent of three messages in [c1]. *)
Lemma getChannelMessages_page_witness :
  sent_ids (snd (channelController_reads.getChannelMessages "carol" "c1" 1 2 History.db3))
  = ["m2"; "m3"].
Proof.
  assert (Hsorted : StronglySorted (fun a b => Message.createdAt a < Message.createdAt b)
                      (filter (fun m => Message.channelId m =? "c1")
                              (messages History.db3))).
  { simpl. repeat constructor; simpl; lia. }
  destruct (proj2 (getChannelMessages_page History.db3 "carol" "c1" 1 2)
              eq_refl ltac:(lia) ltac:(lia) eq_refl eq_refl eq_refl Hsorted) as [_ Hfirst].
  rewrite (Hfirst eq_refl). reflexivity.
Defined.

(** X10: [getChannel] answers a non-member 404 "Channel not found" whether
    or not the channel exists, so the answer does not tell the two cases
    apart; a member of an existing channel is sent its row with the members
    that have a user row, each a persisted member of the channel, with
    their online flag.  The database is not changed. *)
Theorem getChannel_answers_members_only (d : DB) (userId channelId : UUID) :
  (is_channel_member userId channelId d = false ->
   channelController_reads.getChannel userId channelId d
   = (d, failed 404 "Channel not found"))
  /\ (is_channel_member userId channelId d = true ->
      forall channel,
        find (fun c => Channel.id c =? channelId) (channels d) = Some channel ->
        exists view,
          channelController_reads.getChannel userId channelId d = (d, sent (Some view))
          /\ view_row view = channel
          /\ (forall u, In u (users d) ->
                is_channel_member (User.id u) channelId d = true ->
                In {| member_info := UserInfo_of u; member_isOnline := User.isOnline u |}
                   (view_members view))
          /\ (forall mi, In mi (view_members view) ->
                is_channel_member (info_id (member_info mi)) channelId d = true)).
Proof.
  unfold channelController_reads.getChannel, reader, ChannelMember_findOne,
         Channel_findByPk_presence, is_channel_member.
  unfold await, resolve, query. split.
  - intros Hnot. rewrite (find_None_existsb _ _ Hnot). reflexivity.
  - intros Hmember channel Hchannel.
    destruct (find_Some_existsb _ _ Hmember) as [cm ->]. rewrite Hchannel.
    eexists. split; [reflexivity|]. split; [reflexivity|]. simpl. split.
    + intros u Hu Hin. apply in_map_iff. exists u. split; [reflexivity|].
      apply filter_In. split; assumption.
    + intros mi Hmi. apply in_map_iff in Hmi as [u [<- Hu]].
      apply filter_In in Hu as [_ Hu]. exact Hu.
Qed.

(** dave is answered alike for [c1], which exists, and [c9], which does not;
    alice reads [c2]. *)
Lemma getChannel_witness :
  snd (channelController_reads.getChannel "dave" "c1" Fixture.db0)
    = snd (channelController_reads.getChannel "dave" "c9" Fixture.db0)
  /\ exists view,
       channelController_reads.getChannel "alice" "c2" Fixture.db0
       = (Fixture.db0, sent (Some view)).
Proof.
  split.
  - rewrite (proj1 (getChannel_answers_members_only Fixture.db0 "dave" "c1") eq_refl).
    rewrite (proj1 (getChannel_answers_members_only Fixture.db0 "dave" "c9") eq_refl).
    reflexivity.
  - destruct (proj2 (getChannel_answers_members_only Fixture.db0 "alice" "c2") eq_refl
                (Channel.mk "c2" "#secret" None "t1" "alice" true None) eq_refl)
      as [view [E _]].
    exists view. exact E.
Defined.

(** ** Listing one's teams *)

(** The loop of [joinTeam] over the public channels, whatever its outcome:
    it touches the channel memberships alone, and what it adds are rows of
    the joining user in channels of the list. *)
Lemma for_of_ChannelMember_create_frame (userId : UUID) (cs : list Channel.t) (d : DB) :
  exists rows o,
    for_of cs (fun channel => ChannelMember_create userId (Channel.id channel)) d
    = (set_channel_members (fun old => old ++ rows) d, o)
    /\ forall r, In r rows ->
         ChannelMember.userId r = userId
         /\ exists c, In c cs /\ ChannelMember.channelId r = Channel.id c.
Proof.
  revert d. induction cs as [|c cs IH]; intros d; simpl.
  - exists [], (Resolved tt). split; [|contradiction].
    unfold resolve, set_channel_members. rewrite app_nil_r, DB_eta. reflexivity.
  - unfold await, ChannelMember_create at 1.
    destruct (existsb _ (channel_members d)).
    + exists [], (Rejected (UniqueConstraintError "channel_members")).
      split; [|contradiction].
      unfold set_channel_members. rewrite app_nil_r, DB_eta. reflexivity.
    + destruct (IH (set_channel_members
                      (fun rows => rows ++ [ChannelMember.mk userId (Channel.id c)]) d))
        as [rows [o [E Hrows]]].
      exists (ChannelMember.mk userId (Channel.id c) :: rows), o. split.
      * rewrite E. unfold set_channel_members. simpl. rewrite <- app_assoc. reflexivity.
      * intros r [<-|Hr].
        -- split; [reflexivity|]. exists c. split; [left|]; reflexivity.
        -- destruct (Hrows r Hr) as [Hu [c' [Hc' E']]].
           split; [exact Hu|]. exists c'. split; [right|]; assumption.
Qed.

(** What a [joinTeam] answered 200 has done to the team tables. *)
Lemma joinTeam_outcome (d : DB) (userId : UUID) (inviteCode : string) (team : Team.t) :
  find (fun t => match Team.inviteCode t with
                 | Some c => c =? inviteCode
                 | None => false
                 end) (teams d) = Some team ->
  exists d' r,
    teamController.joinTeam userId inviteCode d = (d', r)
    /\ (status r = 200 ->
        teams d' = teams d /\ is_team_member userId (Team.id team) d' = true).
Proof.
  intros Hcode.
  unfold teamController.joinTeam, Team_findOne, TeamMember_findOne, TeamMember_create,
         Channel_findAll_public, Team_findByPk_members.
  unfold controller, await at 1, query. rewrite Hcode.
  unfold await at 1.
  destruct (find (TeamMember_matches userId (Team.id team)) (team_members d)) eqn:Hex.
  { do 2 eexists. split; [reflexivity|]. intros H. discriminate H. }
  assert (Hnone : existsb (TeamMember_matches userId (Team.id team)) (team_members d) = false).
  { rewrite find_existsb, Hex. reflexivity. }
  unfold await at 1. rewrite Hnone.
  unfold await at 1. cbn [channels set_team_members].
  unfold await at 1.
  destruct (for_of_ChannelMember_create_frame userId
              (filter (fun c => (Channel.teamId c =? Team.id team)
                                && negb (Channel.isPrivate c)) (channels d))
              (set_team_members
                 (fun rows => rows ++ [TeamMember.mk userId (Team.id team) member]) d))
    as [rows [o [E _]]].
  rewrite E. destruct o as [[]|e].
  - do 2 eexists. split; [reflexivity|]. intros _. split; [reflexivity|].
    unfold is_team_member. simpl. rewrite existsb_app. simpl.
    unfold TeamMember_matches at 2. simpl. rewrite !String.eqb_refl. apply orb_true_r.
  - do 2 eexists. split; [reflexivity|]. intros H. discriminate H.
Qed.

(** X11: [getTeams] sends exactly the teams in which the caller holds a
    membership row, in the order of the team table, and changes nothing.
    So a team joined by invite is listed from then on, and a team left is
    listed no more. *)
Theorem getTeams_follows_membership (d : DB) (userId : UUID) :
  teamController_reads.getTeams userId d
  = (d, sent (map (populate_team d)
                  (filter (fun t => is_team_member userId (Team.id t) d) (teams d))))
  /\ (forall inviteCode team,
        find (fun t => match Team.inviteCode t with
                       | Some c => c =? inviteCode
                       | None => false
                       end) (teams d) = Some team ->
        status (snd (teamController.joinTeam userId inviteCode d)) = 200 ->
        In team (sent_teams (snd (teamController_reads.getTeams userId
                                    (fst (teamController.joinTeam userId inviteCode d))))))
  /\ (forall teamId team,
        find (fun t => Team.id t =? teamId) (teams d) = Some team ->
        Team.ownerId team <> userId ->
        forall t, In t (sent_teams (snd (teamController_reads.getTeams userId
                                           (fst (teamController.leaveTeam userId teamId d))))) ->
                  Team.id t <> teamId).
Proof.
  assert (Hlist : forall d0,
            teamController_reads.getTeams userId d0
            = (d0, sent (map (populate_team d0)
                           (filter (fun t => is_team_member userId (Team.id t) d0)
                                   (teams d0))))).
  { intros d0.
    unfold teamController_reads.getTeams, reader, TeamMember_findAll_teams, Team_findAll_in,
           is_team_member.
    unfold await, resolve, query. do 3 f_equal.
    apply filter_ext. intros t.
    induction (team_members d0) as [|r l IH]; simpl; [reflexivity|].
    unfold TeamMember_matches at 1.
    destruct (TeamMember.userId r =? userId); simpl; [|exact IH].
    rewrite IH, (String.eqb_sym (Team.id t)). reflexivity. }
  split; [apply Hlist|]. split.
  - intros inviteCode team Hcode Hok.
    destruct (joinTeam_outcome d userId inviteCode team Hcode) as [d' [r [E Hd']]].
    rewrite E in *. cbn [fst snd] in *. destruct (Hd' Hok) as [Hteams Hmember].
    rewrite Hlist. cbn [snd sent_teams].
    rewrite map_map. cbn [team_row populate_team]. rewrite map_id.
    apply filter_In. split; [|exact Hmember].
    rewrite Hteams. apply (find_some _ _ Hcode).
  - intros teamId team Hteam Howner t. rewrite Hlist. cbn [snd sent_teams].
    rewrite map_map. cbn [team_row populate_team]. rewrite map_id.
    rewrite filter_In. intros [_ Hmember] Hid. revert Hmember.
    unfold teamController.leaveTeam, Team_findByPk, TeamMember_destroy, Channel_findAll.
    apply String.eqb_neq in Howner. run_async. rewrite Hteam, Howner.
    destruct (for_of_ChannelMember_destroy userId
                (filter (fun c => Channel.teamId c =? teamId) (channels d))
                (set_team_members
                   (filter (fun r => negb (TeamMember_matches userId teamId r))) d))
      as [rows [E _]].
    rewrite E. simpl. unfold is_team_member. simpl. rewrite Hid.
    rewrite (existsb_filter_out (TeamMember_matches userId teamId)). discriminate.
Qed.

(** dave joins by the invite code and finds [t1] in his list; bob leaves
    and finds none. *)
Lemma getTeams_follows_membership_witness :
  map Team.id (sent_teams (snd (teamController_reads.getTeams "dave"
                                  (fst (teamController.joinTeam "dave" "invite-1"
                                          Fixture.db0)))))
  = ["t1"]
  /\ forall t, In t (sent_teams (snd (teamController_reads.getTeams "bob"
                                        (fst (teamController.leaveTeam "bob" "t1"
                                                Fixture.db0))))) ->
               Team.id t <> "t1".
Proof.
  pose (t1 := Team.mk "t1" "Crew" None "alice" (Some "invite-1")).
  destruct (getTeams_follows_membership Fixture.db0 "dave") as [_ [Hjoin _]].
  pose proof (Hjoin "invite-1" t1 eq_refl eq_refl) as Hlisted.
  destruct (getTeams_follows_membership Fixture.db0 "bob") as [_ [_ Hleave]].
  assert (Hbob : Team.ownerId t1 <> "bob") by discriminate.
  split; [reflexivity | exact (Hleave "t1" t1 eq_refl Hbob)].
Defined.

(** ** Creating a team *)

Lemma map_update_absent {A} (p : A -> bool) (f : A -> A) (l : list A) :
  existsb p l = false -> map (fun x => if p x then f x else x) l = l.
Proof.
  induction l as [|x l IH]; simpl; [reflexivity|].
  intros H. apply orb_false_elim in H as [Hx Hl]. rewrite Hx, IH by exact Hl. reflexivity.
Qed.

Lemma no_rows_no_member (userId channelId : UUID) (d : DB) :
  existsb (fun r => ChannelMember.channelId r =? channelId) (channel_members d) = false ->
  is_channel_member userId channelId d = false.
Proof.
  intros H. apply existsb_false_forall. intros r Hr. unfold ChannelMember_matches.
  rewrite (existsb_false_forall_inv _ _ H r Hr). apply andb_false_r.
Qed.

(** X12: [createTeam] with a name of length 1 to 50, fresh keys and a fresh
    invite code is answered 201 and adds exactly: the team, owned by the
    caller and carrying the invite code; the caller's membership with role
    admin; the public channels [#general] and [#random] of the team; and the
    caller's membership of both, so that the caller is their only member.
    With an empty or over-long name it is answered 500 and adds nothing;
    the body is the message of the rule on the name when that is the only
    rule that fails. *)
Theorem createTeam_seeds_team
    (d : DB) (userId : UUID) (name : string) (description : option string)
    (id inviteCode generalId randomId : UUID) :
  (len 1 50 name = false ->
   let result := teamController.createTeam userId name description id inviteCode
                   generalId randomId d in
   fst result = d
   /\ status (snd result) = 500
   /\ (match description with Some s => len 0 200 s | None => true end = true ->
       result = (d, res 500 (json_error "Validation error: Validation len on name failed"))))
  /\ (len 1 50 name = true ->
      match description with Some s => len 0 200 s | None => true end = true ->
      existsb (fun t => Team.id t =? id) (teams d) = false ->
      existsb (fun t => match Team.inviteCode t with
                        | Some c => c =? inviteCode
                        | None => false
                        end) (teams d) = false ->
      is_team_member userId id d = false ->
      existsb (fun c => Channel.id c =? generalId) (channels d) = false ->
      existsb (fun c => Channel.id c =? randomId) (channels d) = false ->
      generalId <> randomId ->
      existsb (fun r => ChannelMember.channelId r =? generalId) (channel_members d) = false ->
      existsb (fun r => ChannelMember.channelId r =? randomId) (channel_members d) = false ->
      let result := teamController.createTeam userId name description id inviteCode
                      generalId randomId d in
      status (snd result) = 201
      /\ teams (fst result)
         = teams d ++ [Team.mk id name description userId (Some inviteCode)]
      /\ team_members (fst result)
         = team_members d ++ [TeamMember.mk userId id admin]
      /\ channels (fst result)
         = channels d
           ++ [Channel.mk generalId "#general" (Some "General discussion") id userId
                          false None;
               Channel.mk randomId "#random" (Some "Random conversations") id userId
                          false None]
      /\ channel_members (fst result)
         = channel_members d
           ++ [ChannelMember.mk userId generalId; ChannelMember.mk userId randomId]
      /\ (forall u, is_channel_member u generalId (fst result) = (u =? userId))
      /\ (forall u, is_channel_member u randomId (fst result) = (u =? userId))).
Proof.
  split.
  - intros Hname.
    unfold teamController.createTeam, Team_create, validate. run_async. rewrite Hname.
    destruct (match description with Some s => len 0 200 s | None => true end);
      simpl; repeat split; discriminate.
  - intros Hname Hdesc Hid Hcode Hmember Hgeneral Hrandom Hdistinct Hgrows Hrrows.
    assert (E : exists body,
              teamController.createTeam userId name description id inviteCode
                generalId randomId d
              = (mkDB (users d)
                      (teams d ++ [Team.mk id name description userId (Some inviteCode)])
                      (team_members d ++ [TeamMember.mk userId id admin])
                      (channels d
                       ++ [Channel.mk generalId "#general" (Some "General discussion") id
                                      userId false None;
                           Channel.mk randomId "#random" (Some "Random conversations") id
                                      userId false None])
                      (channel_members d
                       ++ [ChannelMember.mk userId generalId;
                           ChannelMember.mk userId randomId])
                      (messages d) (message_reactions d),
                 res 201 body)).
    { assert (Hgr : (generalId =? randomId) = false)
        by (apply String.eqb_neq; exact Hdistinct).
      set (t0 := Team.mk id name description userId None).
      set (general := Channel.mk generalId "#general" (Some "General discussion") id userId
                                 false None).
      set (random := Channel.mk randomId "#random" (Some "Random conversations") id userId
                                false None).
      set (d1 := mkDB (users d) (teams d ++ [t0]) (team_members d) (channels d)
                      (channel_members d) (messages d) (message_reactions d)).
      set (d2 := mkDB (users d)
                      (teams d ++ [Team.mk id name description userId (Some inviteCode)])
                      (team_members d) (channels d)
                      (channel_members d) (messages d) (message_reactions d)).
      set (d3 := mkDB (users d) (teams d2) (team_members d ++ [TeamMember.mk userId id admin])
                      (channels d) (channel_members d) (messages d) (message_reactions d)).
      set (d4 := mkDB (users d) (teams d2) (team_members d3) (channels d ++ [general])
                      (channel_members d) (messages d) (message_reactions d)).
      set (d5 := mkDB (users d) (teams d2) (team_members d3)
                      ((channels d ++ [general]) ++ [random])
                      (channel_members d) (messages d) (message_reactions d)).
      set (d6 := mkDB (users d) (teams d2) (team_members d3) (channels d5)
                      (channel_members d ++ [ChannelMember.mk userId generalId;
                                             ChannelMember.mk userId randomId])
                      (messages d) (message_reactions d)).
      assert (E1 : Team_create id name description userId d = (d1, Resolved t0)).
      { unfold Team_create. rewrite Hname, Hdesc, Hid. reflexivity. }
      assert (E2 : Team_save_inviteCode t0 inviteCode d1 = (d2, Resolved tt)).
      { unfold Team_save_inviteCode, d1, d2, t0. cbn [teams Team.id].
        rewrite existsb_app. cbn [existsb Team.id Team.inviteCode].
        rewrite String.eqb_refl. cbn [negb andb orb].
        assert (Hother : existsb (fun t => negb (Team.id t =? id)
                                           && match Team.inviteCode t with
                                              | Some c => c =? inviteCode
                                              | None => false
                                              end) (teams d) = false).
        { apply existsb_false_forall. intros t Ht.
          rewrite (existsb_false_forall_inv _ _ Hcode t Ht). apply andb_false_r. }
        rewrite Hother. unfold set_teams. cbn [teams users team_members channels
                                               channel_members messages message_reactions].
        rewrite map_app, (map_update_absent (fun t => Team.id t =? id)) by exact Hid.
        cbn [map Team.id Team.name Team.description Team.ownerId].
        rewrite String.eqb_refl. reflexivity. }
      assert (E3 : TeamMember_create userId id admin d2 = (d3, Resolved tt)).
      { unfold TeamMember_create, d3, d2. cbn [team_members teams].
        unfold is_team_member in Hmember. rewrite Hmember. reflexivity. }
      assert (E4 : Channel_create generalId "general" (Some "General discussion") id userId
                     false d3 = (d4, Resolved general)).
      { unfold Channel_create, d4, d3, d2. cbn [channels teams team_members].
        rewrite Hgeneral. reflexivity. }
      assert (E5 : Channel_create randomId "random" (Some "Random conversations") id userId
                     false d4 = (d5, Resolved random)).
      { unfold Channel_create, d5, d4, d3, d2, general. cbn [channels teams team_members].
        rewrite existsb_app, Hrandom. cbn [existsb Channel.id orb].
        rewrite Hgr. reflexivity. }
      assert (E6 : ChannelMember_bulkCreate
                     [ChannelMember.mk userId (Channel.id general);
                      ChannelMember.mk userId (Channel.id random)] d5 = (d6, Resolved tt)).
      { unfold ChannelMember_bulkCreate, d6, d5, d3, d2, general, random.
        cbn [channel_members channels teams team_members ChannelMember_conflict Channel.id
             ChannelMember.userId ChannelMember.channelId].
        rewrite (no_rows_no_member userId generalId d Hgrows : existsb _ _ = false).
        rewrite existsb_app.
        rewrite (no_rows_no_member userId randomId d Hrrows : existsb _ _ = false).
        cbn [existsb orb]. unfold ChannelMember_matches at 1.
        cbn [ChannelMember.userId ChannelMember.channelId]. rewrite Hgr, andb_false_r.
        reflexivity. }
      eexists. unfold teamController.createTeam, controller.
      rewrite (await_resolved _ E1). cbv beta.
      rewrite (await_resolved _ E2). cbv beta.
      rewrite (await_resolved _ E3). cbv beta.
      rewrite (await_resolved _ E4). cbv beta.
      rewrite (await_resolved _ E5). cbv beta.
      rewrite (await_resolved _ E6). cbv beta.
      unfold Team_findByPk_members, await, query, resolve.
      unfold d6, d5, d3, d2. cbn [teams team_members channels].
      rewrite <- app_assoc. reflexivity. }
    destruct E as [body E]. cbv zeta. rewrite E. cbn [fst snd status teams team_members
                                                    channels channel_members].
    repeat split.
    + intros u. unfold is_channel_member. cbn [channel_members].
      rewrite existsb_app. rewrite (no_rows_no_member u generalId d Hgrows : existsb _ _ = false).
      cbn [existsb orb]. unfold ChannelMember_matches.
      cbn [ChannelMember.userId ChannelMember.channelId].
      rewrite String.eqb_refl, (String.eqb_sym randomId generalId).
      assert (Hgr : (generalId =? randomId) = false) by (apply String.eqb_neq; exact Hdistinct).
      rewrite Hgr, !andb_false_r, andb_true_r, orb_false_r. apply String.eqb_sym.
    + intros u. unfold is_channel_member. cbn [channel_members].
      rewrite existsb_app. rewrite (no_rows_no_member u randomId d Hrrows : existsb _ _ = false).
      cbn [existsb orb]. unfold ChannelMember_matches.
      cbn [ChannelMember.userId ChannelMember.channelId].
      rewrite String.eqb_refl.
      assert (Hgr : (generalId =? randomId) = false) by (apply String.eqb_neq; exact Hdistinct).
      rewrite Hgr, !andb_false_r, andb_true_r, orb_false_r. apply String.eqb_sym.
Qed.

(** dave creates the team [t2]. *)
Lemma createTeam_seeds_team_witness :
  let result := teamController.createTeam "dave" "Ops" None "t2" "invite-2" "c3" "c4"
                  Fixture.db0 in
  status (snd result) = 201
  /\ forall u, is_channel_member u "c3" (fst result) = (u =? "dave").
Proof.
  assert (Hdistinct : "c3" <> "c4") by discriminate.
  destruct (proj2 (createTeam_seeds_team Fixture.db0 "dave" "Ops" None "t2" "invite-2"
                     "c3" "c4")
              eq_refl eq_refl eq_refl eq_refl eq_refl eq_refl eq_refl Hdistinct
              eq_refl eq_refl) as [Hstatus [_ [_ [_ [_ [Hgeneral _]]]]]].
  split; [exact Hstatus | exact Hgeneral].
Defined.

(** ** Joining and leaving a team *)

Lemma filter_filter {A} (p q : A -> bool) (l : list A) :
  filter p (filter q l) = filter (fun x => q x && p x) l.
Proof.
  induction l as [|x l IH]; simpl; [reflexivity|].
  destruct (q x); simpl; [destruct (p x)|]; rewrite IH; reflexivity.
Qed.

(** The loop of [leaveTeam], as one selection on the membership table. *)
Lemma for_of_ChannelMember_destroy_filter (userId : UUID) (cs : list Channel.t) (d : DB) :
  for_of cs (fun channel => ChannelMember_destroy userId (Channel.id channel)) d
  = (set_channel_members
       (filter (fun r => negb (existsb (fun c => ChannelMember_matches userId (Channel.id c) r)
                                       cs))) d,
     Resolved tt).
Proof.
  revert d. induction cs as [|c cs IH]; intros d; simpl.
  - unfold resolve, set_channel_members.
    rewrite (filter_all (fun _ => true)), DB_eta; [reflexivity|].
    apply existsb_false_forall. reflexivity.
  - unfold await, ChannelMember_destroy at 1, exec. rewrite IH.
    unfold set_channel_members. simpl. rewrite filter_filter. do 2 f_equal.
    apply filter_ext. intros r. rewrite negb_orb. reflexivity.
Qed.

(** X13: a user who joins a team by its invite code and then leaves it is
    where they started: when the user held no membership in the team or in
    any of its channels and does not own it, [joinTeam] followed by
    [leaveTeam] is answered 200 both times and gives back the database
    exactly as it was. *)
Theorem joinTeam_then_leaveTeam
    (d : DB) (userId : UUID) (inviteCode : string) (team : Team.t) :
  find (fun t => match Team.inviteCode t with
                 | Some c => c =? inviteCode
                 | None => false
                 end) (teams d) = Some team ->
  find (fun t => Team.id t =? Team.id team) (teams d) = Some team ->
  Team.ownerId team <> userId ->
  is_team_member userId (Team.id team) d = false ->
  NoDup (map Channel.id (channels d)) ->
  (forall c, In c (channels d) -> Channel.teamId c = Team.id team ->
             is_channel_member userId (Channel.id c) d = false) ->
  status (snd (teamController.joinTeam userId inviteCode d)) = 200
  /\ teamController.leaveTeam userId (Team.id team)
       (fst (teamController.joinTeam userId inviteCode d))
     = (d, res 200 (json_message "Left team successfully")).
Proof.
  intros Hcode Hpk Howner Hnot Hkeys Hfree.
  destruct (joinTeam_cascades d userId inviteCode team Hcode Hnot Hkeys
              (fun c Hc Ht _ => Hfree c Hc Ht)) as [body E].
  rewrite E. cbn [fst snd status]. split; [reflexivity|].
  unfold teamController.leaveTeam, Team_findByPk, TeamMember_destroy, Channel_findAll.
  apply String.eqb_neq in Howner. run_async. rewrite Hpk, Howner.
  rewrite for_of_ChannelMember_destroy_filter.
  unfold set_channel_members, set_team_members.
  cbn [fst users teams team_members channels channel_members messages message_reactions].
  unfold is_team_member in Hnot.
  rewrite (filter_out_fresh (TeamMember_matches userId (Team.id team)) (team_members d)
             (TeamMember.mk userId (Team.id team) member) Hnot).
  2:{ unfold TeamMember_matches. simpl. rewrite !String.eqb_refl. reflexivity. }
  rewrite filter_app.
  rewrite (filter_all _ (channel_members d)).
  2:{ apply existsb_false_forall. intros r Hr. rewrite negb_involutive.
      apply existsb_false_forall. intros c Hc. apply filter_In in Hc as [Hc Ht].
      apply String.eqb_eq in Ht.
      apply (existsb_false_forall_inv _ _ (Hfree c Hc Ht) r Hr). }
  rewrite filter_none.
  2:{ intros r Hr. apply in_map_iff in Hr as [c [<- Hc]].
      apply filter_In in Hc as [Hc Hp]. apply andb_true_iff in Hp as [Ht _].
      apply negb_false_iff, existsb_exists. exists c. split.
      - apply filter_In. split; assumption.
      - unfold ChannelMember_matches. simpl. rewrite !String.eqb_refl. reflexivity. }
  rewrite app_nil_r, DB_eta. reflexivity.
Qed.

(** dave joins [t1] and leaves it again. *)
Lemma joinTeam_then_leaveTeam_witness :
  fst (teamController.leaveTeam "dave" "t1"
         (fst (teamController.joinTeam "dave" "invite-1" Fixture.db0)))
  = Fixture.db0.
Proof.
  pose (t1 := Team.mk "t1" "Crew" None "alice" (Some "invite-1")).
  assert (Howner : Team.ownerId t1 <> "dave") by discriminate.
  assert (Hkeys : NoDup (map Channel.id (channels Fixture.db0))).
  { simpl. repeat constructor; simpl; intuition discriminate. }
  assert (Hfree : forall c, In c (channels Fixture.db0) -> Channel.teamId c = Team.id t1 ->
                    is_channel_member "dave" (Channel.id c) Fixture.db0 = false).
  { intros c [<-|[<-|[]]] _; reflexivity. }
  destruct (joinTeam_then_leaveTeam Fixture.db0 "dave" "invite-1" t1
              eq_refl eq_refl Howner eq_refl Hkeys Hfree) as [_ E].
  change (Team.id t1) with "t1" in E. rewrite E. reflexivity.
Defined.

(** What [joinTeam] does to the channel tables, whatever its outcome: the
    channels stay, and the membership rows it adds are rows of the caller in
    public channels. *)
Lemma joinTeam_frame (d : DB) (userId : UUID) (inviteCode : string) :
  exists d' r rows,
    teamController.joinTeam userId inviteCode d = (d', r)
    /\ channel_members d' = channel_members d ++ rows
    /\ channels d' = channels d
    /\ forall x, In x rows ->
         ChannelMember.userId x = userId
         /\ exists c, In c (channels d) /\ Channel.isPrivate c = false
                      /\ ChannelMember.channelId x = Channel.id c.
Proof.
  assert (Hnil : forall r : Response,
            exists d' r' rows,
              (d, r) = (d', r')
              /\ channel_members d' = channel_members d ++ rows
              /\ channels d' = channels d
              /\ forall x, In x rows ->
                   ChannelMember.userId x = userId
                   /\ exists c, In c (channels d) /\ Channel.isPrivate c = false
                                /\ ChannelMember.channelId x = Channel.id c).
  { intros r. exists d, r, []. rewrite app_nil_r. repeat split. all: contradiction. }
  unfold teamController.joinTeam, Team_findOne, TeamMember_findOne, TeamMember_create,
         Channel_findAll_public, Team_findByPk_members.
  unfold controller, await at 1, query.
  destruct (find _ (teams d)) as [team|]; [|apply Hnil].
  unfold await at 1.
  destruct (find (TeamMember_matches userId (Team.id team)) (team_members d)) eqn:Hex;
    [apply Hnil|].
  assert (Hnone : existsb (TeamMember_matches userId (Team.id team)) (team_members d) = false).
  { rewrite find_existsb, Hex. reflexivity. }
  unfold await at 1. rewrite Hnone.
  unfold await at 1. cbn [channels set_team_members].
  unfold await at 1.
  destruct (for_of_ChannelMember_create_frame userId
              (filter (fun c => (Channel.teamId c =? Team.id team)
                                && negb (Channel.isPrivate c)) (channels d))
              (set_team_members
                 (fun rows => rows ++ [TeamMember.mk userId (Team.id team) member]) d))
    as [rows [o [E Hrows]]].
  rewrite E.
  assert (Hr : forall x, In x rows ->
            ChannelMember.userId x = userId
            /\ exists c, In c (channels d) /\ Channel.isPrivate c = false
                         /\ ChannelMember.channelId x = Channel.id c).
  { intros x Hx. destruct (Hrows x Hx) as [Hu [c [Hc Hid]]]. split; [exact Hu|].
    apply filter_In in Hc as [Hc Hp]. apply andb_true_iff in Hp as [_ Hp].
    apply negb_true_iff in Hp. exists c. auto. }
  destruct o as [[]|e]; do 2 eexists; exists rows;
    (split; [reflexivity|]); repeat split; try exact Hr; apply Hr; assumption.
Qed.

(** X14: [joinTeam] adds the caller to public channels only: whatever the
    outcome of the request, nobody's membership of a private channel and no
    other user's membership of any channel changes, and the channels stay
    as they are.  An invite code that no team carries is answered 404 and a
    caller already in the team 400, with nothing changed. *)
Theorem joinTeam_spares_private_channels (d : DB) (userId : UUID) (inviteCode : string) :
  NoDup (map Channel.id (channels d)) ->
  let d' := fst (teamController.joinTeam userId inviteCode d) in
  (forall c u, In c (channels d) -> Channel.isPrivate c = true ->
               is_channel_member u (Channel.id c) d' = is_channel_member u (Channel.id c) d)
  /\ (forall u channelId, u <> userId ->
        is_channel_member u channelId d' = is_channel_member u channelId d)
  /\ channels d' = channels d
  /\ (find (fun t => match Team.inviteCode t with
                     | Some c => c =? inviteCode
                     | None => false
                     end) (teams d) = None ->
      teamController.joinTeam userId inviteCode d
      = (d, res 404 (json_error "Invalid invite code")))
  /\ (forall team,
        find (fun t => match Team.inviteCode t with
                       | Some c => c =? inviteCode
                       | None => false
                       end) (teams d) = Some team ->
        is_team_member userId (Team.id team) d = true ->
        teamController.joinTeam userId inviteCode d
        = (d, res 400 (json_error "Already a member of this team"))).
Proof.
  intros Hkeys. cbv zeta.
  destruct (joinTeam_frame d userId inviteCode)
    as [d' [answer [rows [Ejoin [Erows [Echannels Hrows]]]]]].
  rewrite Ejoin. cbn [fst].
  split; [|split; [|split; [exact Echannels|split]]].
  - intros c u Hc Hprivate. unfold is_channel_member. rewrite Erows, existsb_app.
    rewrite (existsb_false_forall _ rows); [apply orb_false_r|].
    intros r Hr. destruct (Hrows r Hr) as [_ [c' [Hc' [Hpublic Hid]]]].
    unfold ChannelMember_matches. rewrite Hid.
    destruct (String.eqb_spec (Channel.id c') (Channel.id c)) as [E|]; [|apply andb_false_r].
    rewrite (NoDup_map_injective Channel.id (channels d) c' c Hkeys Hc' Hc E) in Hpublic.
    congruence.
  - intros u channelId Hu. unfold is_channel_member. rewrite Erows, existsb_app.
    rewrite (existsb_false_forall _ rows); [apply orb_false_r|].
    intros r Hr. destruct (Hrows r Hr) as [Hid _]. unfold ChannelMember_matches.
    rewrite Hid. apply andb_false_intro1. apply String.eqb_neq. congruence.
  - intros Hnone. rewrite <- Ejoin. unfold teamController.joinTeam, Team_findOne. run_async.
    rewrite Hnone. reflexivity.
  - intros team Hteam Hmember. rewrite <- Ejoin.
    unfold teamController.joinTeam, Team_findOne, TeamMember_findOne. run_async.
    rewrite Hteam. simpl. unfold is_team_member in Hmember.
    destruct (find_Some_existsb _ _ Hmember) as [tm ->]. reflexivity.
Qed.

(** dave's joining leaves the private channel [c2] to alice. *)
Lemma joinTeam_spares_private_channels_witness :
  is_channel_member "dave" "c2" (fst (teamController.joinTeam "dave" "invite-1" Fixture.db0))
  = false.
Proof.
  assert (Hkeys : NoDup (map Channel.id (channels Fixture.db0))).
  { simpl. repeat constructor; simpl; intuition discriminate. }
  destruct (joinTeam_spares_private_channels Fixture.db0 "dave" "invite-1" Hkeys)
    as [Hprivate _].
  apply (Hprivate (Channel.mk "c2" "#secret" None "t1" "alice" true None) "dave").
  - right. left. reflexivity.
  - reflexivity.
Defined.

(** ** Rotating the invite code *)

Lemma find_code_after_rotation (teamId : UUID) (code : string) (l : list Team.t) :
  existsb (fun t => Team.id t =? teamId) l = true ->
  existsb (fun t => match Team.inviteCode t with
                    | Some c => c =? code
                    | None => false
                    end) l = false ->
  exists t',
    find (fun t => match Team.inviteCode t with
                   | Some c => c =? code
                   | None => false
                   end)
         (map (fun t => if Team.id t =? teamId
                        then Team.mk (Team.id t) (Team.name t) (Team.description t)
                                     (Team.ownerId t) (Some code)
                        else t) l) = Some t'
    /\ Team.id t' = teamId.
Proof.
  induction l as [|t l IH]; simpl; [discriminate|].
  intros Hex Hfresh. apply orb_false_elim in Hfresh as [Ht Hl].
  destruct (String.eqb_spec (Team.id t) teamId) as [E|E]; simpl.
  - rewrite String.eqb_refl. eexists. split; [reflexivity | exact E].
  - rewrite Ht. apply IH; assumption.
Qed.

(** X15: the owner or an admin of a team can replace its invite code by one
    no team carries: the request is answered 200 with the new code, the new
    code then resolves to a team with that id, and, when no other team
    carried the old code, a later [joinTeam] with the old code is answered
    404 "Invalid invite code".  Memberships and channels are not touched.
    A caller who is neither owner nor admin is answered 403 and nothing
    changes. *)
Theorem generateInviteCode_rotates
    (d : DB) (userId teamId : UUID) (code : string) (team : Team.t) :
  find (fun t => Team.id t =? teamId) (teams d) = Some team ->
  (Team.ownerId team <> userId ->
   existsb (fun r => TeamMember_matches userId teamId r && Role_eqb (TeamMember.role r) admin)
           (team_members d) = false ->
   teamController.generateInviteCode userId teamId code d
   = (d, res 403 (json_error "Permission denied")))
  /\ ((Team.ownerId team = userId
       \/ existsb (fun r => TeamMember_matches userId teamId r
                            && Role_eqb (TeamMember.role r) admin) (team_members d) = true) ->
      existsb (fun t => match Team.inviteCode t with
                        | Some c => c =? code
                        | None => false
                        end) (teams d) = false ->
      let d' := fst (teamController.generateInviteCode userId teamId code d) in
      snd (teamController.generateInviteCode userId teamId code d)
        = res 200 (json_inviteCode code)
      /\ (exists t', find (fun t => match Team.inviteCode t with
                                    | Some c => c =? code
                                    | None => false
                                    end) (teams d') = Some t'
                     /\ Team.id t' = teamId)
      /\ (forall old joiner,
            old <> code ->
            (forall t, In t (teams d) -> Team.inviteCode t = Some old -> Team.id t = teamId) ->
            teamController.joinTeam joiner old d'
            = (d', res 404 (json_error "Invalid invite code")))
      /\ team_members d' = team_members d
      /\ channels d' = channels d
      /\ channel_members d' = channel_members d).
Proof.
  intros Hteam. split.
  - intros Howner Hadmin. apply String.eqb_neq in Howner.
    unfold teamController.generateInviteCode, Team_findByPk, TeamMember_findOne_role.
    run_async. rewrite Hteam. simpl. rewrite Howner. simpl.
    rewrite (find_None_existsb _ _ Hadmin). reflexivity.
  - intros Hallowed Hfresh.
    assert (Hcheck :
      (if negb (Team.ownerId team =? userId)
       then await (TeamMember_findOne_role userId teamId admin)
              (fun teamMember =>
                 resolve (match teamMember with Some _ => true | None => false end))
       else resolve true) d = (d, Resolved true)).
    { destruct (String.eqb_spec (Team.ownerId team) userId) as [E|E]; simpl; [reflexivity|].
      destruct Hallowed as [Ho|Ha]; [contradiction|].
      unfold TeamMember_findOne_role. run_async.
      destruct (find_Some_existsb _ _ Ha) as [tm ->]. reflexivity. }
    assert (Hid : Team.id team = teamId).
    { apply find_some in Hteam as [_ E]. apply String.eqb_eq. exact E. }
    assert (Hother : existsb (fun t => negb (Team.id t =? Team.id team)
                                       && match Team.inviteCode t with
                                          | Some c => c =? code
                                          | None => false
                                          end) (teams d) = false).
    { apply existsb_false_forall. intros t Ht.
      rewrite (existsb_false_forall_inv _ _ Hfresh t Ht). apply andb_false_r. }
    assert (E : teamController.generateInviteCode userId teamId code d
                = (set_teams (map (fun t =>
                     if Team.id t =? teamId
                     then Team.mk (Team.id t) (Team.name t) (Team.description t)
                                  (Team.ownerId t) (Some code)
                     else t)) d,
                   res 200 (json_inviteCode code))).
    { unfold teamController.generateInviteCode, Team_findByPk.
      unfold controller, await at 1, query. rewrite Hteam.
      unfold await at 1. rewrite Hcheck. cbn [negb].
      unfold Team_save_inviteCode, await, resolve. rewrite Hother, Hid. reflexivity. }
    cbv zeta. rewrite E. cbn [fst snd].
    split; [reflexivity|]. split; [|split; [|repeat split]].
    + cbn [teams set_teams]. apply find_code_after_rotation; [|exact Hfresh].
      rewrite find_existsb, Hteam. reflexivity.
    + intros old joiner Hold Honly.
      unfold teamController.joinTeam, Team_findOne. run_async.
      rewrite find_None_existsb; [reflexivity|].
      apply existsb_false_forall. intros t' Ht'. apply in_map_iff in Ht' as [t [<- Ht]].
      destruct (String.eqb_spec (Team.id t) teamId) as [Et|Et]; simpl.
      * apply String.eqb_neq. congruence.
      * destruct (Team.inviteCode t) as [c|] eqn:Ec; [|reflexivity].
        apply String.eqb_neq. intros ->. apply Et. apply (Honly t Ht Ec).
Qed.

(** alice, the owner of [t1], replaces [invite-1] by [invite-2]; dave then
    tries the old code. *)
Lemma generateInviteCode_rotates_witness :
  let d' := fst (teamController.generateInviteCode "alice" "t1" "invite-2" Fixture.db0) in
  teamController.joinTeam "dave" "invite-1" d'
  = (d', res 404 (json_error "Invalid invite code")).
Proof.
  pose (t1 := Team.mk "t1" "Crew" None "alice" (Some "invite-1")).
  destruct (proj2 (generateInviteCode_rotates Fixture.db0 "alice" "t1" "invite-2" t1 eq_refl)
              (or_introl eq_refl) eq_refl) as [_ [_ [Hold _]]].
  apply Hold; [discriminate|].
  intros t [<-|[]] _. reflexivity.
Defined.

(** ** Creating a private channel *)

(** X16: [createChannel] is for the owner and the admins of the team: for
    a team that does not exist it is answered 404, and for a caller who is
    neither the owner nor an admin, a plain member included, 403, with
    nothing changed.  A private channel created by the owner or an admin
    gets the creator as its only member; the team's other members are not
    added. *)
Theorem createChannel_private
    (d : DB) (userId : UUID) (name : string) (description : option string)
    (teamId id : UUID) :
  (forall isPrivate,
     find (fun t => Team.id t =? teamId) (teams d) = None ->
     channelController.createChannel userId name description teamId isPrivate id d
     = (d, res 404 (json_error "Team not found")))
  /\ (forall isPrivate team,
        find (fun t => Team.id t =? teamId) (teams d) = Some team ->
        Team.ownerId team <> userId ->
        existsb (fun r => TeamMember_matches userId teamId r
                          && Role_eqb (TeamMember.role r) admin) (team_members d) = false ->
        channelController.createChannel userId name description teamId isPrivate id d
        = (d, res 403 (json_error "Permission denied")))
  /\ (forall team,
        find (fun t => Team.id t =? teamId) (teams d) = Some team ->
        (Team.ownerId team = userId
         \/ existsb (fun r => TeamMember_matches userId teamId r
                              && Role_eqb (TeamMember.role r) admin) (team_members d) = true) ->
        len 1 50 name = true ->
        match description with Some s => len 0 200 s | None => true end = true ->
        existsb (fun c => Channel.id c =? id) (channels d) = false ->
        existsb (fun r => ChannelMember.channelId r =? id) (channel_members d) = false ->
        let result := channelController.createChannel userId name description teamId
                        (Some true) id d in
        status (snd result) = 201
        /\ channels (fst result)
           = channels d ++ [Channel.mk id (beforeSave name) description teamId userId
                                       true None]
        /\ channel_members (fst result) = channel_members d ++ [ChannelMember.mk userId id]
        /\ (forall u, is_channel_member u id (fst result) = (u =? userId))
        /\ team_members (fst result) = team_members d).
Proof.
  split; [|split].
  - intros isPrivate Hnone. unfold channelController.createChannel, Team_findByPk.
    run_async. rewrite Hnone. reflexivity.
  - intros isPrivate team Hteam Howner Hadmin. apply String.eqb_neq in Howner.
    unfold channelController.createChannel, Team_findByPk, TeamMember_findOne_role.
    run_async. rewrite Hteam. simpl. rewrite Howner. simpl.
    rewrite (find_None_existsb _ _ Hadmin). reflexivity.
  - intros team Hteam Hallowed Hname Hdesc Hfresh Hrows.
    assert (Hcheck :
      (if negb (Team.ownerId team =? userId)
       then await (TeamMember_findOne_role userId teamId admin)
              (fun teamMember =>
                 resolve (match teamMember with Some _ => true | None => false end))
       else resolve true) d = (d, Resolved true)).
    { destruct (String.eqb_spec (Team.ownerId team) userId) as [E|E]; simpl; [reflexivity|].
      destruct Hallowed as [Ho|Ha]; [contradiction|].
      unfold TeamMember_findOne_role. run_async.
      destruct (find_Some_existsb _ _ Ha) as [tm ->]. reflexivity. }
    assert (E : exists body,
              channelController.createChannel userId name description teamId (Some true) id d
              = (set_channel_members (fun rows => rows ++ [ChannelMember.mk userId id])
                   (set_channels
                      (fun rows => rows ++ [Channel.mk id (beforeSave name) description
                                                       teamId userId true None]) d),
                 res 201 body)).
    { eexists. unfold channelController.createChannel, Team_findByPk.
      unfold controller, await at 1, query. rewrite Hteam.
      unfold await at 1. rewrite Hcheck. cbn [negb].
      unfold Channel_create, ChannelMember_create, Channel_findByPk_members.
      run_async. rewrite Hname, Hdesc, Hfresh. simpl.
      rewrite (no_rows_no_member userId id d Hrows : existsb _ _ = false). reflexivity. }
    destruct E as [body E]. cbv zeta. rewrite E. cbn [fst snd status].
    repeat split. intros u. unfold is_channel_member. simpl.
    rewrite existsb_app, (no_rows_no_member u id d Hrows : existsb _ _ = false). simpl.
    unfold ChannelMember_matches. simpl.
    rewrite String.eqb_refl, andb_true_r, orb_false_r. apply String.eqb_sym.
Qed.

(** bob, a plain member of [t1], is refused; alice creates the private [c3]. *)
Lemma createChannel_private_witness :
  channelController.createChannel "bob" "plans" None "t1" (Some true) "c3" Fixture.db0
    = (Fixture.db0, res 403 (json_error "Permission denied"))
  /\ forall u,
       is_channel_member u "c3"
         (fst (channelController.createChannel "alice" "plans" None "t1" (Some true) "c3"
                 Fixture.db0))
       = (u =? "alice").
Proof.
  pose (t1 := Team.mk "t1" "Crew" None "alice" (Some "invite-1")).
  destruct (createChannel_private Fixture.db0 "bob" "plans" None "t1" "c3")
    as [_ [Hdenied _]].
  destruct (createChannel_private Fixture.db0 "alice" "plans" None "t1" "c3")
    as [_ [_ Hcreated]].
  assert (Hbob : Team.ownerId t1 <> "bob") by discriminate.
  split.
  - apply (Hdenied (Some true) t1 eq_refl Hbob eq_refl).
  - apply (Hcreated t1 eq_refl (or_introl eq_refl) eq_refl eq_refl eq_refl eq_refl).
Defined.

(** ** Joining and leaving a channel over HTTP *)

(** X17: [joinChannel] refuses without changing anything: 404 for a channel
    that does not exist, 403 for a caller outside the channel's team, 400
    for a caller already in the channel.  [leaveChannel] is answered 200 for
    every existing channel, member or not; afterwards the caller is not a
    member and every other membership is as before, so leaving right after
    joining gives back the database as it was. *)
Theorem joinChannel_then_leaveChannel (d : DB) (userId channelId : UUID) :
  (find (fun c => Channel.id c =? channelId) (channels d) = None ->
   channelController.joinChannel userId channelId d
   = (d, res 404 (json_error "Channel not found"))
   /\ channelController.leaveChannel userId channelId d
      = (d, res 404 (json_error "Channel not found")))
  /\ (forall channel,
        find (fun c => Channel.id c =? channelId) (channels d) = Some channel ->
        (is_team_member userId (Channel.teamId channel) d = false ->
         channelController.joinChannel userId channelId d
         = (d, res 403 (json_error "Access denied")))
        /\ (is_team_member userId (Channel.teamId channel) d = true ->
            is_channel_member userId channelId d = true ->
            channelController.joinChannel userId channelId d
            = (d, res 400 (json_error "Already a member of this channel")))
        /\ snd (channelController.leaveChannel userId channelId d)
           = res 200 (json_message "Left channel successfully")
        /\ is_channel_member userId channelId
             (fst (channelController.leaveChannel userId channelId d)) = false
        /\ (forall u c, (u, c) <> (userId, channelId) ->
              is_channel_member u c (fst (channelController.leaveChannel userId channelId d))
              = is_channel_member u c d)
        /\ (is_channel_member userId channelId d = false ->
            fst (channelController.leaveChannel userId channelId d) = d)
        /\ (is_team_member userId (Channel.teamId channel) d = true ->
            is_channel_member userId channelId d = false ->
            channelController.leaveChannel userId channelId
              (fst (channelController.joinChannel userId channelId d))
            = (d, res 200 (json_message "Left channel successfully")))).
Proof.
  split.
  - intros Hnone.
    unfold channelController.joinChannel, channelController.leaveChannel, Channel_findByPk.
    run_async. rewrite Hnone. split; reflexivity.
  - intros channel Hchannel.
    assert (Eleave : forall d0, channels d0 = channels d ->
              channelController.leaveChannel userId channelId d0
              = (set_channel_members
                   (filter (fun r => negb (ChannelMember_matches userId channelId r))) d0,
                 res 200 (json_message "Left channel successfully"))).
    { intros d0 E0.
      unfold channelController.leaveChannel, Channel_findByPk, ChannelMember_destroy.
      run_async. rewrite E0, Hchannel. reflexivity. }
    rewrite (Eleave d eq_refl). cbn [fst snd].
    split; [|split; [|split; [reflexivity|split; [|split; [|split]]]]].
    + intros Hnot. unfold is_team_member in Hnot.
      unfold channelController.joinChannel, Channel_findByPk, TeamMember_findOne.
      run_async. rewrite Hchannel. simpl. rewrite (find_None_existsb _ _ Hnot). reflexivity.
    + intros Hteam Hmember. unfold is_team_member in Hteam. unfold is_channel_member in Hmember.
      unfold channelController.joinChannel, Channel_findByPk, TeamMember_findOne,
             ChannelMember_findOne.
      run_async. rewrite Hchannel. simpl.
      destruct (find_Some_existsb _ _ Hteam) as [tm ->].
      destruct (find_Some_existsb _ _ Hmember) as [cm ->]. reflexivity.
    + unfold is_channel_member. simpl. apply existsb_filter_out.
    + intros u c Hneq. unfold is_channel_member. simpl. rewrite existsb_filter.
      apply existsb_ext_in. intros r _.
      destruct (ChannelMember_matches u c r) eqn:Em; [|apply andb_false_r].
      rewrite andb_true_r. apply negb_true_iff.
      unfold ChannelMember_matches in *. apply andb_true_iff in Em as [Eu Ec].
      apply String.eqb_eq in Eu, Ec.
      destruct (String.eqb_spec (ChannelMember.userId r) userId) as [Eu'|]; [|reflexivity].
      destruct (String.eqb_spec (ChannelMember.channelId r) channelId) as [Ec'|];
        [|reflexivity].
      exfalso. apply Hneq. congruence.
    + intros Hnot. unfold is_channel_member in Hnot. unfold set_channel_members.
      rewrite filter_all; [apply DB_eta|].
      rewrite <- Hnot. apply existsb_ext_in. intros r _. apply negb_involutive.
    + intros Hteam Hnot. unfold is_team_member in Hteam. unfold is_channel_member in Hnot.
      assert (Ejoin : channelController.joinChannel userId channelId d
                      = (set_channel_members
                           (fun rows => rows ++ [ChannelMember.mk userId channelId]) d,
                         res 200 (json_message "Joined channel successfully"))).
      { unfold channelController.joinChannel, Channel_findByPk, TeamMember_findOne,
               ChannelMember_findOne, ChannelMember_create.
        run_async. rewrite Hchannel. simpl.
        destruct (find_Some_existsb _ _ Hteam) as [tm ->].
        rewrite (find_None_existsb _ _ Hnot), Hnot. reflexivity. }
      rewrite Ejoin. unfold fst.
      rewrite (Eleave (set_channel_members
                         (fun rows => rows ++ [ChannelMember.mk userId channelId]) d)
                      eq_refl).
      f_equal.
      unfold set_channel_members. simpl.
      rewrite (filter_out_fresh (ChannelMember_matches userId channelId)
                 (channel_members d) (ChannelMember.mk userId channelId) Hnot).
      * apply DB_eta.
      * unfold ChannelMember_matches. simpl. rewrite !String.eqb_refl. reflexivity.
Qed.

(** carol joins the private channel [c2] and leaves it; dave, in no channel,
    leaves [c1]. *)
Lemma joinChannel_then_leaveChannel_witness :
  channelController.leaveChannel "carol" "c2"
    (fst (channelController.joinChannel "carol" "c2" Fixture.db0))
  = (Fixture.db0, res 200 (json_message "Left channel successfully"))
  /\ fst (channelController.leaveChannel "dave" "c1" Fixture.db0) = Fixture.db0.
Proof.
  destruct (proj2 (joinChannel_then_leaveChannel Fixture.db0 "carol" "c2")
              (Channel.mk "c2" "#secret" None "t1" "alice" true None) eq_refl)
    as [_ [_ [_ [_ [_ [_ Hround]]]]]].
  destruct (proj2 (joinChannel_then_leaveChannel Fixture.db0 "dave" "c1")
              (Channel.mk "c1" "#general" None "t1" "alice" false None) eq_refl)
    as [_ [_ [_ [_ [_ [Hnoop _]]]]]].
  split; [apply Hround; reflexivity | apply Hnoop; reflexivity].
Defined.

(** ** Logging out *)

(** X18: [logout] is answered 200 and writes to the caller's user row what a
    socket [disconnect] of that user at the same time writes: offline,
    last-seen stamped.  No other user row changes, and no display attribute
    of the caller's. *)
Theorem logout_marks_offline (s : Server) (socket : Socket) (now : Date) :
  let userId := User.id (user socket) in
  let d' := fst (authController.logout userId now (db s)) in
  snd (authController.logout userId now (db s)) = res 200 (json_message "Logout successful")
  /\ d' = db (Socket_IO.on_disconnect socket now s)
  /\ presence userId d' = option_map (fun _ => (false, Some now)) (presence userId (db s))
  /\ map UserInfo_of (users d') = map UserInfo_of (users (db s))
  /\ (forall u, In u (users (db s)) -> User.id u <> userId -> In u (users d')).
Proof.
  unfold authController.logout, Socket_IO.on_disconnect, User_update_offline, presence.
  run_async. repeat split.
  - rewrite (find_update_found (fun u => User.id u =? User.id (user socket))
               (fun u => User.mk (User.id u) (User.email u) (User.username u)
                                 (User.firstName u) (User.lastName u) false (Some now)))
      by reflexivity.
    destruct (find _ (users (db s))); reflexivity.
  - rewrite map_map. apply map_ext. intros u.
    destruct (User.id u =? User.id (user socket)); reflexivity.
  - intros u Hu Hneq. apply in_map_iff. exists u. split; [|exact Hu].
    apply String.eqb_neq in Hneq. rewrite Hneq. reflexivity.
Qed.

(** ** The membership tables stay consistent *)

Section Consistency.

Variable d : DB.
Hypothesis Hd : consistent d.

(** Consistency reads the keys and owners of the teams, the keys and teams
    of the channels, and the two membership tables, and nothing else. *)
Lemma consistent_same_keys (d' : DB) :
  map (fun t => (Team.id t, Team.ownerId t)) (teams d')
    = map (fun t => (Team.id t, Team.ownerId t)) (teams d) ->
  map (fun c => (Channel.id c, Channel.teamId c)) (channels d')
    = map (fun c => (Channel.id c, Channel.teamId c)) (channels d) ->
  team_members d' = team_members d ->
  channel_members d' = channel_members d ->
  consistent d'.
Proof.
  intros Ht Hc Htm Hcm. destruct Hd as [H1 H2 H3 H4 H5].
  assert (Hteam : forall t', In t' (teams d') ->
            exists t, In t (teams d) /\ Team.id t = Team.id t'
                      /\ Team.ownerId t = Team.ownerId t').
  { intros t' Ht'.
    apply (in_map (fun t => (Team.id t, Team.ownerId t))) in Ht'. rewrite Ht in Ht'.
    apply in_map_iff in Ht' as [t [E Hin]]. exists t. inversion E. auto. }
  assert (Hchannel : forall c', In c' (channels d') ->
            exists c, In c (channels d) /\ Channel.id c = Channel.id c'
                      /\ Channel.teamId c = Channel.teamId c').
  { intros c' Hc'.
    apply (in_map (fun c => (Channel.id c, Channel.teamId c))) in Hc'. rewrite Hc in Hc'.
    apply in_map_iff in Hc' as [c [E Hin]]. exists c. inversion E. auto. }
  assert (Hmember : forall u t, is_team_member u t d' = is_team_member u t d).
  { intros u t. unfold is_team_member. rewrite Htm. reflexivity. }
  constructor.
  - replace (map Team.id (teams d'))
      with (map fst (map (fun t => (Team.id t, Team.ownerId t)) (teams d')))
      by (rewrite map_map; reflexivity).
    rewrite Ht, map_map. exact H1.
  - replace (map Channel.id (channels d'))
      with (map fst (map (fun c => (Channel.id c, Channel.teamId c)) (channels d')))
      by (rewrite map_map; reflexivity).
    rewrite Hc, map_map. exact H2.
  - intros t' Ht'. destruct (Hteam t' Ht') as [t [Hin [Ei Eo]]].
    rewrite Hmember, <- Ei, <- Eo. apply H3. exact Hin.
  - intros r Hr. rewrite Hcm in Hr.
    replace (existsb (fun c => Channel.id c =? ChannelMember.channelId r) (channels d'))
      with (existsb (fun k => fst k =? ChannelMember.channelId r)
                    (map (fun c => (Channel.id c, Channel.teamId c)) (channels d'))).
    + rewrite Hc. rewrite <- (H4 r Hr). clear.
      induction (channels d) as [|c l IH]; simpl; [reflexivity|]. rewrite IH. reflexivity.
    + clear. induction (channels d') as [|c l IH]; simpl; [reflexivity|].
      rewrite IH. reflexivity.
  - intros r c' Hr Hc' E. rewrite Hcm in Hr. destruct (Hchannel c' Hc') as [c [Hin [Ei Et]]].
    rewrite Hmember, <- Et. apply (H5 r c Hr Hin). congruence.
Qed.

(** Rows added to the channel memberships, each of an existing channel and
    of a member of its team. *)
Lemma consistent_add_rows (rows : list ChannelMember.t) :
  (forall r, In r rows ->
     exists c, In c (channels d) /\ Channel.id c = ChannelMember.channelId r
               /\ is_team_member (ChannelMember.userId r) (Channel.teamId c) d = true) ->
  consistent (set_channel_members (fun old => old ++ rows) d).
Proof.
  intros Hrows. destruct Hd as [H1 H2 H3 H4 H5]. constructor; simpl.
  - exact H1.
  - exact H2.
  - exact H3.
  - intros r Hr. apply in_app_or in Hr as [Hr|Hr]; [apply H4; exact Hr|].
    destruct (Hrows r Hr) as [c [Hc [E _]]]. apply existsb_exists. exists c.
    split; [exact Hc | apply String.eqb_eq; exact E].
  - intros r c Hr Hc E. apply in_app_or in Hr as [Hr|Hr]; [apply (H5 r c Hr Hc E)|].
    destruct (Hrows r Hr) as [c0 [Hc0 [E0 Hm]]].
    rewrite (NoDup_map_injective Channel.id (channels d) c c0 H2 Hc Hc0) by congruence.
    exact Hm.
Qed.

Lemma consistent_add_team_members (rows : list TeamMember.t) :
  consistent (set_team_members (fun old => old ++ rows) d).
Proof.
  destruct Hd as [H1 H2 H3 H4 H5].
  assert (Hmono : forall u t, is_team_member u t d = true ->
            is_team_member u t (set_team_members (fun old => old ++ rows) d) = true).
  { intros u t H. unfold is_team_member in *. simpl. rewrite existsb_app, H. reflexivity. }
  constructor; simpl; auto.
Qed.

Lemma consistent_remove_rows (rows : list ChannelMember.t) :
  (forall r, In r rows -> In r (channel_members d)) ->
  consistent (set_channel_members (fun _ => rows) d).
Proof.
  intros Hsub. destruct Hd as [H1 H2 H3 H4 H5]. constructor; simpl; auto.
  intros r c Hr. apply (H5 r c). auto.
Qed.

Lemma NoDup_map_app_fresh {A} (f : A -> string) (l : list A) (x : A) :
  NoDup (map f l) -> existsb (fun y => f y =? f x) l = false -> NoDup (map f (l ++ [x])).
Proof.
  intros Hnd Hfresh. rewrite map_app. simpl.
  induction l as [|y l IH]; simpl in *.
  - constructor; [intros [] | constructor].
  - apply orb_false_elim in Hfresh as [Hy Hl]. inversion Hnd as [|? ? Hnotin Hnd']; subst.
    constructor; [|apply IH; assumption].
    intros Hin. apply in_app_or in Hin as [Hin|[E|[]]]; [contradiction|].
    apply String.eqb_neq in Hy. congruence.
Qed.

Lemma consistent_add_channel (c : Channel.t) :
  existsb (fun c0 => Channel.id c0 =? Channel.id c) (channels d) = false ->
  consistent (set_channels (fun old => old ++ [c]) d).
Proof.
  intros Hfresh. destruct Hd as [H1 H2 H3 H4 H5]. constructor; simpl.
  - exact H1.
  - apply NoDup_map_app_fresh; assumption.
  - exact H3.
  - intros r Hr. rewrite existsb_app, (H4 r Hr). reflexivity.
  - intros r c' Hr Hc' E. apply in_app_or in Hc' as [Hc'|[<-|[]]]; [apply (H5 r c' Hr Hc' E)|].
    exfalso. pose proof (H4 r Hr) as Hex. rewrite <- E in Hex. congruence.
Qed.

Lemma consistent_add_team (t : Team.t) :
  existsb (fun t0 => Team.id t0 =? Team.id t) (teams d) = false ->
  is_team_member (Team.ownerId t) (Team.id t) d = true ->
  consistent (set_teams (fun old => old ++ [t]) d).
Proof.
  intros Hfresh Howner. destruct Hd as [H1 H2 H3 H4 H5]. constructor; simpl; auto.
  - apply NoDup_map_app_fresh; assumption.
  - intros t' Ht'. apply in_app_or in Ht' as [Ht'|[<-|[]]]; [apply H3; exact Ht' | exact Howner].
Qed.

End Consistency.

Lemma is_team_member_channels (u t : UUID) (f : list Channel.t -> list Channel.t) (d : DB) :
  is_team_member u t (set_channels f d) = is_team_member u t d.
Proof. reflexivity. Qed.

(** Case analysis on an awaited promise, for a property of the final state. *)
Lemma await_cases {A B} (I : DB -> Prop) (p : Promise A) (k : A -> Promise B) (d : DB) :
  (forall d' e, p d = (d', Rejected e) -> I d') ->
  (forall d' a, p d = (d', Resolved a) -> I (fst (k a d'))) ->
  I (fst (await p k d)).
Proof.
  intros Hrej Hres. unfold await.
  destruct (p d) as [d' [a|e]]; [apply (Hres d' a) | apply (Hrej d' e)]; reflexivity.
Qed.

Lemma controller_fst (body : Promise Response) (d : DB) :
  fst (controller body d) = fst (body d).
Proof. unfold controller. destruct (body d) as [d' [r|e]]; reflexivity. Qed.

(** Opens the equation of a settled model call: its conditions become
    hypotheses, its state and value are substituted. *)
Lemma Team_create_cases (id : UUID) (name : string) (description : option string)
    (ownerId : UUID) (d : DB) :
  Team_create id name description ownerId d
  = if len 1 50 name && match description with Some s => len 0 200 s | None => true end
    then if existsb (fun t => Team.id t =? id) (teams d)
         then (d, Rejected (UniqueConstraintError "teams"))
         else (set_teams (fun rows => rows ++ [Team.mk id name description ownerId None]) d,
               Resolved (Team.mk id name description ownerId None))
    else (d, Rejected (ValidationError
                         (validate [("len", "name", len 1 50 name);
                                    ("len", "description",
                                     match description with
                                     | Some s => len 0 200 s
                                     | None => true
                                     end)]))).
Proof.
  unfold Team_create, validate.
  destruct (len 1 50 name);
    destruct (match description with Some s => len 0 200 s | None => true end);
    reflexivity.
Qed.

Lemma Channel_create_cases (id : UUID) (name : string) (description : option string)
    (teamId createdById : UUID) (isPrivate : bool) (d : DB) :
  Channel_create id name description teamId createdById isPrivate d
  = if len 1 50 name && match description with Some s => len 0 200 s | None => true end
    then if existsb (fun c => Channel.id c =? id) (channels d)
         then (d, Rejected (UniqueConstraintError "channels"))
         else (set_channels
                 (fun rows => rows ++ [Channel.mk id (beforeSave name) description teamId
                                                  createdById isPrivate None]) d,
               Resolved (Channel.mk id (beforeSave name) description teamId createdById
                                    isPrivate None))
    else (d, Rejected (ValidationError
                         (validate [("len", "name", len 1 50 name);
                                    ("len", "description",
                                     match description with
                                     | Some s => len 0 200 s
                                     | None => true
                                     end)]))).
Proof.
  unfold Channel_create, validate.
  destruct (len 1 50 name);
    destruct (match description with Some s => len 0 200 s | None => true end);
    reflexivity.
Qed.

Ltac open_promise E :=
  try rewrite Team_create_cases in E;
  try rewrite Channel_create_cases in E;
  unfold Team_findByPk, Team_findOne, Team_create, Team_save_inviteCode,
         TeamMember_findOne, TeamMember_findOne_role, TeamMember_findAll,
         TeamMember_create, TeamMember_destroy,
         Channel_findByPk, Channel_findAll, Channel_findAll_public, Channel_create,
         Channel_update_lastMessageId, Channel_findByPk_members, Team_findByPk_members,
         ChannelMember_findOne, ChannelMember_create, ChannelMember_bulkCreate,
         ChannelMember_destroy,
         Message_findByPk, Message_findOne, Message_create, Message_update,
         Message_destroy, Message_findByPk_sender, Message_findByPk_reactions,
         MessageReaction_findOne, MessageReaction_create, MessageReaction_destroy in E;
  unfold await, query, exec, resolve, reject in E;
  repeat (cbv beta iota zeta in E;
          match type of E with
          | (if ?c then _ else _) _ = _ => destruct c eqn:?
          | (if ?c then _ else _) = _ => destruct c eqn:?
          end);
  cbv beta iota zeta in E;
  inversion E; subst; clear E.

Lemma channelController_consistent (d : DB) :
  consistent d ->
  (forall userId name description teamId isPrivate id,
     consistent (fst (channelController.createChannel userId name description teamId
                        isPrivate id d)))
  /\ (forall userId channelId,
        consistent (fst (channelController.joinChannel userId channelId d)))
  /\ (forall userId channelId,
        consistent (fst (channelController.leaveChannel userId channelId d))).
Proof.
  intros Hd. split; [|split].
  - intros userId name description teamId isPrivate id.
    unfold channelController.createChannel. rewrite controller_fst.
    apply await_cases; intros d0 team E; open_promise E.
    destruct (find (fun t => Team.id t =? teamId) (teams d0)) as [team|] eqn:Hteam;
      [|exact Hd].
    apply await_cases; intros d1 allowed E.
    { destruct (negb (Team.ownerId team =? userId)); open_promise E. }
    assert (Hmember : d1 = d0 /\ (allowed = true -> is_team_member userId teamId d0 = true)).
    { apply find_some in Hteam as [Hin Hid].
      destruct (Team.ownerId team =? userId) eqn:Ho; simpl in E;
        open_promise E; (split; [reflexivity|]); intros Ht.
      - apply String.eqb_eq in Hid, Ho. rewrite <- Hid, <- Ho.
        apply (owner_in_team d1 Hd team Hin).
      - destruct (find _ (team_members d1)) as [tm|] eqn:Hfind; [|discriminate].
        apply find_some in Hfind as [Htm Hm]. apply andb_true_iff in Hm as [Hm _].
        apply existsb_exists. exists tm. auto. }
    destruct Hmember as [-> Hmember]. clear E.
    destruct allowed; cbn [negb]; [|exact Hd]. specialize (Hmember eq_refl).
    apply await_cases; [intros d2 e E; open_promise E; exact Hd | intros d2 channel E].
    open_promise E.
    match goal with H : existsb _ (channels d0) = false |- _ => rename H into Hfresh end.
    set (flag := match isPrivate with Some b => b | None => false end) in *.
    set (c := Channel.mk id (beforeSave name) description teamId userId flag None) in *.
    assert (H1 : consistent (set_channels (fun rows => rows ++ [c]) d0))
      by (apply (consistent_add_channel d0 Hd c); exact Hfresh).
    assert (Hc : In c (channels (set_channels (fun rows => rows ++ [c]) d0)))
      by (simpl; apply in_or_app; right; left; reflexivity).
    apply await_cases; [intros d3 e E; open_promise E; exact H1 | intros d3 [] E].
    open_promise E. cbn [Channel.id c] in *.
    assert (H2 : consistent
                   (set_channel_members (fun old => old ++ [ChannelMember.mk userId id])
                      (set_channels (fun rows => rows ++ [c]) d0))).
    { apply (consistent_add_rows _ H1). intros r [<-|[]]. exists c.
      split; [exact Hc|]. split; [reflexivity | exact Hmember]. }
    apply await_cases; [intros d4 e E | intros d4 [] E].
    + open_promise E. exact H2.
    + assert (H3 : consistent d4).
      { open_promise E; [|exact H2].
        apply (consistent_add_rows _ H2). intros r Hr.
        apply filter_In in Hr as [Hr _]. apply in_map_iff in Hr as [tm [<- Htm]].
        apply filter_In in Htm as [Htm Ht]. exists c.
        split; [exact Hc|]. split; [reflexivity|].
        apply existsb_exists. exists tm. split; [exact Htm|].
        unfold TeamMember_matches, c. simpl. rewrite String.eqb_refl, Ht. reflexivity. }
      apply await_cases; intros d5 a E'; open_promise E'; exact H3.
  - intros userId channelId.
    unfold channelController.joinChannel. rewrite controller_fst.
    apply await_cases; intros d0 channel E; open_promise E.
    destruct (find (fun c => Channel.id c =? channelId) (channels d0)) as [channel|]
      eqn:Hchannel; [|exact Hd].
    apply await_cases; intros d1 teamMember E; open_promise E.
    destruct (find _ (team_members d1)) as [tm|] eqn:Hteam; [|exact Hd].
    apply await_cases; intros d2 existing E; open_promise E.
    destruct (find _ (channel_members d2)); [exact Hd|].
    apply await_cases; [intros d3 e E; open_promise E; exact Hd | intros d3 [] E].
    open_promise E. simpl.
    apply (consistent_add_rows d2 Hd). intros r [<-|[]].
    apply find_some in Hchannel as [Hin Hid]. apply String.eqb_eq in Hid.
    exists channel. split; [exact Hin|]. split; [exact Hid|].
    apply find_some in Hteam as [Htm Hm]. apply existsb_exists. exists tm. auto.
  - intros userId channelId.
    unfold channelController.leaveChannel. rewrite controller_fst.
    apply await_cases; intros d0 channel E; open_promise E.
    destruct (find (fun c => Channel.id c =? channelId) (channels d0)); [|exact Hd].
    apply await_cases; intros d1 a E; open_promise E. simpl.
    apply (consistent_remove_rows d0 Hd
             (filter (fun r => negb (ChannelMember_matches userId channelId r))
                     (channel_members d0))).
    intros r Hr. apply filter_In in Hr. apply Hr.
Qed.

(** The state [leaveTeam] ends in, for a user who does not own the team. *)
Lemma consistent_after_leave (d : DB) (userId teamId : UUID) (team : Team.t) :
  consistent d ->
  find (fun t => Team.id t =? teamId) (teams d) = Some team ->
  Team.ownerId team <> userId ->
  consistent
    (set_channel_members
       (filter (fun r => negb (existsb (fun c => ChannelMember_matches userId (Channel.id c) r)
                                       (filter (fun c => Channel.teamId c =? teamId)
                                               (channels d)))))
       (set_team_members (filter (fun r => negb (TeamMember_matches userId teamId r))) d)).
Proof.
  intros [H1 H2 H3 H4 H5] Hteam Howner.
  apply find_some in Hteam as [Hin Hid]. apply String.eqb_eq in Hid.
  assert (Hkeep : forall u t,
            is_team_member u t d = true -> (u = userId -> t = teamId -> False) ->
            is_team_member u t
              (set_team_members (filter (fun r => negb (TeamMember_matches userId teamId r))) d)
            = true).
  { intros u t Hm Hneq. unfold is_team_member in *. simpl.
    apply existsb_exists in Hm as [r [Hr Hmatch]]. apply existsb_exists. exists r.
    split; [|exact Hmatch]. apply filter_In. split; [exact Hr|].
    apply negb_true_iff. unfold TeamMember_matches in *.
    apply andb_true_iff in Hmatch as [Eu Et]. apply String.eqb_eq in Eu, Et.
    destruct (String.eqb_spec (TeamMember.userId r) userId) as [Eu'|]; [|reflexivity].
    destruct (String.eqb_spec (TeamMember.teamId r) teamId) as [Et'|]; [|reflexivity].
    exfalso. apply Hneq; congruence. }
  constructor; simpl.
  - exact H1.
  - exact H2.
  - intros t Ht. apply Hkeep; [apply H3; exact Ht|]. intros Eo Ei.
    apply Howner. rewrite <- Eo. f_equal.
    apply (NoDup_map_injective Team.id (teams d) team t H1 Hin Ht). congruence.
  - intros r Hr. apply filter_In in Hr as [Hr _]. apply H4. exact Hr.
  - intros r c Hr Hc E. apply filter_In in Hr as [Hr Hkept].
    apply Hkeep; [apply (H5 r c Hr Hc E)|]. intros Eu Et.
    apply negb_true_iff in Hkept.
    assert (Hcin : In c (filter (fun c => Channel.teamId c =? teamId) (channels d))).
    { apply filter_In. split; [exact Hc | apply String.eqb_eq; exact Et]. }
    pose proof (existsb_false_forall_inv _ _ Hkept c Hcin) as Hno.
    unfold ChannelMember_matches in Hno. rewrite Eu, E, !String.eqb_refl in Hno.
    discriminate.
Qed.

Lemma fresh_code_saves (d : DB) (id : UUID) (name : string) (description : option string)
    (ownerId : UUID) (code : string) :
  existsb (fun t => match Team.inviteCode t with
                    | Some c => c =? code
                    | None => false
                    end) (teams d) = false ->
  existsb (fun t => negb (Team.id t =? id)
                    && match Team.inviteCode t with
                       | Some c => c =? code
                       | None => false
                       end)
          (teams d ++ [Team.mk id name description ownerId None]) = false.
Proof.
  intros Hcode. rewrite existsb_app. simpl. rewrite String.eqb_refl. simpl.
  rewrite orb_false_r. apply existsb_false_forall. intros t Ht.
  rewrite (existsb_false_forall_inv _ _ Hcode t Ht). apply andb_false_r.
Qed.

(** The tables after a team row with a fresh key, its invite code and
    membership rows have been written, the owner being among the members. *)
Lemma consistent_with_team (d d' : DB) (t0 : Team.t) (code : string)
    (rows : list TeamMember.t) :
  consistent d ->
  existsb (fun t => Team.id t =? Team.id t0) (teams d) = false ->
  existsb (TeamMember_matches (Team.ownerId t0) (Team.id t0)) (team_members d ++ rows) = true ->
  teams d' = map (fun t => if Team.id t =? Team.id t0
                           then Team.mk (Team.id t) (Team.name t) (Team.description t)
                                        (Team.ownerId t) (Some code)
                           else t) (teams d ++ [t0]) ->
  team_members d' = team_members d ++ rows ->
  channels d' = channels d ->
  channel_members d' = channel_members d ->
  consistent d'.
Proof.
  intros Hd Hfresh Hmember Et Etm Ec Ecm.
  pose proof (consistent_add_team_members d Hd rows) as HA.
  pose proof (consistent_add_team _ HA t0 Hfresh Hmember) as HB.
  apply (consistent_same_keys _ HB); simpl.
  - rewrite Et, map_map. apply map_ext. intros t.
    destruct (Team.id t =? Team.id t0); reflexivity.
  - rewrite Ec. reflexivity.
  - exact Etm.
  - exact Ecm.
Qed.

Lemma teamController_consistent (d : DB) :
  consistent d ->
  (forall userId name description id inviteCode generalId randomId,
     existsb (fun t => match Team.inviteCode t with
                       | Some c => c =? inviteCode
                       | None => false
                       end) (teams d) = false ->
     consistent (fst (teamController.createTeam userId name description id inviteCode
                        generalId randomId d)))
  /\ (forall userId inviteCode,
        consistent (fst (teamController.joinTeam userId inviteCode d)))
  /\ (forall userId teamId,
        consistent (fst (teamController.leaveTeam userId teamId d)))
  /\ (forall userId teamId code,
        consistent (fst (teamController.generateInviteCode userId teamId code d))).
Proof.
  intros Hd. split; [|split; [|split]].
  - intros userId name description id inviteCode generalId randomId Hcode.
    unfold teamController.createTeam. rewrite controller_fst.
    apply await_cases; [intros d1 e E; open_promise E; exact Hd | intros d1 team E].
    open_promise E.
    match goal with
    | H : existsb (fun t => Team.id t =? id) (teams d) = false |- _ => rename H into Hfresh
    end.
    set (t0 := Team.mk id name description userId None).
    apply await_cases; [intros d2 e E | intros d2 [] E]; open_promise E;
      match goal with
      | H : existsb _ _ = true |- _ =>
          unfold t0 in H; cbn [teams set_teams Team.id] in H;
          rewrite (fresh_code_saves d id name description userId inviteCode Hcode) in H;
          discriminate H
      | _ => idtac
      end.
    cbn [Team.id].
    apply await_cases; [intros d3 e E | intros d3 [] E]; open_promise E.
    { match goal with H : existsb _ _ = true |- _ => rename H into Hmember end.
      apply (consistent_with_team d _ t0 inviteCode [] Hd Hfresh); try reflexivity.
      - rewrite app_nil_r. exact Hmember.
      - simpl. symmetry. apply app_nil_r. }
    remember (set_team_members (fun rows => rows ++ [TeamMember.mk userId id admin])
                (set_teams _ (set_teams _ d))) as d3 eqn:Ed3.
    assert (H3 : consistent d3).
    { apply (consistent_with_team d d3 t0 inviteCode [TeamMember.mk userId id admin]
               Hd Hfresh); try rewrite Ed3; try reflexivity.
      rewrite existsb_app. simpl. unfold TeamMember_matches at 2. simpl.
      rewrite !String.eqb_refl. apply orb_true_r. }
    assert (Hm3 : is_team_member userId id d3 = true).
    { rewrite Ed3. unfold is_team_member. simpl. rewrite existsb_app. simpl.
      unfold TeamMember_matches at 2. simpl. rewrite !String.eqb_refl. apply orb_true_r. }
    clear Ed3.
    apply await_cases; [intros d4 e E; open_promise E; exact H3 | intros d4 general E].
    open_promise E.
    match goal with
    | H : existsb (fun c => Channel.id c =? generalId) (channels d3) = false |- _ =>
        rename H into Hgeneral
    end.
    set (g := Channel.mk generalId (beforeSave "general") (Some "General discussion") id
                         userId false None).
    assert (H4 : consistent (set_channels (fun rows => rows ++ [g]) d3))
      by (apply (consistent_add_channel d3 H3 g); exact Hgeneral).
    apply await_cases; [intros d5 e E; open_promise E; exact H4 | intros d5 random E].
    open_promise E.
    match goal with
    | H : existsb (fun c => Channel.id c =? randomId) _ = false |- _ => rename H into Hrandom
    end.
    set (r := Channel.mk randomId (beforeSave "random") (Some "Random conversations") id
                         userId false None).
    assert (H5 : consistent (set_channels (fun rows => rows ++ [r])
                               (set_channels (fun rows => rows ++ [g]) d3)))
      by (apply (consistent_add_channel _ H4 r); exact Hrandom).
    apply await_cases; [intros d6 e E; open_promise E; exact H5 | intros d6 [] E].
    open_promise E.
    assert (H6 : consistent
                   (set_channel_members
                      (fun old => old ++ [ChannelMember.mk userId generalId;
                                          ChannelMember.mk userId randomId])
                      (set_channels (fun rows => rows ++ [r])
                         (set_channels (fun rows => rows ++ [g]) d3)))).
    { apply (consistent_add_rows _ H5). intros x [<-|[<-|[]]].
      - exists g. split; [|split; [reflexivity | exact Hm3]].
        simpl. apply in_or_app. left. apply in_or_app. right. left. reflexivity.
      - exists r. split; [|split; [reflexivity | exact Hm3]].
        simpl. apply in_or_app. right. left. reflexivity. }
    apply await_cases; intros d7 a E'; open_promise E'; exact H6.
  - intros userId inviteCode.
    unfold teamController.joinTeam. rewrite controller_fst.
    apply await_cases; intros d0 team E; open_promise E.
    destruct (find _ (teams d0)) as [team|] eqn:Hteam; [|exact Hd].
    apply await_cases; intros d1 existing E; open_promise E.
    destruct (find _ (team_members d1)); [exact Hd|].
    apply await_cases; [intros d2 e E; open_promise E; exact Hd | intros d2 [] E].
    open_promise E.
    set (d1' := set_team_members
                  (fun rows => rows ++ [TeamMember.mk userId (Team.id team) member]) d1).
    assert (H1 : consistent d1') by apply (consistent_add_team_members d1 Hd).
    apply await_cases; intros d3 publicChannels E; open_promise E.
    destruct (for_of_ChannelMember_create_frame userId
                (filter (fun c => (Channel.teamId c =? Team.id team)
                                  && negb (Channel.isPrivate c)) (channels d1)) d1')
      as [rows [o [Eloop Hrows]]].
    assert (H2 : consistent (set_channel_members (fun old => old ++ rows) d1')).
    { apply (consistent_add_rows d1' H1). intros r Hr.
      destruct (Hrows r Hr) as [Eu [c [Hc Ec]]]. apply filter_In in Hc as [Hc Hp].
      apply andb_true_iff in Hp as [Ht _]. apply String.eqb_eq in Ht.
      exists c. split; [exact Hc|]. split; [symmetry; exact Ec|].
      rewrite Eu, Ht. unfold is_team_member, d1'. simpl. rewrite existsb_app. simpl.
      unfold TeamMember_matches at 2. simpl. rewrite !String.eqb_refl. apply orb_true_r. }
    apply await_cases; [intros d4 e E | intros d4 [] E];
      rewrite Eloop in E; inversion E; subst; [exact H2|].
    apply await_cases; intros d5 a E'; open_promise E'; exact H2.
  - intros userId teamId.
    unfold teamController.leaveTeam. rewrite controller_fst.
    apply await_cases; intros d0 team E; open_promise E.
    destruct (find (fun t => Team.id t =? teamId) (teams d0)) as [team|] eqn:Hteam;
      [|exact Hd].
    destruct (String.eqb_spec (Team.ownerId team) userId) as [Ho|Ho]; [exact Hd|].
    apply await_cases; intros d1 a E; open_promise E.
    apply await_cases; intros d2 teamChannels E; open_promise E.
    apply await_cases; intros d3 a E;
      rewrite for_of_ChannelMember_destroy_filter in E; inversion E; subst.
    simpl. apply (consistent_after_leave d0 userId teamId team Hd Hteam Ho).
  - intros userId teamId code.
    unfold teamController.generateInviteCode. rewrite controller_fst.
    apply await_cases; intros d0 team E; open_promise E.
    destruct (find (fun t => Team.id t =? teamId) (teams d0)) as [team|] eqn:Hteam;
      [|exact Hd].
    apply await_cases; intros d1 allowed E.
    { destruct (negb (Team.ownerId team =? userId)); open_promise E. }
    assert (Hsame : d1 = d0).
    { destruct (negb (Team.ownerId team =? userId)); open_promise E; reflexivity. }
    subst d1. clear E. destruct allowed; cbn [negb]; [|exact Hd].
    apply await_cases; [intros d2 e E; open_promise E; exact Hd | intros d2 [] E].
    open_promise E. simpl.
    apply (consistent_same_keys d0 Hd); try reflexivity.
    simpl. rewrite map_map. apply map_ext. intros t.
    destruct (Team.id t =? Team.id team); reflexivity.
Qed.

Lemma messageController_consistent (d : DB) :
  consistent d ->
  (forall userId content channelId id now,
     consistent (fst (messageController.sendMessage userId content channelId id now d)))
  /\ (forall userId messageId content now,
        consistent (fst (messageController.editMessage userId messageId content now d)))
  /\ (forall userId messageId,
        consistent (fst (messageController.deleteMessage userId messageId d)))
  /\ (forall userId messageId emoji,
        consistent (fst (messageController.addReaction userId messageId emoji d))).
Proof.
  intros Hd.
  assert (Hsame : forall d', teams d' = teams d -> channels d' = channels d ->
            team_members d' = team_members d -> channel_members d' = channel_members d ->
            consistent d').
  { intros d' E1 E2 E3 E4. apply (consistent_same_keys d Hd); congruence. }
  split; [|split; [|split]].
  - intros userId content channelId id now.
    unfold messageController.sendMessage, ChannelMember_findOne, Channel_findByPk,
           Message_create, Channel_update_lastMessageId, Message_findByPk_sender.
    run_async.
    destruct (find _ (channel_members d)); simpl; [|exact Hd].
    destruct (find _ (channels d)); simpl; [|exact Hd].
    destruct (negb (len 1 4000 content)); simpl; [exact Hd|].
    destruct (existsb _ (messages d)); simpl; [exact Hd|].
    apply (consistent_same_keys d Hd); try reflexivity.
    simpl. rewrite map_map. apply map_ext. intros c.
    destruct (Channel.id c =? channelId); reflexivity.
  - intros userId messageId content now.
    unfold messageController.editMessage, Message_findOne, Message_update,
           Message_findByPk_sender.
    run_async.
    destruct (find _ (messages d)); simpl; [|exact Hd].
    destruct (negb (len 1 4000 content)); simpl; [exact Hd | apply Hsame; reflexivity].
  - intros userId messageId.
    unfold messageController.deleteMessage, Message_findOne, Message_destroy.
    run_async.
    destruct (find _ (messages d)); simpl; [|exact Hd].
    destruct (existsb _ (messages d) && last_message_of_a_channel messageId d);
      simpl; [exact Hd|].
    destruct (existsb _ (messages d) && parent_of_a_message messageId d);
      simpl; [exact Hd | apply Hsame; reflexivity].
  - intros userId messageId emoji.
    unfold messageController.addReaction, Message_findByPk, ChannelMember_findOne,
           MessageReaction_findOne, MessageReaction_destroy, MessageReaction_create,
           Message_findByPk_reactions.
    run_async.
    destruct (find _ (messages d)); simpl; [|exact Hd].
    destruct (find _ (channel_members d)); simpl; [|exact Hd].
    destruct (find _ (message_reactions d)); simpl; [apply Hsame; reflexivity|].
    destruct (existsb _ (message_reactions d) || existsb _ (message_reactions d));
      simpl; [exact Hd | apply Hsame; reflexivity].
Qed.

(** X19: every controller that writes keeps the membership tables
    consistent: distinct team and channel keys, every team's owner among its
    members, and every channel membership row of an existing channel and of
    a member of that channel's team; this holds for every outcome of the
    request, refusals and failures half-way included.  For [createTeam] the
    invite code drawn must be carried by no team yet. *)
Theorem controllers_keep_memberships_consistent (d : DB) :
  consistent d ->
  (forall userId name description id inviteCode generalId randomId,
     existsb (fun t => match Team.inviteCode t with
                       | Some c => c =? inviteCode
                       | None => false
                       end) (teams d) = false ->
     consistent (fst (teamController.createTeam userId name description id inviteCode
                        generalId randomId d)))
  /\ (forall userId inviteCode,
        consistent (fst (teamController.joinTeam userId inviteCode d)))
  /\ (forall userId teamId,
        consistent (fst (teamController.leaveTeam userId teamId d)))
  /\ (forall userId teamId code,
        consistent (fst (teamController.generateInviteCode userId teamId code d)))
  /\ (forall userId name description teamId isPrivate id,
        consistent (fst (channelController.createChannel userId name description teamId
                           isPrivate id d)))
  /\ (forall userId channelId,
        consistent (fst (channelController.joinChannel userId channelId d)))
  /\ (forall userId channelId,
        consistent (fst (channelController.leaveChannel userId channelId d)))
  /\ (forall userId content channelId id now,
        consistent (fst (messageController.sendMessage userId content channelId id now d)))
  /\ (forall userId messageId content now,
        consistent (fst (messageController.editMessage userId messageId content now d)))
  /\ (forall userId messageId,
        consistent (fst (messageController.deleteMessage userId messageId d)))
  /\ (forall userId messageId emoji,
        consistent (fst (messageController.addReaction userId messageId emoji d))).
Proof.
  intros Hd.
  destruct (teamController_consistent d Hd) as [T1 [T2 [T3 T4]]].
  destruct (channelController_consistent d Hd) as [C1 [C2 C3]].
  destruct (messageController_consistent d Hd) as [M1 [M2 [M3 M4]]].
  exact (conj T1 (conj T2 (conj T3 (conj T4 (conj C1 (conj C2 (conj C3
          (conj M1 (conj M2 (conj M3 M4)))))))))).
Qed.

(** The workspace of the examples is consistent. *)
Lemma Fixture_consistent : consistent Fixture.db0.
Proof.
  constructor.
  - simpl. repeat constructor; simpl; intuition discriminate.
  - simpl. repeat constructor; simpl; intuition discriminate.
  - intros t [<-|[]]. reflexivity.
  - intros r Hr. simpl in Hr. decompose [or] Hr; subst; try reflexivity; contradiction.
  - intros r c Hr Hc E. simpl in Hr, Hc.
    decompose [or] Hr; decompose [or] Hc; subst; try reflexivity; try contradiction;
      discriminate E.
Qed.

(** dave's joining and bob's leaving keep the workspace consistent. *)
Lemma controllers_keep_memberships_consistent_witness :
  consistent (fst (teamController.joinTeam "dave" "invite-1" Fixture.db0))
  /\ consistent (fst (teamController.leaveTeam "bob" "t1" Fixture.db0)).
Proof.
  destruct (controllers_keep_memberships_consistent Fixture.db0 Fixture_consistent)
    as [_ [Hjoin [Hleave _]]].
  split; [apply Hjoin | apply Hleave].
Defined.

(** X20: from a consistent database, the empty one for a start, every
    sequence of requests to the writing routes of teams, channels and
    messages, by whatever callers and with whatever parameters, ends in a
    consistent database, provided each [createTeam] of the sequence draws
    an invite code no team carries at that time. *)
Theorem every_run_is_consistent (requests : list (UUID * Request)) (d : DB) :
  consistent d ->
  draw_fresh_codes requests d = true ->
  consistent (serve_all requests d).
Proof.
  revert d. induction requests as [|[userId request] later IH]; intros d Hd Hfresh;
    [exact Hd|].
  simpl in Hfresh. apply andb_true_iff in Hfresh as [Hcode Hlater].
  simpl. apply IH; [|exact Hlater]. clear IH Hlater.
  destruct (teamController_consistent d Hd) as [T1 [T2 [T3 T4]]].
  destruct (channelController_consistent d Hd) as [C1 [C2 C3]].
  destruct (messageController_consistent d Hd) as [M1 [M2 [M3 M4]]].
  destruct request; simpl; auto.
  apply T1. simpl in Hcode. apply negb_true_iff. exact Hcode.
Qed.

(** The tour of the empty database. *)
Lemma every_run_is_consistent_witness :
  consistent (serve_all Tour.requests Tour.empty)
  /\ map Team.id (teams (serve_all Tour.requests Tour.empty)) = ["t1"]
  /\ map ChannelMember.userId (channel_members (serve_all Tour.requests Tour.empty))
     = ["alice"; "alice"; "alice"].
Proof.
  assert (Hempty : consistent Tour.empty).
  { constructor; simpl; try constructor; contradiction. }
  split; [|split; reflexivity].
  apply (every_run_is_consistent Tour.requests Tour.empty Hempty). reflexivity.
Defined.
